(** * Chaos scheduler and flag setter of the OpenTelemetry demo

    A shallow embedding of [src/chaos-scheduler/toggle-flags.py] (the flag
    catalog and Setter) and of [src/chaos-scheduler/chaos-scheduler.py] (the
    Driver), with the properties of the specification stated over it.

    Conventions of the embedding.
    - The interval string, the one string whose characters the code
      inspects, is the list of its code points; which code points are decimal
      digits is the interpreter's Unicode table, taken through an interface.
      Every other [str] is only compared and passed on, and is a [string].
    - A Python [dict] is an association list in insertion order: the order is
      observable ([list(d.keys())] feeds [random.choice], and the JSON
      document lists its members in that order).
    - [None] and raised exceptions are [option]'s [None]; output and calls to
      the outside world are recorded as events.
    - A float is an exact rational.  The loop's arithmetic on clock readings
      is then the program's own where binary64 does not round: on readings
      that are binary64 values between 2^30 and 2^31 seconds with the
      interval ending in that range ([exact_interval]); the statements whose
      truth depends on the value of a sum or difference assume it.  The
      exceptions that the library calls of the loop raise far out of that
      range (the [OverflowError] of a float conversion or of [time.sleep],
      the range check of [datetime.fromtimestamp]) and [KeyboardInterrupt]
      are not modelled: a turn of the loop always returns. *)

From Stdlib Require Import ZArith QArith Qround String Ascii List Bool Lia Lqa.
From Stdlib Require Import DecimalString.
Import ListNotations.

Local Open Scope string_scope.
Local Open Scope list_scope.
Local Open Scope Z_scope.

(** ** Python values and dictionaries *)

(** The values that occur in variant tables: [True]/[False], integers and
    float literals.  A float literal is kept as the decimal fraction written
    in the source ([0.95] is [95 # 100]). *)
Inductive pyval : Type :=
| PyBool (b : bool)
| PyInt (n : Z)
| PyFloat (q : Q).

(** [a == b] on strings *)
Infix "==" := String.eqb (at level 70, no associativity) : string_scope.

Definition pydict (V : Type) : Type := list (string * V).

(** [d.get(k)] *)
Fixpoint dict_get {V : Type} (d : pydict V) (k : string) : option V :=
  match d with
  | [] => None
  | (k', v) :: d' => if k == k' then Some v else dict_get d' k
  end.

(** [d[k] = v]: an existing key keeps its position, a new key goes last. *)
Fixpoint dict_set {V : Type} (d : pydict V) (k : string) (v : V) : pydict V :=
  match d with
  | [] => [(k, v)]
  | (k', v') :: d' =>
      if k == k' then (k', v) :: d' else (k', v') :: dict_set d' k v
  end.

(** [list(d.keys())] *)
Definition dict_keys {V : Type} (d : pydict V) : list string := map fst d.

(** [x in l] for a list of strings *)
Definition str_in (x : string) (l : list string) : bool :=
  existsb (fun y => x == y) l.

(** ** toggle-flags.py: the flag catalog *)

Module Setter.

Definition boolean_flags : list string :=
  [ "productCatalogFailure"; "recommendationCacheFailure"; "adManualGc";
    "adHighCpu"; "adFailure"; "cartFailure"; "paymentUnreachable" ].

Definition numeric_flags : list string :=
  [ "kafkaQueueProblems"; "loadGeneratorFloodHomepage" ].

Definition payment_variant_map : pydict pyval :=
  [ ("100%", PyInt 1);
    ("90%", PyFloat (95 # 100));
    ("75%", PyFloat (75 # 100));
    ("50%", PyFloat (5 # 10));
    ("25%", PyFloat (25 # 100));
    ("10%", PyFloat (1 # 10));
    ("off", PyInt 0) ].

Definition image_variant_map : pydict pyval :=
  [ ("10sec", PyInt 10000); ("5sec", PyInt 5000); ("off", PyInt 0) ].

(** [get_variant_value(flag_name, variant)] *)
Definition get_variant_value (flag_name variant : string) : option pyval :=
  if str_in flag_name boolean_flags then
    if variant == "on" then Some (PyBool true)
    else if variant == "off" then Some (PyBool false)
    else None
  else if str_in flag_name numeric_flags then
    if variant == "on" then Some (PyInt 100)
    else if variant == "off" then Some (PyInt 0)
    else None
  else if flag_name == "paymentFailure" then
    dict_get payment_variant_map variant
  else if flag_name == "imageSlowLoad" then
    dict_get image_variant_map variant
  else None.

(** [get_all_variants(flag_name)] *)
Definition get_all_variants (flag_name : string) : pydict pyval :=
  if str_in flag_name boolean_flags then
    [ ("on", PyBool true); ("off", PyBool false) ]
  else if str_in flag_name numeric_flags then
    [ ("on", PyInt 100); ("off", PyInt 0) ]
  else if flag_name == "paymentFailure" then
    [ ("100%", PyInt 1);
      ("90%", PyFloat (95 # 100));
      ("75%", PyFloat (75 # 100));
      ("50%", PyFloat (5 # 10));
      ("25%", PyFloat (25 # 100));
      ("10%", PyFloat (1 # 10));
      ("off", PyInt 0) ]
  else if flag_name == "imageSlowLoad" then
    [ ("10sec", PyInt 10000); ("5sec", PyInt 5000); ("off", PyInt 0) ]
  else [].

Definition descriptions : pydict string :=
  [ ("productCatalogFailure", "Fail product catalog service on a specific product");
    ("recommendationCacheFailure", "Fail recommendation service cache");
    ("adManualGc", "Triggers full manual garbage collections in the ad service");
    ("adHighCpu", "Triggers high cpu load in the ad service");
    ("adFailure", "Fail ad service");
    ("kafkaQueueProblems", "Overloads Kafka queue while simultaneously introducing a consumer side delay leading to a lag spike");
    ("cartFailure", "Fail cart service");
    ("paymentFailure", "Fail payment service charge requests n%");
    ("paymentUnreachable", "Payment service is unavailable");
    ("loadGeneratorFloodHomepage", "Flood the frontend with a large amount of requests.");
    ("imageSlowLoad", "slow loading images in the frontend") ].

(** [get_flag_description(flag_name)]: [descriptions.get(flag_name, "")] *)
Definition get_flag_description (flag_name : string) : string :=
  match dict_get descriptions flag_name with
  | Some d => d
  | None => ""
  end.

(** One member of the ["flags"] object of the document. *)
Record flag_entry : Type := mk_flag_entry {
  fe_description : string;
  fe_state : string;
  fe_variants : pydict pyval;
  fe_defaultVariant : string
}.

(** [{"data": {"$schema": ..., "flags": ...}}] *)
Record document : Type := mk_document {
  doc_schema : string;
  doc_flags : pydict flag_entry
}.

Definition all_flags : list string :=
  [ "productCatalogFailure"; "recommendationCacheFailure"; "adManualGc";
    "adHighCpu"; "adFailure"; "kafkaQueueProblems"; "cartFailure";
    "paymentFailure"; "paymentUnreachable"; "loadGeneratorFloodHomepage";
    "imageSlowLoad" ].

(** The body of the [for flag_name in all_flags] loop of [construct_json]. *)
Definition construct_entry (target_flag target_variant flag_name : string)
  : flag_entry :=
  let default_variant :=
    if flag_name == target_flag then target_variant
    else if flag_name == "productCatalogFailure" then "on"
    else "off" in
  {| fe_description := get_flag_description flag_name;
     fe_state := "ENABLED";
     fe_variants := get_all_variants flag_name;
     fe_defaultVariant := default_variant |}.

(** [construct_json(target_flag, target_variant)] *)
Definition construct_json (target_flag target_variant : string) : document :=
  let flags :=
    fold_left
      (fun flags flag_name =>
         dict_set flags flag_name
           (construct_entry target_flag target_variant flag_name))
      all_flags [] in
  {| doc_schema := "https://flagd.dev/schema/v0/flags.json";
     doc_flags := flags |}.

End Setter.

(** ** toggle-flags.py: the Setter's write *)

Module SetterIO.
Import Setter.

(** What [requests.post] does: a response, or one of the two kinds of
    exception that [set_flag] tells apart. *)
Inductive http_result : Type :=
| HttpResponse (status_code : Z) (text : string)
| HttpRequestException (e : string)
| HttpException (e : string).

(** The lines [set_flag] prints. *)
Inductive message : Type :=
| MsgInvalid (flag_name variant : string)
| MsgUsage
| MsgSetting (flag_name variant : string)
| MsgSuccess (flag_name variant : string)
| MsgHttpFailure (status_code : Z)
| MsgResponse (text : string)
| MsgConnectFailure (e : string)
| MsgEnsureRunning (base_url : string)
| MsgError (e : string).

Inductive event : Type :=
| Print (m : message)
| Post (url : string) (json : document) (timeout : Z).

Definition is_post (e : event) : bool :=
  match e with
  | Post _ _ _ => true
  | Print _ => false
  end.

Section SetFlag.

(** The module-level [BASE_URL] and the service behind [requests.post]. *)
Variable BASE_URL : string.
Variable requests_post : string -> document -> http_result.

(** [set_flag(flag_name, variant)]: the result and the events, in order. *)
Definition set_flag (flag_name variant : string) : bool * list event :=
  match get_variant_value flag_name variant with
  | None =>
      (false, [Print (MsgInvalid flag_name variant); Print MsgUsage])
  | Some _ =>
      let json_payload := construct_json flag_name variant in
      let url := String.append BASE_URL "/write-to-file" in
      let sent := [Print (MsgSetting flag_name variant);
                   Post url json_payload 10] in
      match requests_post url json_payload with
      | HttpResponse status_code text =>
          if (status_code =? 200) || (status_code =? 201) then
            (true, sent ++ [Print (MsgSuccess flag_name variant)])
          else
            (false, sent ++ [Print (MsgHttpFailure status_code);
                             Print (MsgResponse text)])
      | HttpRequestException e =>
          (false, sent ++ [Print (MsgConnectFailure e);
                           Print (MsgEnsureRunning BASE_URL)])
      | HttpException e =>
          (false, sent ++ [Print (MsgError e)])
      end
  end.

End SetFlag.

End SetterIO.

(** ** The pseudo-random generator

    Python's [random] module is not part of the repository.  It is taken
    through its interface: a generator state, [random.seed], and the
    primitive [_randbelow(n)] that every integer draw goes through, with the
    contract that the result lies in [[0, n)]. *)

Class RandomGen : Type := {
  rng_state : Type;
  rng_seed : Z -> rng_state;
  randbelow : Z -> rng_state -> Z * rng_state;
  randbelow_range :
    forall n g, 0 < n -> 0 <= fst (randbelow n g) < n
}.

Section RandomModule.

Context {R : RandomGen}.

(** [random.randrange(start, stop)]; an empty range raises [ValueError]. *)
Definition randrange (start stop : Z) (g : rng_state)
  : option (Z * rng_state) :=
  let width := stop - start in
  if 0 <? width then
    let (r, g') := randbelow width g in Some (start + r, g')
  else None.

(** [random.randint(a, b)] is [randrange(a, b + 1)]. *)
Definition randint (a b : Z) (g : rng_state) : option (Z * rng_state) :=
  randrange a (b + 1) g.

(** [random.choice(seq)] is [seq[_randbelow(len(seq))]]; an empty sequence
    raises [IndexError]. *)
Definition choice {A : Type} (seq : list A) (g : rng_state)
  : option (A * rng_state) :=
  match seq with
  | [] => None
  | _ =>
      let (i, g') := randbelow (Z.of_nat (length seq)) g in
      match nth_error seq (Z.to_nat i) with
      | Some x => Some (x, g')
      | None => None
      end
  end.

End RandomModule.

(** A concrete generator to run the model on: a linear congruential
    generator with the constants of the C library's [rand]. *)
Definition lcg_next (g : Z) : Z := (1103515245 * g + 12345) mod 2 ^ 31.

Definition lcg_randbelow (n : Z) (g : Z) : Z * Z :=
  let g' := lcg_next g in ((g' / 65536) mod n, g').

Definition lcg : RandomGen :=
  {| rng_state := Z;
     rng_seed := fun s => Z.abs s mod 2 ^ 31;
     randbelow := lcg_randbelow;
     randbelow_range :=
       fun n g Hn => Z.mod_pos_bound (lcg_next g / 65536) n Hn |}.

(** ** The interpreter's text primitives

    The regular expression class [\d] and the conversion [int] of a string
    rest on the interpreter's table of decimal digits, which grows with the
    Unicode version, and [int] refuses a string with more digits than
    [sys.get_int_max_str_digits()] (4300 unless configured; 0 is no limit,
    and a limit is never set below 640).  Neither is part of the
    repository: both are taken through this interface.  On ASCII the table
    is fixed: the decimal digits are ['0'..'9']. *)

Definition ustring : Type := list N.

(** The code points of a string of the range 0..255. *)
Definition codepoints (s : string) : ustring :=
  map N_of_ascii (list_ascii_of_string s).

Definition ascii_digit (c : N) : bool := ((48 <=? c) && (c <=? 57))%N.

Class Interpreter : Type := {
  decimal : N -> option Z;
  decimal_ascii :
    forall c, (c < 128)%N ->
      decimal c = if ascii_digit c then Some (Z.of_N c - 48) else None;
  decimal_range : forall c d, decimal c = Some d -> 0 <= d <= 9;
  int_max_str_digits : nat;
  int_max_str_digits_range :
    int_max_str_digits = 0%nat \/ (640 <= int_max_str_digits)%nat
}.

(** An interpreter to run the model on: the ASCII, Arabic-Indic and
    Devanagari digits, and the default limit. *)
Definition sample_decimal (c : N) : option Z :=
  if ascii_digit c then Some (Z.of_N c - 48)
  else if ((1632 <=? c) && (c <=? 1641))%N then Some (Z.of_N c - 1632)
  else if ((2406 <=? c) && (c <=? 2415))%N then Some (Z.of_N c - 2406)
  else None.

Definition sample_interpreter : Interpreter.
Proof.
  refine {| decimal := sample_decimal; int_max_str_digits := 4300 |}.
  - abstract
      (intros c Hc; unfold sample_decimal;
       destruct (ascii_digit c); [reflexivity | ];
       destruct (N.leb_spec 1632 c); [lia | ];
       destruct (N.leb_spec 2406 c); [lia | ];
       reflexivity).
  - abstract
      (intros c d; unfold sample_decimal, ascii_digit;
       destruct (N.leb_spec 48 c); destruct (N.leb_spec c 57);
       destruct (N.leb_spec 1632 c); destruct (N.leb_spec c 1641);
       destruct (N.leb_spec 2406 c); destruct (N.leb_spec c 2415);
       cbn [andb]; intros Hd;
       first [discriminate Hd | injection Hd as <-; lia | lia]).
  - abstract (right; lia).
Defined.

(** ** chaos-scheduler.py: the Driver *)

Module Driver.

(** *** Interval strings *)

Section IntervalStrings.

Context {I : Interpreter}.

(** The class [\d] of a [str] pattern: the decimal digits of every
    script. *)
Definition is_digit (c : N) : bool :=
  match decimal c with
  | Some _ => true
  | None => false
  end.

(** The class [[a-zA-Z]]. *)
Definition is_alpha (c : N) : bool :=
  (((65 <=? c) && (c <=? 90)) || ((97 <=? c) && (c <=? 122)))%N.

(** The longest prefix whose elements satisfy [p], and what follows it:
    a greedy [p+] read from the left. *)
Fixpoint span {A : Type} (p : A -> bool) (s : list A) : list A * list A :=
  match s with
  | [] => ([], [])
  | c :: s' =>
      if p c then let (a, b) := span p s' in (c :: a, b)
      else ([], s)
  end.

(** [re.match(r'(\d+)([a-zA-Z]+)', s)]: groups 1 and 2 of a match at the
    start of [s].  Nothing is required of what follows group 2.  No character
    is both a digit and a letter, so giving back digits never helps and the
    greedy reading is the only one. *)
Definition re_match (s : ustring) : option (ustring * ustring) :=
  let (digits, rest) := span is_digit s in
  let (letters, _) := span is_alpha rest in
  match digits, letters with
  | _ :: _, _ :: _ => Some (digits, letters)
  | _, _ => None
  end.

Definition digit_value (c : N) : Z :=
  match decimal c with
  | Some d => d
  | None => 0
  end.

(** The value of a string of decimal digits. *)
Fixpoint int_digits (acc : Z) (s : ustring) : Z :=
  match s with
  | [] => acc
  | c :: s' => int_digits (10 * acc + digit_value c) s'
  end.

(** [int(match.group(1))].  The group holds decimal digits only, so the
    conversion cannot fail on its shape; it raises [ValueError] ([None])
    when the digits, leading zeros included, are more than the limit. *)
Definition py_int_str (s : ustring) : option Z :=
  if ((0 <? int_max_str_digits) && (int_max_str_digits <? length s))%nat
  then None
  else Some (int_digits 0 s).

(** [c.lower()] for the characters of group 2, which are ASCII letters. *)
Definition lower_char (c : N) : N :=
  if ((65 <=? c) && (c <=? 90))%N then (c + 32)%N else c.

(** [match.group(2).lower()] *)
Definition lower (s : ustring) : ustring := map lower_char s.

Definition unit_multipliers : pydict Z :=
  [ ("sec", 1); ("second", 1); ("seconds", 1);
    ("min", 60); ("minute", 60); ("minutes", 60);
    ("h", 3600); ("hour", 3600); ("hours", 3600);
    ("day", 86400); ("days", 86400) ].

(** [a == b] for a [str] given by its code points and one of the range
    0..255. *)
Fixpoint ustring_eqb (a b : ustring) : bool :=
  match a, b with
  | [], [] => true
  | x :: a', y :: b' => (x =? y)%N && ustring_eqb a' b'
  | _, _ => false
  end.

(** [d.get(k)] for a key given by its code points. *)
Fixpoint unit_get (d : pydict Z) (k : ustring) : option Z :=
  match d with
  | [] => None
  | (k', v) :: d' =>
      if ustring_eqb k (codepoints k') then Some v else unit_get d' k
  end.

(** [parse_interval(interval_str)]; 0 is the signal for an invalid string,
    [None] the [ValueError] of [int]. *)
Definition parse_interval (interval_str : ustring) : option Z :=
  match re_match interval_str with
  | None => Some 0
  | Some (g1, g2) =>
      match py_int_str g1 with
      | None => None
      | Some number =>
          let unit := lower g2 in
          match unit_get unit_multipliers unit with
          | None => Some 0
          | Some multiplier => Some (number * multiplier)
          end
      end
  end.

End IntervalStrings.

(** The value of a string of ASCII digits. *)
Fixpoint ascii_int (acc : Z) (s : ustring) : Z :=
  match s with
  | [] => acc
  | c :: s' => ascii_int (10 * acc + (Z.of_N c - 48)) s'
  end.

(** What the specification's grammar says, for comparison: a string is
    [<positive integer><unit>], the integer written in the digits
    ['0'..'9'], the unit one of the eleven names in any letter case, and
    nothing else. *)
Definition in_grammar (s : ustring) : bool :=
  let (digits, unit) := span ascii_digit s in
  match digits with
  | [] => false
  | _ :: _ =>
      (0 <? ascii_int 0 digits)
      && match unit_get unit_multipliers (lower unit) with
         | Some _ => true
         | None => false
         end
  end.

(** *** The flags the Driver draws from *)

Definition available_flags : pydict (list string) :=
  [ ("productCatalogFailure", ["on"]);
    ("recommendationCacheFailure", ["on"]);
    ("adManualGc", ["on"]);
    ("adHighCpu", ["on"]);
    ("adFailure", ["on"]);
    ("kafkaQueueProblems", ["on"]);
    ("cartFailure", ["on"]);
    ("paymentFailure", ["100%"; "90%"; "75%"; "50%"; "25%"; "10%"]);
    ("paymentUnreachable", ["on"]);
    ("loadGeneratorFloodHomepage", ["on"]);
    ("imageSlowLoad", ["10sec"; "5sec"]) ].

Definition DEFAULT_BASE_URL : string := "http://localhost:8080/feature/api".

(** The attributes of [ChaosScheduler] set by [parse_args]. *)
Record config : Type := mk_config {
  dry_run : bool;
  interval_seconds : Z;
  seed : option Z;
  toggle_script : string;
  base_url : string
}.

(** *** The outside world *)

(** What [subprocess.run(cmd, timeout=30)] does. *)
Inductive proc_result : Type :=
| Completed (returncode : Z) (stderr : string)
| TimeoutExpired
| Raised (e : string).

(** The environment of a run: the value of each successive [time.time()]
    (seconds; a float is taken as the rational it is), the outcome of each
    successive [subprocess.run], and [sys.executable].  Nothing is assumed
    of the readings: the wall clock may be stepped, and a sleep may
    overrun. *)
Record env : Type := mk_env {
  clock : nat -> Q;
  run_process : nat -> list string -> proc_result;
  sys_executable : string
}.

(** The lines the Driver logs, each with the values its text is built
    from (the text itself, with its time stamp and [format_duration]
    rendering, is not modelled; [LogStderr] carries the Setter's error
    output, which the source strips of surrounding blanks). *)
Inductive log_msg : Type :=
| LogStart (interval : Z)
| LogDryRunMode
| LogUsingSeed (s : Z)
| LogRandomSeed (s : Z)
| LogBeginInterval (interval_count interval : Z)
| LogNextTrigger (random_offset : Z) (trigger_time : Q)
| LogIntervalEnded
| LogTrigger (flag_name variant : string) (flag_duration : Z)
| LogActivated (flag_name variant : string)
| LogRevert (flag_name : string)
| LogReverted (flag_name : string)
| LogWaiting (wait_time : Z)
| LogEndInterval (interval_count : Z)
| LogWouldRun (cmd : list string)
| LogFailed (flag_name variant script : string)
| LogStderr (stderr : string)
| LogTimeout (flag_name variant : string)
| LogError (flag_name variant e : string).

Inductive event : Type :=
| Log (m : log_msg)
| PrintRule
| Sleep (secs : Q)
| RunProcess (cmd : list string) (timeout : Z).

(** One interval's draws: the values the specification calls offset, fault,
    variant and activeDuration.  The duration is absent when the interval was
    left before it was drawn. *)
Record draw : Type := mk_draw {
  d_offset : Z;
  d_flag : string;
  d_variant : string;
  d_duration : option Z
}.

Section Loop.

Context {R : RandomGen}.

(** The state a run threads through: the module-level generator of
    [random], how many clock readings and process runs were consumed, and
    the events so far, oldest first. *)
Record world : Type := mk_world {
  w_rng : rng_state;
  w_reads : nat;
  w_runs : nat;
  w_trace : list event
}.

(** A computation on the world; [None] is an exception nobody catches. *)
Definition M (A : Type) : Type := world -> option (A * world).

Definition ret {A : Type} (a : A) : M A := fun w => Some (a, w).

Definition bind {A B : Type} (m : M A) (k : A -> M B) : M B :=
  fun w => match m w with
           | Some (a, w') => k a w'
           | None => None
           end.

Notation "x <- m ;; k" := (bind m (fun x => k))
  (at level 61, m at next level, right associativity).
Notation "m ;; k" := (bind m (fun _ => k))
  (at level 61, right associativity).

Definition emit (ev : event) : M unit :=
  fun w => Some (tt, {| w_rng := w_rng w; w_reads := w_reads w;
                        w_runs := w_runs w;
                        w_trace := w_trace w ++ [ev] |}).

(** [self.log_message(message)] *)
Definition log_message (m : log_msg) : M unit := emit (Log m).

(** A draw from the module-level generator. *)
Definition draw_with {A : Type}
    (f : rng_state -> option (A * rng_state)) : M A :=
  fun w => match f (w_rng w) with
           | Some (a, g) =>
               Some (a, {| w_rng := g; w_reads := w_reads w;
                           w_runs := w_runs w; w_trace := w_trace w |})
           | None => None
           end.

(** [random.seed(s)] *)
Definition random_seed (s : Z) : M unit :=
  fun w => Some (tt, {| w_rng := rng_seed s; w_reads := w_reads w;
                        w_runs := w_runs w; w_trace := w_trace w |}).

Definition when (b : bool) (m : M unit) : M unit :=
  if b then m else ret tt.

Variable cfg : config.
Variable e : env.

(** [time.time()] *)
Definition time_time : M Q :=
  fun w => Some (clock e (w_reads w),
                 {| w_rng := w_rng w; w_reads := S (w_reads w);
                    w_runs := w_runs w; w_trace := w_trace w |}).

(** [time.sleep(secs)] *)
Definition time_sleep (secs : Q) : M unit := emit (Sleep secs).

(** [subprocess.run(cmd, capture_output=True, text=True, timeout=t)] *)
Definition subprocess_run (cmd : list string) (t : Z) : M proc_result :=
  fun w => Some (run_process e (w_runs w) cmd,
                 {| w_rng := w_rng w; w_reads := w_reads w;
                    w_runs := S (w_runs w);
                    w_trace := w_trace w ++ [RunProcess cmd t] |}).

(** [int(x)] of a float: truncation towards zero.  Its argument in the
    loop is a difference, computed here without rounding. *)
Definition py_int (x : Q) : Z := Z.quot (Qnum x) (Zpos (Qden x)).

(** [a < b] on floats *)
Definition Qltb (a b : Q) : bool := negb (Qle_bool b a).

(** [self.get_random_flag_variant()] *)
Definition get_random_flag_variant (g : rng_state)
  : option ((string * string) * rng_state) :=
  match choice (dict_keys available_flags) g with
  | None => None
  | Some (flag_name, g1) =>
      match dict_get available_flags flag_name with
      | None => None
      | Some variants =>
          match choice variants g1 with
          | None => None
          | Some (variant, g2) => Some ((flag_name, variant), g2)
          end
      end
  end.

(** The command line [set_flag] builds. *)
Definition set_flag_cmd (flag_name variant : string) : list string :=
  [sys_executable e; toggle_script cfg; flag_name; variant]
  ++ (if base_url cfg == DEFAULT_BASE_URL then []
      else ["--base-url"; base_url cfg]).

(** [self.set_flag(flag_name, variant)] *)
Definition set_flag (flag_name variant : string) : M bool :=
  let cmd := set_flag_cmd flag_name variant in
  if dry_run cfg then
    log_message (LogWouldRun cmd) ;; ret true
  else
    result <- subprocess_run cmd 30 ;;
    match result with
    | Completed returncode stderr =>
        if returncode =? 0 then ret true
        else
          log_message (LogFailed flag_name variant (toggle_script cfg)) ;;
          when (negb (stderr == "")) (log_message (LogStderr stderr)) ;;
          ret false
    | TimeoutExpired =>
        log_message (LogTimeout flag_name variant) ;; ret false
    | Raised err =>
        log_message (LogError flag_name variant err) ;; ret false
    end.

(** The statement [if self.set_flag(flag_name, variant): ...] of the loop:
    the activation and, inside the [if], the hold and the revert. *)
Definition activate_and_revert (flag_name variant : string)
    (flag_duration : Z) : M unit :=
  ok <- set_flag flag_name variant ;;
  if ok then
    when (negb (dry_run cfg))
         (log_message (LogActivated flag_name variant)) ;;
    time_sleep (inject_Z flag_duration) ;;
    log_message (LogRevert flag_name) ;;
    reverted <- set_flag flag_name "off" ;;
    when (reverted && negb (dry_run cfg))
         (log_message (LogReverted flag_name))
  else ret tt.

(** The statements from [# Wait until end of interval] to the end of the
    loop body. *)
Definition finish_interval (interval_count : Z) (interval_end_time : Q)
  : M unit :=
  current_time <- time_time ;;
  when (Qltb current_time interval_end_time)
       (let wait_time := py_int (interval_end_time - current_time) in
        when (0 <? wait_time)
             (log_message (LogWaiting wait_time) ;;
              time_sleep (inject_Z wait_time))) ;;
  log_message (LogEndInterval interval_count) ;;
  emit PrintRule.

(** One turn of [while True], [interval_count] already incremented. *)
Definition interval_body (interval_count : Z) : M draw :=
  interval_start_time <- time_time ;;
  let interval_end_time :=
    (interval_start_time + inject_Z (interval_seconds cfg))%Q in
  log_message (LogBeginInterval interval_count (interval_seconds cfg)) ;;
  random_offset <-
    draw_with (randint 0 (Z.max 0 (interval_seconds cfg - 1))) ;;
  let trigger_time := (interval_start_time + inject_Z random_offset)%Q in
  log_message (LogNextTrigger random_offset trigger_time) ;;
  current_time <- time_time ;;
  when (Qltb current_time trigger_time)
       (time_sleep (trigger_time - current_time)) ;;
  fv <- draw_with get_random_flag_variant ;;
  let flag_name := fst fv in
  let variant := snd fv in
  current_time <- time_time ;;
  let remaining_time := py_int (interval_end_time - current_time) in
  if remaining_time <=? 0 then
    log_message LogIntervalEnded ;;
    ret (mk_draw random_offset flag_name variant None)
  else
    flag_duration <- draw_with (randint 1 (Z.max 1 remaining_time)) ;;
    log_message (LogTrigger flag_name variant flag_duration) ;;
    activate_and_revert flag_name variant flag_duration ;;
    finish_interval interval_count interval_end_time ;;
    ret (mk_draw random_offset flag_name variant (Some flag_duration)).

(** [n] turns of the loop, starting after [interval_count] turns.  The
    loop has no exit of its own; the interrupt that ends a run is not
    modelled, a run is observed through its first [n] turns. *)
Fixpoint intervals (n : nat) (interval_count : Z) : M (list draw) :=
  match n with
  | O => ret []
  | S n' =>
      d <- interval_body (interval_count + 1) ;;
      ds <- intervals n' (interval_count + 1) ;;
      ret (d :: ds)
  end.

(** [self.chaos_loop()], cut after [n] turns of its [while True]. *)
Definition chaos_loop (n : nat) : M (list draw) :=
  log_message (LogStart (interval_seconds cfg)) ;;
  when (dry_run cfg) (log_message LogDryRunMode) ;;
  match seed cfg with
  | Some s => log_message (LogUsingSeed s)
  | None =>
      current_seed <- draw_with (randrange 0 (2 ^ 31)) ;;
      random_seed current_seed ;;
      log_message (LogRandomSeed current_seed)
  end ;;
  intervals n 0.

(** The generator when [chaos_loop] starts: [parse_args] has called
    [random.seed(self.seed)] when a seed was given; otherwise the generator
    is in the state [g0] the interpreter gave it. *)
Definition initial_world (g0 : rng_state) : world :=
  {| w_rng := match seed cfg with
              | Some s => rng_seed s
              | None => g0
              end;
     w_reads := O; w_runs := O; w_trace := [] |}.

(** [parse_args] followed by [chaos_loop]: the draws of the first [n]
    intervals and the final world. *)
Definition run (g0 : rng_state) (n : nat) : option (list draw * world) :=
  chaos_loop n (initial_world g0).

End Loop.

(** The part of the events that makes the timing of a run: the sleeps and
    the Setter invocations, performed or only reported. *)
Inductive timing : Type :=
| THold (secs : Q)
| TSet (cmd : list string).

Fixpoint timing_view (tr : list event) : list timing :=
  match tr with
  | [] => []
  | Sleep secs :: tr' => THold secs :: timing_view tr'
  | RunProcess cmd _ :: tr' => TSet cmd :: timing_view tr'
  | Log (LogWouldRun cmd) :: tr' => TSet cmd :: timing_view tr'
  | _ :: tr' => timing_view tr'
  end.

Definition is_run_process (ev : event) : bool :=
  match ev with
  | RunProcess _ _ => true
  | _ => false
  end.

Definition is_log (ev : event) : bool :=
  match ev with
  | Log _ => true
  | _ => false
  end.

End Driver.

(** ** chaos-scheduler.py: start-up *)

Module DriverCLI.
Import Driver.

(** [str(n)] of an integer: decimal digits, with a minus sign when
    negative. *)
Definition str_of_int (n : Z) : string :=
  NilZero.string_of_int (Z.to_int n).

(** [self.format_duration(seconds)]; [//] and [%] are the flooring
    division and its remainder. *)
Definition format_duration (seconds : Z) : string :=
  if seconds <? 60 then
    String.append (str_of_int seconds) "s"
  else if seconds <? 3600 then
    let minutes := seconds / 60 in
    let remaining_seconds := seconds mod 60 in
    String.append (str_of_int minutes)
      (String.append "m "
         (String.append (str_of_int remaining_seconds) "s"))
  else if seconds <? 86400 then
    let hours := seconds / 3600 in
    let remaining_minutes := (seconds mod 3600) / 60 in
    String.append (str_of_int hours)
      (String.append "h "
         (String.append (str_of_int remaining_minutes) "m"))
  else
    let days := seconds / 86400 in
    let remaining_hours := (seconds mod 86400) / 3600 in
    String.append (str_of_int days)
      (String.append "d "
         (String.append (str_of_int remaining_hours) "h")).

(** What [argparse] hands to [parse_args]: the positional interval and the
    three options. *)
Record namespace : Type := mk_namespace {
  ns_interval : ustring;
  ns_dry_run : bool;
  ns_seed : option Z;
  ns_base_url : string
}.

(** The exceptions of the probe that [validate_toggle_script] reports:
    the time limit of [subprocess.run], or any other one with its text. *)
Inductive probe_exception : Type :=
| ProbeTimedOut (cmd : list string) (timeout : Z)
| ProbeRaised (e : string).

(** The exception that start-up lets through. *)
Inductive exception : Type :=
| ValueError.

(** The lines the start-up prints (with [print], not through the log), and
    the traceback the interpreter prints for an exception nothing
    catches. *)
Inductive line : Type :=
| LineTraceback (e : exception)
| LineUsage
| LineInvalidInterval (interval : ustring)
| LineTooShort
| LineNotFound (script : string)
| LineEnsurePresent
| LineNotWorking (script : string)
| LineEnsureFunctional
| LineCannotExecute (script : string) (e : probe_exception).

(** A start-up step leaves the process with [sys.exit(code)], goes on with
    a result, or raises; each after the lines printed. *)
Inductive step (A : Type) : Type :=
| Exit (code : Z) (out : list line)
| Continue (a : A) (out : list line)
| Raise (e : exception) (out : list line).

Arguments Exit {A}.
Arguments Continue {A}.
Arguments Raise {A}.

(** The attribute values [__init__] sets. *)
Definition initial_config : config :=
  {| dry_run := false; interval_seconds := 0; seed := None;
     toggle_script := "./toggle-flags.py";
     base_url := "http://localhost:8080/feature/api" |}.

(** [self.parse_args()].  [argv] is [sys.argv[1:]]; [parsed] is what
    [parser.parse_args()] makes of it, [None] when it leaves with
    [SystemExit].  The [ValueError] of [parse_interval] is not caught.  The
    call [random.seed(self.seed)] at the end is the generator of
    [initial_world]. *)
Definition parse_args {I : Interpreter} (argv : list string)
    (parsed : option namespace) : step config :=
  match argv with
  | [] => Exit 0 [LineUsage]
  | first :: _ =>
      if str_in first ["-h"; "--help"] then Exit 0 [LineUsage]
      else
        match parsed with
        | None => Exit 1 [LineUsage]
        | Some args =>
            match parse_interval (ns_interval args) with
            | None => Raise ValueError []
            | Some interval_seconds =>
                if interval_seconds =? 0 then
                  Exit 1 [LineInvalidInterval (ns_interval args); LineUsage]
                else if interval_seconds <? 10 then
                  Exit 1 [LineTooShort]
                else
                  Continue
                    {| dry_run := ns_dry_run args;
                       interval_seconds := interval_seconds;
                       seed := ns_seed args;
                       toggle_script := toggle_script initial_config;
                       base_url := ns_base_url args |}
                    []
            end
        end
  end.

(** The command of the liveness probe. *)
Definition probe_cmd (cfg : config) (e : env) : list string :=
  [sys_executable e; toggle_script cfg; "--help"]
  ++ (if base_url cfg == DEFAULT_BASE_URL then []
      else ["--base-url"; base_url cfg]).

(** [self.validate_toggle_script()].  [script_exists] is
    [Path(self.toggle_script).exists()]; the probe is the process run
    number 0 of the environment.  The result says whether a process was
    run. *)
Definition validate_toggle_script (cfg : config) (e : env)
    (script_exists : bool) : step bool :=
  if negb script_exists then
    Exit 1 [LineNotFound (toggle_script cfg); LineEnsurePresent]
  else
    match run_process e 0 (probe_cmd cfg e) with
    | Completed returncode _ =>
        if negb (returncode =? 0) then
          Exit 1 [LineNotWorking (toggle_script cfg); LineEnsureFunctional]
        else Continue true []
    | TimeoutExpired =>
        Exit 1 [LineCannotExecute (toggle_script cfg)
                  (ProbeTimedOut (probe_cmd cfg e) 5)]
    | Raised err =>
        Exit 1 [LineCannotExecute (toggle_script cfg) (ProbeRaised err)]
    end.

(** How a whole run ends when its loop is cut after [n] turns: before the
    loop, with an exit status, or in the loop. *)
Inductive ending {R : RandomGen} : Type :=
| Exited (code : Z) (out : list line) (probed : bool)
| Looped (cfg : config) (draws : list draw) (w : world)
| Crashed.

(** [self.run()], called by [main()]: [parse_args],
    [validate_toggle_script], [chaos_loop].  An exception that reaches the
    top ends the process with status 1 after its traceback.  When the loop
    is reached, its world starts with the probe as the one process run so
    far. *)
Definition run_main {R : RandomGen} {I : Interpreter} (argv : list string)
    (parsed : option namespace) (script_exists : bool) (e : env)
    (g0 : rng_state) (n : nat) : ending :=
  match parse_args argv parsed with
  | Exit code out => Exited code out false
  | Raise exn out => Exited 1 (out ++ [LineTraceback exn]) false
  | Continue cfg out =>
      match validate_toggle_script cfg e script_exists with
      | Exit code out' => Exited code (out ++ out') script_exists
      | Raise exn out' =>
          Exited 1 (out ++ out' ++ [LineTraceback exn]) script_exists
      | Continue _ _ =>
          let w0 :=
            {| w_rng := w_rng (initial_world cfg g0);
               w_reads := 0;
               w_runs := 1;
               w_trace := [RunProcess (probe_cmd cfg e) 5] |} in
          match chaos_loop cfg e n w0 with
          | Some (draws, w) => Looped cfg draws w
          | None => Crashed
          end
      end
  end.

End DriverCLI.

(** ** toggle-flags.py: the command line *)

Module SetterCLI.
Import Setter.

(** A parsed JSON value, as [response.json()] returns it.  The members of
    an object are those of the resulting [dict], in order. *)
#[warnings="-register-all"]
Inductive json : Type :=
| JNull
| JBool (b : bool)
| JInt (n : Z)
| JFloat (q : Q)
| JStr (s : string)
| JArr (items : list json)
| JObj (members : list (string * json)).

(** What [response.json()] does. *)
Inductive json_result : Type :=
| JsonValue (data : json)
| JsonRequestException (e : string)
| JsonException (e : string).

(** What [requests.get] does. *)
Inductive get_result : Type :=
| GetResponse (status_code : Z) (body : json_result)
| GetRequestException (e : string)
| GetException (e : string).

(** The exceptions the inspection of the JSON value can raise. *)
Inductive py_error : Type :=
| TypeError
| AttributeError
| OtherError (e : string).

Inductive cli_line : Type :=
| CliUsage
| CliFetching
| CliFlag (flag_name : string) (default_variant description : json)
| CliNoFlags
| CliHttpError (status_code : Z)
| CliEnsureRunning (base_url : string)
| CliConnectError (e : string)
| CliError (e : py_error)
| CliBothRequired.

Inductive event : Type :=
| Out (l : cli_line)
| Get (url : string) (timeout : Z)
| FromSetFlag (ev : SetterIO.event).

(** A request sent over the network. *)
Definition is_request (ev : event) : bool :=
  match ev with
  | Get _ _ => true
  | FromSetFlag (SetterIO.Post _ _ _) => true
  | _ => false
  end.

(** ['flags' in data]; [None] is the [TypeError] of a value that is not a
    container. *)
Definition contains_flags (data : json) : option bool :=
  match data with
  | JObj members =>
      Some (match dict_get members "flags" with
            | Some _ => true
            | None => false
            end)
  | JArr items =>
      Some (existsb (fun x => match x with
                              | JStr s => s == "flags"
                              | _ => false
                              end) items)
  | JStr s =>
      Some (match String.index 0 "flags" s with
            | Some _ => true
            | None => false
            end)
  | JNull | JBool _ | JInt _ | JFloat _ => None
  end.

(** [d.get(key, default)] on a JSON object. *)
Definition json_get (members : list (string * json)) (key : string)
    (default : json) : json :=
  match dict_get members key with
  | Some v => v
  | None => default
  end.

(** The [for] loop of [list_current_status]: one line per flag, until a
    flag whose value is not an object raises [AttributeError]. *)
Fixpoint list_flags (items : list (string * json)) : list event :=
  match items with
  | [] => []
  | (flag_name, JObj flag_data) :: items' =>
      Out (CliFlag flag_name
             (json_get flag_data "defaultVariant" (JStr "unknown"))
             (json_get flag_data "description" (JStr "")))
      :: list_flags items'
  | (_, _) :: _ => [Out (CliError AttributeError)]
  end.

Section CommandLine.

Variable requests_get : string -> get_result.
Variable requests_post : string -> document -> SetterIO.http_result.

(** [list_current_status()], with the module-level [BASE_URL]. *)
Definition list_current_status (BASE_URL : string) : list event :=
  let url := String.append BASE_URL "/read-file" in
  [Out CliFetching; Get url 10]
  ++ match requests_get url with
     | GetResponse status_code body =>
         if status_code =? 200 then
           match body with
           | JsonValue data =>
               match contains_flags data with
               | None => [Out (CliError TypeError)]
               | Some false => [Out CliNoFlags]
               | Some true =>
                   match data with
                   | JObj members =>
                       match dict_get members "flags" with
                       | Some (JObj items) => list_flags items
                       | Some _ => [Out (CliError AttributeError)]
                       | None => [Out (CliError (OtherError "KeyError"))]
                       end
                   | _ => [Out (CliError TypeError)]
                   end
               end
           | JsonRequestException err =>
               [Out (CliConnectError err); Out (CliEnsureRunning BASE_URL)]
           | JsonException err => [Out (CliError (OtherError err))]
           end
         else
           [Out (CliHttpError status_code); Out (CliEnsureRunning BASE_URL)]
     | GetRequestException err =>
         [Out (CliConnectError err); Out (CliEnsureRunning BASE_URL)]
     | GetException err => [Out (CliError (OtherError err))]
     end.

(** What [argparse] hands to [main]. *)
Record namespace : Type := mk_namespace {
  ns_flag_name : option string;
  ns_variant : option string;
  ns_base_url : string;
  ns_help : bool
}.

(** [not x] for an optional string: [None] and the empty string are
    false. *)
Definition absent (x : option string) : bool :=
  match x with
  | None => true
  | Some s => s == ""
  end.

(** [main()]: the exit code and the events.  [parsed] is [None] when
    [parser.parse_args()] leaves with [SystemExit]. *)
Definition main (parsed : option namespace) : Z * list event :=
  match parsed with
  | None => (1, [Out CliUsage])
  | Some args =>
      let BASE_URL := ns_base_url args in
      if ns_help args || absent (ns_flag_name args) then
        (0, [Out CliUsage])
      else
        match ns_flag_name args with
        | None => (0, [Out CliUsage])
        | Some flag_name =>
            if flag_name == "list" then
              (0, list_current_status BASE_URL)
            else if absent (ns_variant args) then
              (1, [Out CliBothRequired; Out CliUsage])
            else
              match ns_variant args with
              | None => (1, [Out CliBothRequired; Out CliUsage])
              | Some variant =>
                  let (success, evs) :=
                    SetterIO.set_flag BASE_URL requests_post
                      flag_name variant in
                  ((if success then 0 else 1), map FromSetFlag evs)
              end
        end
  end.

End CommandLine.

(** The JSON text of a document's ["flags"] member, parsed back: what a
    service that stores the posted document returns for it. *)
Definition pyval_json (v : pyval) : json :=
  match v with
  | PyBool b => JBool b
  | PyInt n => JInt n
  | PyFloat q => JFloat q
  end.

Definition entry_json (entry : flag_entry) : json :=
  JObj [ ("description", JStr (fe_description entry));
         ("state", JStr (fe_state entry));
         ("variants",
          JObj (map (fun kv => (fst kv, pyval_json (snd kv)))
                  (fe_variants entry)));
         ("defaultVariant", JStr (fe_defaultVariant entry)) ].

Definition flags_json (doc : document) : json :=
  JObj (map (fun fe => (fst fe, entry_json (snd fe))) (doc_flags doc)).

(** The ["data"] member of the posted payload, and the payload itself. *)
Definition document_json (doc : document) : json :=
  JObj [("$schema", JStr (doc_schema doc)); ("flags", flags_json doc)].

Definition payload_json (doc : document) : json :=
  JObj [("data", document_json doc)].

End SetterCLI.

(** * Definitions for the statements *)

(** The catalog table of the specification (section 6), with the ["off"]
    variant it grants every fault, written out for comparison with the
    code. *)
Definition spec_catalog : pydict (pydict pyval) :=
  [ ("productCatalogFailure", [("on", PyBool true); ("off", PyBool false)]);
    ("recommendationCacheFailure", [("on", PyBool true); ("off", PyBool false)]);
    ("adManualGc", [("on", PyBool true); ("off", PyBool false)]);
    ("adHighCpu", [("on", PyBool true); ("off", PyBool false)]);
    ("adFailure", [("on", PyBool true); ("off", PyBool false)]);
    ("kafkaQueueProblems", [("on", PyInt 100); ("off", PyInt 0)]);
    ("cartFailure", [("on", PyBool true); ("off", PyBool false)]);
    ("paymentFailure",
      [("100%", PyInt 1); ("90%", PyFloat (95 # 100));
       ("75%", PyFloat (75 # 100)); ("50%", PyFloat (5 # 10));
       ("25%", PyFloat (25 # 100)); ("10%", PyFloat (1 # 10));
       ("off", PyInt 0)]);
    ("paymentUnreachable", [("on", PyBool true); ("off", PyBool false)]);
    ("loadGeneratorFloodHomepage", [("on", PyInt 100); ("off", PyInt 0)]);
    ("imageSlowLoad",
      [("10sec", PyInt 10000); ("5sec", PyInt 5000); ("off", PyInt 0)]) ].

(** The neutral value of a value's type: [false] for a boolean, [0] for a
    number. *)
Definition neutral_of (value : pyval) : pyval :=
  match value with
  | PyBool _ => PyBool false
  | PyInt _ | PyFloat _ => PyInt 0
  end.

(** [resolveValue] as the specification words it: the value the table gives,
    invalid for an unknown fault or a variant outside the fault's row. *)
Definition spec_resolve (fault variant : string) : option pyval :=
  match dict_get spec_catalog fault with
  | Some row => dict_get row variant
  | None => None
  end.

(** Every character of [s] satisfies [p]. *)
Definition all_chars (p : N -> bool) (s : ustring) : bool := forallb p s.

(** A process run counts as a success exactly when it completes with return
    code 0. *)
Definition succeeds (r : Driver.proc_result) : bool :=
  match r with
  | Driver.Completed returncode _ => returncode =? 0
  | _ => false
  end.

(** The world [w] after the events [evs], [reads] more clock readings and
    [runs] more process runs, the generator left in state [g]. *)
Definition advance {R : RandomGen} (w : Driver.world) (g : rng_state)
    (reads runs : nat) (evs : list Driver.event) : Driver.world :=
  {| Driver.w_rng := g;
     Driver.w_reads := (reads + Driver.w_reads w)%nat;
     Driver.w_runs := (runs + Driver.w_runs w)%nat;
     Driver.w_trace := Driver.w_trace w ++ evs |}.

(** The events of an interval up to the end of the wait for the trigger. *)
Definition events_before (interval_count interval random_offset : Z)
    (t0 t1 : Q) : list Driver.event :=
  [Driver.Log (Driver.LogBeginInterval interval_count interval);
   Driver.Log (Driver.LogNextTrigger random_offset
                 (t0 + inject_Z random_offset)%Q)]
  ++ (if Driver.Qltb t1 (t0 + inject_Z random_offset)%Q
      then [Driver.Sleep ((t0 + inject_Z random_offset) - t1)%Q]
      else []).

(** The events that close an interval, read at clock value [t3]. *)
Definition events_finish (interval_count : Z) (interval_end_time t3 : Q)
  : list Driver.event :=
  (if Driver.Qltb t3 interval_end_time
      && (0 <? Driver.py_int (interval_end_time - t3))
   then [Driver.Log (Driver.LogWaiting
                       (Driver.py_int (interval_end_time - t3)));
         Driver.Sleep (inject_Z (Driver.py_int (interval_end_time - t3)))]
   else [])
  ++ [Driver.Log (Driver.LogEndInterval interval_count); Driver.PrintRule].

(** A concrete run to try the statements on: a ten-second interval, seed
    42, the Setter at its default address, and a wall clock on which the
    first trigger wait ends a hundredth of a second late. *)
Definition example_config (dry : bool) : Driver.config :=
  Driver.mk_config dry 10 (Some 42) "./toggle-flags.py"
    Driver.DEFAULT_BASE_URL.

Definition example_clock (k : nat) : Q :=
  match k with
  | 0%nat => 100
  | 1%nat => 100 + (1 # 1000)
  | 2%nat => 101 + (1 # 100)
  | _ => 103
  end.

Definition example_env (clk : nat -> Q) (r : Driver.proc_result)
  : Driver.env :=
  Driver.mk_env clk (fun _ _ => r) "/usr/bin/python".

(** The state the generator is in before [parse_args] seeds it. *)
Definition lcg_start : @rng_state lcg := 0.

Definition example_world (dry : bool) : @Driver.world lcg :=
  @Driver.initial_world lcg (example_config dry) lcg_start.

(** Whether the activation call of an interval succeeds: always in dry-run
    mode, otherwise when the Setter process run at this point does. *)
Definition activation_ok {R : RandomGen} (cfg : Driver.config)
    (e : Driver.env) (flag_name variant : string) (w : Driver.world) : bool :=
  Driver.dry_run cfg
  || succeeds (Driver.run_process e (Driver.w_runs w)
                 (Driver.set_flag_cmd cfg e flag_name variant)).

(** The configuration [cfg] with dry-run mode switched off. *)
Definition real_config (cfg : Driver.config) : Driver.config :=
  Driver.mk_config false (Driver.interval_seconds cfg) (Driver.seed cfg)
    (Driver.toggle_script cfg) (Driver.base_url cfg).

(** An environment in which every Setter process succeeds. *)
Definition always_succeeds (e : Driver.env) : Prop :=
  forall k cmd, succeeds (Driver.run_process e k cmd) = true.

(** Two worlds at the same point of their runs, as far as timing goes: same
    generator state, same number of clock readings, same sleeps and Setter
    invocations so far. *)
Definition same_timing {R : RandomGen} (w w' : Driver.world) : Prop :=
  Driver.w_rng w' = Driver.w_rng w
  /\ Driver.w_reads w' = Driver.w_reads w
  /\ Driver.timing_view (Driver.w_trace w')
     = Driver.timing_view (Driver.w_trace w).

(** No process was run so far. *)
Definition no_process {R : RandomGen} (w : Driver.world) : Prop :=
  Driver.w_runs w = 0%nat
  /\ filter Driver.is_run_process (Driver.w_trace w) = [].

(** The generator when the first interval starts: the one [parse_args]
    seeded, or, when no seed was given, the one [chaos_loop] seeds with a
    number it draws. *)
Definition loop_rng {R : RandomGen} (cfg : Driver.config) (g : rng_state)
  : rng_state :=
  match Driver.seed cfg with
  | Some _ => g
  | None =>
      match randrange 0 (2 ^ 31) g with
      | Some (current_seed, _) => rng_seed current_seed
      | None => g
      end
  end.

(** A wall clock for the first interval of a run started at time 0: the
    reading taken after the wait for the trigger is [after_wait]. *)
Definition clock_after_wait (after_wait : Z) (k : nat) : Q :=
  match k with
  | 0%nat | 1%nat => inject_Z 0
  | _ => inject_Z after_wait
  end.

(** The clock of [example_clock], except that the first trigger wait
    overruns by 1.2 seconds. *)
Definition example_clock_late (k : nat) : Q :=
  match k with
  | 0%nat => 100
  | 1%nat => 100 + (1 # 1000)
  | 2%nat => 102 + (2 # 10)
  | _ => 106
  end.

(** The variant names of a table that are not ["off"], in table order. *)
Definition non_off (variants : list string) : list string :=
  filter (fun v => negb (v == "off")) variants.

(** A document in which every fault's default variant is one of the
    variants its own table defines. *)
Definition well_formed (doc : Setter.document) : Prop :=
  forall flag_name entry,
    In (flag_name, entry) (Setter.doc_flags doc) ->
    In (Setter.fe_defaultVariant entry)
       (dict_keys (Setter.fe_variants entry)).

(** The default variants of a document, fault by fault. *)
Definition defaults_of (doc : Setter.document) : pydict string :=
  map (fun fe => (fst fe, Setter.fe_defaultVariant (snd fe)))
      (Setter.doc_flags doc).

(** The string is empty or starts with a character that fails [p]. *)
Definition stops (p : N -> bool) (s : ustring) : Prop :=
  match s with
  | [] => True
  | c :: _ => p c = false
  end.

(** The number of digits is within what [int] converts. *)
Definition within_limit {I : Interpreter} (digits : ustring) : Prop :=
  int_max_str_digits = 0%nat \/ (length digits <= int_max_str_digits)%nat.

(** An event that is not a sleep, or a sleep of strictly positive length
    ([time.sleep] raises [ValueError] on a negative one). *)
Definition positive_sleep (ev : Driver.event) : Prop :=
  match ev with
  | Driver.Sleep secs => (0 < secs)%Q
  | _ => True
  end.

(** A rendered duration of less than an hour read back: [<n>s] is [n]
    seconds and [<m>m <n>s] is [60 m + n]. *)
Definition read_duration (text : string) : Z :=
  let (a, rest) := Driver.span ascii_digit (codepoints text) in
  match rest with
  | 109%N :: 32%N :: rest' =>
      let (b, _) := Driver.span ascii_digit rest' in
      60 * Driver.ascii_int 0 a + Driver.ascii_int 0 b
  | _ => Driver.ascii_int 0 a
  end.

(** The whole numbers from 0 up to [n], excluded. *)
Definition seconds_below (n : nat) : list Z := map Z.of_nat (seq 0 n).

(** What holds of a draw whatever the generator and the clock: the offset
    is within the range asked of [randint], the pair is one the Setter
    accepts and is not "off", and a hold lasts at least one second. *)
Definition draw_in_range (cfg : Driver.config) (d : Driver.draw) : Prop :=
  0 <= Driver.d_offset d <= Z.max 0 (Driver.interval_seconds cfg - 1)
  /\ (exists value,
        Setter.get_variant_value (Driver.d_flag d) (Driver.d_variant d)
        = Some value)
  /\ Driver.d_variant d <> "off"
  /\ (forall flag_duration,
        Driver.d_duration d = Some flag_duration -> 1 <= flag_duration).

(** An environment in which every process exits with status 0. *)
Definition example_env_ok : Driver.env :=
  {| Driver.clock := fun k => inject_Z (Z.of_nat k);
     Driver.run_process := fun _ _ => Driver.Completed 0 EmptyString;
     Driver.sys_executable := "python" |}.

(** A command line to try the start-up on: fifteen-minute intervals, seed
    42, with or without [--dry-run]. *)
Definition example_argv (dry : bool) : list string :=
  ["15min"] ++ (if dry then ["--dry-run"] else []) ++ ["--seed"; "42"].

Definition example_namespace (dry : bool) : DriverCLI.namespace :=
  {| DriverCLI.ns_interval := codepoints "15min";
     DriverCLI.ns_dry_run := dry;
     DriverCLI.ns_seed := Some 42;
     DriverCLI.ns_base_url := Driver.DEFAULT_BASE_URL |}.

Definition example_accepted (dry : bool) : Driver.config :=
  {| Driver.dry_run := dry;
     Driver.interval_seconds := 900;
     Driver.seed := Some 42;
     Driver.toggle_script := "./toggle-flags.py";
     Driver.base_url := Driver.DEFAULT_BASE_URL |}.

(** A clock reading on which the program's binary64 arithmetic is exact:
    a whole multiple of 2^-22 s in [[2^30, 2^31)].  These are the binary64
    values of that range, which is what [time.time()] returns from January
    2004 to January 2038.  The sum of one of them and a whole number of
    seconds that stays in the range, and the difference of two of them, are
    binary64 values again, so that the program computes them without
    rounding. *)
Definition exact_seconds (t : Q) : bool :=
  Qle_bool (inject_Z (2 ^ 30)) t
  && negb (Qle_bool (inject_Z (2 ^ 31)) t)
  && Qeq_bool (t * inject_Z (2 ^ 22))
       (inject_Z (Qfloor (t * inject_Z (2 ^ 22)))).

(** The four readings of the interval that starts after [reads] readings
    are exact, and so is the interval's end time. *)
Definition exact_interval (e : Driver.env) (reads : nat) (L : Z) : bool :=
  forallb (fun k => exact_seconds (Driver.clock e (k + reads)))
    [0%nat; 1%nat; 2%nat; 3%nat]
  && exact_seconds (Driver.clock e reads + inject_Z L).

(** An exact wall clock for the first interval of the sample run: the wait
    for the trigger (offset 1) is over 1/64 s late. *)
Definition example_clock_exact (k : nat) : Q :=
  match k with
  | 0%nat => 1700000000
  | 1%nat => 1700000000 + (1 # 1024)
  | 2%nat => 1700000001 + (1 # 64)
  | _ => 1700000010 + (1 # 2)
  end.






(** * Properties *)

(** ** The catalog *)

(** Case analysis on whether the string [f] is the literal [s]. *)
Ltac case_str f s :=
  let E := fresh "E" in
  destruct (String.eqb_spec f s) as [E | E]; [subst f | ].

(** Case analysis on which of the eleven known faults [f] is, if any. *)
Ltac case_fault f :=
  case_str f "productCatalogFailure";
  [ | case_str f "recommendationCacheFailure";
  [ | case_str f "adManualGc";
  [ | case_str f "adHighCpu";
  [ | case_str f "adFailure";
  [ | case_str f "kafkaQueueProblems";
  [ | case_str f "cartFailure";
  [ | case_str f "paymentFailure";
  [ | case_str f "paymentUnreachable";
  [ | case_str f "loadGeneratorFloodHomepage";
  [ | case_str f "imageSlowLoad" ]]]]]]]]]].

Ltac eqb_false :=
  repeat match goal with
         | H : ?a <> ?b |- context [String.eqb ?a ?b] =>
             rewrite (proj2 (String.eqb_neq a b) H)
         end.

Lemma dict_get_In {V : Type} (d : pydict V) (k : string) (v : V) :
  dict_get d k = Some v -> In (k, v) d.
Proof.
  induction d as [| [k' v'] d IH]; cbn; intros H.
  - discriminate.
  - destruct (String.eqb_spec k k') as [-> | _].
    + left. congruence.
    + right. auto.
Qed.

Lemma dict_get_None {V : Type} (d : pydict V) (k : string) :
  dict_get d k = None <-> ~ In k (dict_keys d).
Proof.
  induction d as [| [k' v'] d IH]; cbn.
  - tauto.
  - destruct (String.eqb_spec k k') as [-> | Hne].
    + split; [discriminate | intros H; exfalso; apply H; auto].
    + rewrite IH. unfold dict_keys. split; intros H.
      * intros [E | I]; [congruence | auto].
      * intros I. apply H. auto.
Qed.

(** C5. [get_variant_value] returns, for every fault and variant name, what
    the catalog table of the specification gives: the documented wire value
    for a listed pair (among them paymentFailure/"90%" -> 0.95,
    kafkaQueueProblems/"on" -> 100, imageSlowLoad/"5sec" -> 5000), for
    "off" on every known fault [false] or [0], the neutral value of the type
    of the fault's other values, and [None] for an unknown fault or a
    variant outside the fault's row. *)
Theorem get_variant_value_catalog :
  (forall flag_name variant,
      Setter.get_variant_value flag_name variant
      = spec_resolve flag_name variant)
  /\ Setter.get_variant_value "paymentFailure" "90%" = Some (PyFloat (95 # 100))
  /\ Setter.get_variant_value "kafkaQueueProblems" "on" = Some (PyInt 100)
  /\ Setter.get_variant_value "imageSlowLoad" "5sec" = Some (PyInt 5000)
  /\ (forall flag_name,
        In flag_name Setter.all_flags ->
        Setter.get_variant_value flag_name "off" = Some (PyBool false)
        \/ Setter.get_variant_value flag_name "off" = Some (PyInt 0))
  /\ (forall flag_name variant value,
        Setter.get_variant_value flag_name variant = Some value ->
        Setter.get_variant_value flag_name "off" = Some (neutral_of value))
  /\ (forall flag_name variant,
        ~ In flag_name Setter.all_flags ->
        Setter.get_variant_value flag_name variant = None)
  /\ (forall flag_name variant row,
        dict_get spec_catalog flag_name = Some row ->
        ~ In variant (dict_keys row) ->
        Setter.get_variant_value flag_name variant = None).
Proof.
  assert (Hspec : forall f v,
             Setter.get_variant_value f v = spec_resolve f v).
  { intros f v. unfold Setter.get_variant_value, spec_resolve.
    case_fault f; try reflexivity.
    cbn. eqb_false. reflexivity. }
  split; [exact Hspec | ].
  repeat split; try reflexivity.
  - intros f Hin. cbn in Hin.
    repeat (destruct Hin as [<- | Hin]; [cbn; auto | ]).
    contradiction.
  - intros f v x Hx. rewrite Hspec in Hx. rewrite Hspec.
    unfold spec_resolve in *.
    destruct (dict_get spec_catalog f) as [row | ] eqn:Hrow;
      [ | discriminate].
    apply dict_get_In in Hrow. apply dict_get_In in Hx.
    cbn in Hrow.
    repeat (destruct Hrow as [Hrow | Hrow];
            [ injection Hrow as <- <-; cbn in Hx;
              repeat (destruct Hx as [Hx | Hx];
                      [injection Hx as <- <-; reflexivity | ]);
              contradiction
            | ]).
    contradiction.
  - intros f v Hnot. rewrite Hspec. unfold spec_resolve.
    replace (dict_get spec_catalog f) with (@None (pydict pyval)); [reflexivity | ].
    symmetry. apply dict_get_None. exact Hnot.
  - intros f v row Hrow Hnot. rewrite Hspec. unfold spec_resolve.
    rewrite Hrow. apply dict_get_None. exact Hnot.
Qed.

(** C9. The variant table that [get_all_variants] puts in the document and
    the lookup [get_variant_value] validates with agree at every variant
    name, for every fault (known or not): the name is a key of the table
    exactly when the lookup is not [None], and the table's value is the
    lookup's. *)
Theorem get_all_variants_agrees :
  forall flag_name variant,
    dict_get (Setter.get_all_variants flag_name) variant
    = Setter.get_variant_value flag_name variant
    /\ (In variant (dict_keys (Setter.get_all_variants flag_name))
        <-> Setter.get_variant_value flag_name variant <> None).
Proof.
  intros f v.
  assert (Heq : dict_get (Setter.get_all_variants f) v
                = Setter.get_variant_value f v).
  { unfold Setter.get_all_variants, Setter.get_variant_value.
    case_fault f; try reflexivity.
    cbn. eqb_false. reflexivity. }
  split; [exact Heq | ].
  rewrite <- Heq. split.
  - intros Hin Hnone. apply dict_get_None in Hnone. contradiction.
  - intros Hsome.
    destruct (in_dec string_dec v (dict_keys (Setter.get_all_variants f)))
      as [Hin | Hnot]; [exact Hin | ].
    apply dict_get_None in Hnot. contradiction.
Qed.

(** ** The document *)

Lemma construct_entry_default (target_flag target_variant flag_name : string) :
  let entry :=
    Setter.construct_entry target_flag target_variant flag_name in
  (flag_name = target_flag ->
   Setter.fe_defaultVariant entry = target_variant)
  /\ (flag_name <> target_flag ->
      flag_name = "productCatalogFailure" ->
      Setter.fe_defaultVariant entry = "on")
  /\ (flag_name <> target_flag ->
      flag_name <> "productCatalogFailure" ->
      Setter.fe_defaultVariant entry = "off").
Proof.
  unfold Setter.construct_entry. cbn [Setter.fe_defaultVariant].
  destruct (String.eqb_spec flag_name target_flag);
    destruct (String.eqb_spec flag_name "productCatalogFailure");
    repeat split; intros; congruence.
Qed.

Lemma construct_json_get (target_flag target_variant flag_name : string) :
  In flag_name Setter.all_flags ->
  dict_get (Setter.doc_flags
              (Setter.construct_json target_flag target_variant)) flag_name
  = Some (Setter.construct_entry target_flag target_variant flag_name).
Proof.
  intros Hin. cbn in Hin.
  repeat (destruct Hin as [<- | Hin]; [reflexivity | ]).
  contradiction.
Qed.

Lemma known_fault_catalogued (flag_name : string) :
  In flag_name Setter.all_flags ->
  Setter.get_flag_description flag_name <> ""
  /\ dict_get spec_catalog flag_name
     = Some (Setter.get_all_variants flag_name).
Proof.
  intros Hin. cbn in Hin.
  repeat (destruct Hin as [<- | Hin];
          [split; [vm_compute; discriminate | reflexivity] | ]).
  contradiction.
Qed.

(** C4. For every target fault and variant, the document of
    [construct_json] has the eleven known faults as its members, each once
    and in catalog order; every member carries the fault's description, the
    state "ENABLED" and the fault's full variant table (the row of the
    specification's catalog); its default variant is the target variant for
    the target fault, "on" for productCatalogFailure when that is not the
    target, and "off" for every other fault. *)
Theorem construct_json_document :
  forall target_flag target_variant,
    let flags := Setter.doc_flags
                   (Setter.construct_json target_flag target_variant) in
    dict_keys flags = Setter.all_flags
    /\ length flags = 11%nat
    /\ NoDup (dict_keys flags)
    /\ (forall flag_name,
          In flag_name Setter.all_flags ->
          exists entry,
            dict_get flags flag_name = Some entry
            /\ Setter.fe_description entry
               = Setter.get_flag_description flag_name
            /\ Setter.fe_description entry <> ""
            /\ Setter.fe_state entry = "ENABLED"
            /\ Setter.fe_variants entry = Setter.get_all_variants flag_name
            /\ dict_get spec_catalog flag_name
               = Some (Setter.fe_variants entry)
            /\ (flag_name = target_flag ->
                Setter.fe_defaultVariant entry = target_variant)
            /\ (flag_name <> target_flag ->
                flag_name = "productCatalogFailure" ->
                Setter.fe_defaultVariant entry = "on")
            /\ (flag_name <> target_flag ->
                flag_name <> "productCatalogFailure" ->
                Setter.fe_defaultVariant entry = "off")).
Proof.
  intros tf tv flags.
  assert (Hkeys : dict_keys flags = Setter.all_flags) by reflexivity.
  split; [exact Hkeys | ].
  split; [reflexivity | ].
  split.
  { rewrite Hkeys. unfold Setter.all_flags.
    repeat (constructor; [cbn; intuition discriminate | ]). constructor. }
  intros g Hin.
  exists (Setter.construct_entry tf tv g).
  split; [apply construct_json_get; exact Hin | ].
  destruct (known_fault_catalogued g Hin) as [Hdescr Hrow].
  destruct (construct_entry_default tf tv g) as (Ht & Hp & Ho).
  repeat split; auto.
Qed.

(** ** The Setter's write *)

(** C7. Whenever [get_variant_value] signals invalid for a fault and variant
    name, [set_flag] returns failure after printing the error and the usage,
    and that is all it does: no request is posted, whatever the base URL and
    whatever the service would have answered. *)
Theorem set_flag_invalid_no_request :
  forall BASE_URL requests_post flag_name variant,
    Setter.get_variant_value flag_name variant = None ->
    SetterIO.set_flag BASE_URL requests_post flag_name variant
    = (false, [SetterIO.Print (SetterIO.MsgInvalid flag_name variant);
               SetterIO.Print SetterIO.MsgUsage])
    /\ filter SetterIO.is_post
         (snd (SetterIO.set_flag BASE_URL requests_post flag_name variant))
       = [].
Proof.
  intros url post f v Hnone. unfold SetterIO.set_flag.
  rewrite Hnone. split; reflexivity.
Qed.

(** The scenario of the specification: [setFlag("unknownFault", "on")]. *)
Lemma set_flag_unknownFault :
  Setter.get_variant_value "unknownFault" "on" = None
  /\ forall BASE_URL requests_post,
       SetterIO.set_flag BASE_URL requests_post "unknownFault" "on"
       = (false, [SetterIO.Print (SetterIO.MsgInvalid "unknownFault" "on");
                  SetterIO.Print SetterIO.MsgUsage])
       /\ filter SetterIO.is_post
            (snd (SetterIO.set_flag BASE_URL requests_post
                    "unknownFault" "on"))
          = [].
Proof.
  split; [reflexivity | ].
  intros url post.
  apply (set_flag_invalid_no_request url post "unknownFault" "on").
  reflexivity.
Defined.

(** Conversely, a valid pair is posted exactly once, with the complete
    document, to the write endpoint. *)
Lemma set_flag_valid_posts_once :
  forall BASE_URL requests_post flag_name variant value,
    Setter.get_variant_value flag_name variant = Some value ->
    filter SetterIO.is_post
      (snd (SetterIO.set_flag BASE_URL requests_post flag_name variant))
    = [SetterIO.Post (String.append BASE_URL "/write-to-file")
         (Setter.construct_json flag_name variant) 10].
Proof.
  intros url post f v value Hsome. unfold SetterIO.set_flag.
  rewrite Hsome.
  destruct (post _ _) as [code text | err | err]; [ | reflexivity ..].
  destruct ((code =? 200) || (code =? 201)); reflexivity.
Qed.

(** ** What the Driver can draw *)

Section Draws.

Context {R : RandomGen}.

Lemma randint_spec (a b : Z) (g : rng_state) :
  a <= b ->
  exists r g', randint a b g = Some (r, g') /\ a <= r <= b.
Proof.
  intros Hab. unfold randint, randrange.
  destruct (Z.ltb_spec 0 (b + 1 - a)) as [Hw | Hw]; [ | lia].
  pose proof (randbelow_range (b + 1 - a) g Hw) as Hr.
  destruct (randbelow (b + 1 - a) g) as [r g']. cbn [fst] in Hr.
  exists (a + r), g'. split; [reflexivity | lia].
Qed.

Lemma choice_spec {A : Type} (seq : list A) (g : rng_state) :
  seq <> [] ->
  exists x g', choice seq g = Some (x, g') /\ In x seq.
Proof.
  intros Hne. unfold choice.
  destruct seq as [| a seq']; [contradiction | ].
  set (l := a :: seq') in *.
  assert (Hlen : 0 < Z.of_nat (length l)) by (cbn; lia).
  pose proof (randbelow_range _ g Hlen) as Hr.
  destruct (randbelow (Z.of_nat (length l)) g) as [i g']. cbn [fst] in Hr.
  destruct (nth_error l (Z.to_nat i)) as [x | ] eqn:Hnth.
  - exists x, g'. split; [reflexivity | ].
    eapply nth_error_In; eassumption.
  - apply nth_error_None in Hnth. lia.
Qed.

Lemma get_random_flag_variant_spec (g : rng_state) :
  exists flag_name variant variants g',
    Driver.get_random_flag_variant g = Some ((flag_name, variant), g')
    /\ In (flag_name, variants) Driver.available_flags
    /\ In variant variants.
Proof.
  unfold Driver.get_random_flag_variant.
  destruct (choice_spec (dict_keys Driver.available_flags) g)
    as (f & g1 & Hc & Hin); [discriminate | ].
  rewrite Hc.
  assert (Hrow : exists variants,
             dict_get Driver.available_flags f = Some variants
             /\ variants <> []).
  { cbn in Hin.
    repeat (destruct Hin as [<- | Hin];
            [eexists; split; [reflexivity | discriminate] | ]).
    contradiction. }
  destruct Hrow as (variants & Hget & Hne). rewrite Hget.
  destruct (choice_spec variants g1 Hne) as (v & g2 & Hc2 & Hin2).
  rewrite Hc2. exists f, v, variants, g2.
  split; [reflexivity | ].
  split; [apply dict_get_In; exact Hget | exact Hin2].
Qed.

End Draws.

Lemma available_flags_accepted (flag_name variant : string)
    (variants : list string) :
  In (flag_name, variants) Driver.available_flags ->
  In variant variants ->
  (exists value, Setter.get_variant_value flag_name variant = Some value)
  /\ variant <> "off".
Proof.
  intros Hf Hv. cbn in Hf.
  repeat (destruct Hf as [Hf | Hf];
          [ injection Hf as <- <-; cbn in Hv;
            repeat (destruct Hv as [<- | Hv];
                    [split; [eexists; reflexivity | discriminate] | ]);
            contradiction
          | ]).
  contradiction.
Qed.

(** C10. Every pair the Driver can draw is one the Setter accepts.  For
    every row of [available_flags] and every variant of the row,
    [get_variant_value] returns a value and the variant is not "off"; and
    for every generator and generator state [get_random_flag_variant]
    returns such a pair, so an activation never fails validation. *)
Theorem drawn_pair_accepted :
  (forall flag_name variants variant,
      In (flag_name, variants) Driver.available_flags ->
      In variant variants ->
      Setter.get_variant_value flag_name variant <> None
      /\ variant <> "off")
  /\ (forall (R : RandomGen) (g : rng_state),
        exists flag_name variant g',
          Driver.get_random_flag_variant g = Some ((flag_name, variant), g')
          /\ Setter.get_variant_value flag_name variant <> None
          /\ variant <> "off"
          /\ forall BASE_URL requests_post,
               fst (SetterIO.set_flag BASE_URL requests_post
                      flag_name variant) = false ->
               In (SetterIO.Post (String.append BASE_URL "/write-to-file")
                     (Setter.construct_json flag_name variant) 10)
                  (snd (SetterIO.set_flag BASE_URL requests_post
                          flag_name variant))).
Proof.
  split.
  - intros f variants v Hf Hv.
    destruct (available_flags_accepted f v variants Hf Hv)
      as ((value & Hval) & Hoff).
    split; [congruence | exact Hoff].
  - intros R g.
    destruct (get_random_flag_variant_spec g)
      as (f & v & variants & g' & Hdraw & Hf & Hv).
    destruct (available_flags_accepted f v variants Hf Hv)
      as ((value & Hval) & Hoff).
    exists f, v, g'. repeat split; [exact Hdraw | congruence | exact Hoff | ].
    intros url post _.
    unfold SetterIO.set_flag. rewrite Hval.
    destruct (post _ _) as [code text | err | err];
      [destruct ((code =? 200) || (code =? 201)) | | ]; cbn; auto.
Qed.

(** ** Interval strings *)

Lemma ustring_eqb_eq (a b : ustring) :
  Driver.ustring_eqb a b = true <-> a = b.
Proof.
  revert b. induction a as [| x a IH]; intros [| y b]; cbn;
    try (split; [intros H; discriminate H | intros H; discriminate H]).
  - split; reflexivity.
  - rewrite andb_true_iff, N.eqb_eq, IH. split.
    + intros [-> ->]. reflexivity.
    + intros H. injection H as -> ->. auto.
Qed.

Lemma is_alpha_lower_char (c : N) :
  Driver.is_alpha (Driver.lower_char c) = true -> Driver.is_alpha c = true.
Proof.
  unfold Driver.lower_char.
  destruct ((65 <=? c) && (c <=? 90))%N eqn:E; intros H.
  - unfold Driver.is_alpha. rewrite E. reflexivity.
  - exact H.
Qed.

Lemma all_alpha_lower (s : ustring) :
  all_chars Driver.is_alpha (Driver.lower s) = true ->
  all_chars Driver.is_alpha s = true.
Proof.
  unfold all_chars, Driver.lower.
  induction s as [| c s IH]; cbn [map forallb]; intros H.
  - reflexivity.
  - apply andb_true_iff in H. destruct H as [Hc Hs].
    rewrite (is_alpha_lower_char c Hc), (IH Hs). reflexivity.
Qed.

Lemma span_all {A : Type} (p : A -> bool) (s : list A) :
  forallb p s = true -> Driver.span p s = (s, []).
Proof.
  induction s as [| c s IH]; cbn [forallb Driver.span]; intros H.
  - reflexivity.
  - apply andb_true_iff in H. destruct H as [Hc Hs].
    rewrite Hc, (IH Hs). reflexivity.
Qed.

Lemma span_spec {A : Type} (p : A -> bool) (s a b : list A) :
  Driver.span p s = (a, b) ->
  s = a ++ b /\ forallb p a = true
  /\ match b with [] => True | c :: _ => p c = false end.
Proof.
  revert a b. induction s as [| c s IH]; intros a b H; cbn in H.
  - injection H as <- <-. cbn. auto.
  - destruct (p c) eqn:Hc.
    + destruct (Driver.span p s) as [a' b'] eqn:Hs.
      injection H as <- <-.
      destruct (IH a' b' eq_refl) as (-> & Ha & Hb).
      cbn. rewrite Hc, Ha. auto.
    + injection H as <- <-. cbn. auto.
Qed.

Lemma span_append {A : Type} (p : A -> bool) (a b : list A) :
  forallb p a = true ->
  match b with [] => True | c :: _ => p c = false end ->
  Driver.span p (a ++ b) = (a, b).
Proof.
  induction a as [| c a IH]; cbn; intros Ha Hb.
  - destruct b as [| c b]; [reflexivity | ].
    cbn. rewrite Hb. reflexivity.
  - apply andb_true_iff in Ha. destruct Ha as [Hc Ha].
    rewrite Hc, (IH Ha Hb). reflexivity.
Qed.

Lemma unit_is_alpha (unit : ustring) (multiplier : Z) :
  Driver.unit_get Driver.unit_multipliers unit = Some multiplier ->
  all_chars Driver.is_alpha unit = true
  /\ unit <> []
  /\ 0 < multiplier.
Proof.
  intros H. unfold Driver.unit_multipliers in H.
  cbn [Driver.unit_get] in H.
  repeat match type of H with
         | (if Driver.ustring_eqb ?u ?k then _ else _) = _ =>
             destruct (Driver.ustring_eqb u k) eqn:E;
             [ apply ustring_eqb_eq in E; subst u; injection H as <-;
               split; [reflexivity | split; [discriminate | lia]]
             | clear E ]
         end.
  discriminate H.
Qed.

Lemma lower_nonempty (s : ustring) : Driver.lower s <> [] -> s <> [].
Proof. destruct s; cbn; congruence. Qed.

Lemma ascii_digit_below (c : N) : ascii_digit c = true -> (c < 128)%N.
Proof.
  unfold ascii_digit. intros H. apply andb_true_iff in H.
  destruct H as [_ H]. apply N.leb_le in H. lia.
Qed.

Lemma is_alpha_below (c : N) : Driver.is_alpha c = true -> (c < 128)%N.
Proof.
  unfold Driver.is_alpha. intros H.
  apply orb_true_iff in H. destruct H as [H | H];
    apply andb_true_iff in H; destruct H as [_ H]; apply N.leb_le in H; lia.
Qed.

Lemma is_alpha_not_ascii_digit (c : N) :
  Driver.is_alpha c = true -> ascii_digit c = false.
Proof.
  unfold Driver.is_alpha, ascii_digit. intros H.
  apply orb_true_iff in H.
  destruct (N.leb_spec 48 c); destruct (N.leb_spec c 57); cbn [andb];
    try reflexivity.
  destruct H as [H | H]; apply andb_true_iff in H; destruct H as [H _];
    apply N.leb_le in H; lia.
Qed.

Section IntervalFactsPerInterpreter.

Context {I : Interpreter}.

Lemma is_digit_ascii (c : N) :
  (c < 128)%N -> Driver.is_digit c = ascii_digit c.
Proof.
  intros Hc. unfold Driver.is_digit. rewrite (decimal_ascii c Hc).
  destruct (ascii_digit c); reflexivity.
Qed.

Lemma digit_value_ascii (c : N) :
  ascii_digit c = true -> Driver.digit_value c = Z.of_N c - 48.
Proof.
  intros Hc. unfold Driver.digit_value.
  rewrite (decimal_ascii c (ascii_digit_below c Hc)), Hc. reflexivity.
Qed.

Lemma ascii_digits_are_digits (s : ustring) :
  forallb ascii_digit s = true -> all_chars Driver.is_digit s = true.
Proof.
  unfold all_chars. induction s as [| c s IH]; cbn [forallb]; intros H.
  - reflexivity.
  - apply andb_true_iff in H. destruct H as [Hc Hs].
    rewrite (is_digit_ascii c (ascii_digit_below c Hc)), Hc, (IH Hs).
    reflexivity.
Qed.

Lemma int_digits_ascii (s : ustring) :
  forall acc, forallb ascii_digit s = true ->
              Driver.int_digits acc s = Driver.ascii_int acc s.
Proof.
  induction s as [| c s IH]; cbn [forallb Driver.int_digits Driver.ascii_int];
    intros acc H.
  - reflexivity.
  - apply andb_true_iff in H. destruct H as [Hc Hs].
    rewrite (digit_value_ascii c Hc). apply IH. exact Hs.
Qed.

Lemma is_alpha_not_digit (c : N) :
  Driver.is_alpha c = true -> Driver.is_digit c = false.
Proof.
  intros H. rewrite (is_digit_ascii c (is_alpha_below c H)).
  apply is_alpha_not_ascii_digit. exact H.
Qed.



Lemma py_int_str_within (digits : ustring) :
  within_limit digits ->
  Driver.py_int_str digits = Some (Driver.int_digits 0 digits).
Proof.
  unfold within_limit, Driver.py_int_str. intros [H0 | Hle].
  - rewrite H0. reflexivity.
  - destruct (Nat.ltb_spec int_max_str_digits (length digits)); [lia | ].
    rewrite andb_false_r. reflexivity.
Qed.


Lemma within_limit_short (digits : ustring) :
  (length digits <= 640)%nat -> within_limit digits.
Proof.
  intros H. unfold within_limit.
  destruct int_max_str_digits_range as [H0 | Hge]; [left; exact H0 | ].
  right. lia.
Qed.

(** What [parse_interval] makes of a run of digits followed by a run of
    letters. *)
Lemma parse_interval_shape (digits letters tail : ustring) :
  digits <> [] -> all_chars Driver.is_digit digits = true ->
  letters <> [] -> all_chars Driver.is_alpha letters = true ->
  stops Driver.is_alpha tail ->
  Driver.parse_interval (digits ++ letters ++ tail)
  = match Driver.py_int_str digits with
    | None => None
    | Some number =>
        match Driver.unit_get Driver.unit_multipliers (Driver.lower letters)
        with
        | None => Some 0
        | Some multiplier => Some (number * multiplier)
        end
    end.
Proof.
  intros Hdne Hdig Hlne Hlet Htail.
  unfold Driver.parse_interval, Driver.re_match.
  assert (Hstop : match letters ++ tail with
                  | [] => True
                  | c :: _ => Driver.is_digit c = false
                  end).
  { destruct letters as [| l ls]; [contradiction | ].
    cbn in Hlet |- *. apply andb_true_iff in Hlet.
    apply is_alpha_not_digit. tauto. }
  rewrite (span_append _ _ _ Hdig Hstop).
  rewrite (span_append _ _ _ Hlet Htail).
  destruct digits as [| d ds]; [contradiction | ].
  destruct letters as [| l ls]; [contradiction | ].
  reflexivity.
Qed.

(** A string that does not start with a digit, or in which no letter
    follows the digits, is invalid. *)
Lemma parse_interval_no_digit (s : ustring) :
  stops Driver.is_digit s -> Driver.parse_interval s = Some 0.
Proof.
  intros H. unfold Driver.parse_interval, Driver.re_match.
  destruct s as [| c s]; [reflexivity | ].
  cbn in H. cbn [Driver.span]. rewrite H.
  destruct (Driver.span Driver.is_alpha (c :: s)). reflexivity.
Qed.

Lemma parse_interval_no_letter (digits rest : ustring) :
  all_chars Driver.is_digit digits = true ->
  stops Driver.is_digit rest -> stops Driver.is_alpha rest ->
  Driver.parse_interval (digits ++ rest) = Some 0.
Proof.
  intros Hdig Hd Ha. unfold Driver.parse_interval, Driver.re_match.
  rewrite (span_append _ _ _ Hdig Hd).
  replace (Driver.span Driver.is_alpha rest) with (@nil N, rest).
  2:{ destruct rest as [| c rest]; [reflexivity | ].
      cbn in Ha |- *. rewrite Ha. reflexivity. }
  destruct digits; reflexivity.
Qed.

(** The same for a number written in ['0'..'9'] with no more than 640
    digits, which every interpreter converts. *)
Lemma parse_interval_ascii (digits letters tail : ustring) :
  digits <> [] -> forallb ascii_digit digits = true ->
  (length digits <= 640)%nat ->
  letters <> [] -> all_chars Driver.is_alpha letters = true ->
  stops Driver.is_alpha tail ->
  Driver.parse_interval (digits ++ letters ++ tail)
  = Some match Driver.unit_get Driver.unit_multipliers
                 (Driver.lower letters) with
         | None => 0
         | Some multiplier => Driver.ascii_int 0 digits * multiplier
         end.
Proof.
  intros Hdne Hdig Hlen Hlne Hlet Htail.
  rewrite (parse_interval_shape digits letters tail Hdne
             (ascii_digits_are_digits digits Hdig) Hlne Hlet Htail).
  rewrite (py_int_str_within digits (within_limit_short digits Hlen)).
  rewrite (int_digits_ascii digits 0 Hdig).
  destruct (Driver.unit_get Driver.unit_multipliers (Driver.lower letters));
    reflexivity.
Qed.

(** The part of C3 that the code keeps: on every string of the grammar
    whose number [int] converts, [parse_interval] returns the number times
    the unit's multiplier, which is positive. *)
Lemma parse_interval_grammar (s : ustring) :
  Driver.in_grammar s = true ->
  within_limit (fst (Driver.span ascii_digit s)) ->
  exists multiplier,
    Driver.unit_get Driver.unit_multipliers
      (Driver.lower (snd (Driver.span ascii_digit s))) = Some multiplier
    /\ Driver.parse_interval s
       = Some (Driver.ascii_int 0 (fst (Driver.span ascii_digit s))
               * multiplier)
    /\ 0 < Driver.ascii_int 0 (fst (Driver.span ascii_digit s)) * multiplier.
Proof.
  unfold Driver.in_grammar.
  destruct (Driver.span ascii_digit s) as [digits unit] eqn:Hspan.
  cbn [fst snd].
  destruct (span_spec _ _ _ _ Hspan) as (-> & Hdig & _).
  destruct digits as [| d ds]; [intros H; discriminate H | ].
  intros H Hlimit. apply andb_true_iff in H. destruct H as [Hpos Hunit].
  apply Z.ltb_lt in Hpos.
  destruct (Driver.unit_get Driver.unit_multipliers (Driver.lower unit))
    as [multiplier | ] eqn:Hget; [ | discriminate Hunit].
  destruct (unit_is_alpha _ _ Hget) as (Halpha & Hne & Hm).
  apply all_alpha_lower in Halpha. apply lower_nonempty in Hne.
  exists multiplier. split; [reflexivity | ]. split; [ | nia].
  rewrite <- (app_nil_r unit) at 1.
  rewrite (parse_interval_shape (d :: ds) unit []
             ltac:(discriminate) (ascii_digits_are_digits _ Hdig) Hne Halpha
             Logic.I).
  rewrite (py_int_str_within _ Hlimit), Hget.
  rewrite (int_digits_ascii _ 0 Hdig). reflexivity.
Qed.

(** The examples of the specification. *)
Lemma parse_interval_examples :
  Driver.parse_interval (codepoints "15min") = Some 900
  /\ Driver.parse_interval (codepoints "1h") = Some 3600
  /\ Driver.parse_interval (codepoints "2day") = Some 172800
  /\ Driver.parse_interval (codepoints "30sec") = Some 30
  /\ Driver.parse_interval (codepoints "2HOURS") = Some 7200
  /\ Driver.parse_interval (codepoints "min") = Some 0
  /\ Driver.parse_interval (codepoints "15") = Some 0
  /\ Driver.parse_interval (codepoints "15 min") = Some 0
  /\ Driver.parse_interval (codepoints "15weeks") = Some 0
  /\ Driver.parse_interval (codepoints "") = Some 0.
Proof.
  repeat split.
  - exact (parse_interval_ascii (codepoints "15") (codepoints "min") []
             ltac:(discriminate) eq_refl ltac:(cbn; lia)
             ltac:(discriminate) eq_refl Logic.I).
  - exact (parse_interval_ascii (codepoints "1") (codepoints "h") []
             ltac:(discriminate) eq_refl ltac:(cbn; lia)
             ltac:(discriminate) eq_refl Logic.I).
  - exact (parse_interval_ascii (codepoints "2") (codepoints "day") []
             ltac:(discriminate) eq_refl ltac:(cbn; lia)
             ltac:(discriminate) eq_refl Logic.I).
  - exact (parse_interval_ascii (codepoints "30") (codepoints "sec") []
             ltac:(discriminate) eq_refl ltac:(cbn; lia)
             ltac:(discriminate) eq_refl Logic.I).
  - exact (parse_interval_ascii (codepoints "2") (codepoints "HOURS") []
             ltac:(discriminate) eq_refl ltac:(cbn; lia)
             ltac:(discriminate) eq_refl Logic.I).
  - apply parse_interval_no_digit. cbn.
    apply is_digit_ascii. reflexivity.
  - exact (parse_interval_no_letter (codepoints "15") []
             (ascii_digits_are_digits (codepoints "15") eq_refl) Logic.I Logic.I).
  - apply (parse_interval_no_letter (codepoints "15") (codepoints " min")
             (ascii_digits_are_digits (codepoints "15") eq_refl)).
    + cbn. apply is_digit_ascii. reflexivity.
    + reflexivity.
  - exact (parse_interval_ascii (codepoints "15") (codepoints "weeks") []
             ltac:(discriminate) eq_refl ltac:(cbn; lia)
             ltac:(discriminate) eq_refl Logic.I).
Qed.

End IntervalFactsPerInterpreter.

(** C3. The code against the specification: strings that are not of the
    grammar (text follows the unit) and for which [parse_interval]
    nevertheless returns a second count instead of the invalid signal 0,
    under every interpreter.  The unit is read up to the first character
    that is not a letter and the rest of the string is never looked at. *)
Theorem parse_interval_ignores_tail :
  forall (I : Interpreter),
    Driver.in_grammar (codepoints "15min!") = false
    /\ Driver.parse_interval (codepoints "15min!") = Some 900
    /\ Driver.in_grammar (codepoints "1h30min") = false
    /\ Driver.parse_interval (codepoints "1h30min") = Some 3600
    /\ Driver.in_grammar (codepoints "10sec or so") = false
    /\ (forall tail,
          Driver.parse_interval (codepoints "10sec " ++ tail) = Some 10).
Proof.
  intros I.
  split; [reflexivity | ]. split.
  { exact (parse_interval_ascii (codepoints "15") (codepoints "min")
             (codepoints "!")
             ltac:(discriminate) eq_refl ltac:(cbn; lia)
             ltac:(discriminate) eq_refl eq_refl). }
  split; [reflexivity | ]. split.
  { exact (parse_interval_ascii (codepoints "1") (codepoints "h")
             (codepoints "30min")
             ltac:(discriminate) eq_refl ltac:(cbn; lia)
             ltac:(discriminate) eq_refl eq_refl). }
  split; [reflexivity | ].
  intros tail.
  exact (parse_interval_ascii (codepoints "10") (codepoints "sec")
           (32%N :: tail)
           ltac:(discriminate) eq_refl ltac:(cbn; lia)
           ltac:(discriminate) eq_refl eq_refl).
Qed.

(** ** The Driver's calls to the Setter *)

Lemma timing_view_app (tr1 tr2 : list Driver.event) :
  Driver.timing_view (tr1 ++ tr2)
  = Driver.timing_view tr1 ++ Driver.timing_view tr2.
Proof.
  induction tr1 as [| ev tr1 IH]; [reflexivity | ].
  destruct ev as [m | | secs | cmd t]; cbn; rewrite ?IH; try reflexivity.
  destruct m; cbn; rewrite ?IH; reflexivity.
Qed.

Lemma timing_view_logs (logs : list Driver.event) :
  forallb Driver.is_log logs = true ->
  (forall cmd, ~ In (Driver.Log (Driver.LogWouldRun cmd)) logs) ->
  Driver.timing_view logs = [].
Proof.
  induction logs as [| ev logs IH]; [reflexivity | ].
  cbn [forallb]. intros Hall Hno.
  apply andb_true_iff in Hall. destruct Hall as [Hev Hall].
  assert (IH' : Driver.timing_view logs = []).
  { apply IH; [exact Hall | ]. intros cmd Hin. apply (Hno cmd). right. exact Hin. }
  destruct ev as [m | | secs | cmd t]; try discriminate.
  destruct m; cbn; try exact IH'.
  exfalso. eapply Hno. left. reflexivity.
Qed.

Section SetFlagFacts.

Context {R : RandomGen}.
Variable cfg : Driver.config.
Variable e : Driver.env.

(** In dry-run mode [set_flag] reports the command and returns [True]: no
    process is run, the generator and the clock are not touched. *)
Lemma set_flag_dry_run (flag_name variant : string) (w : Driver.world) :
  Driver.dry_run cfg = true ->
  Driver.set_flag cfg e flag_name variant w
  = Some (true,
          advance w (Driver.w_rng w) 0 0
            [Driver.Log (Driver.LogWouldRun
                           (Driver.set_flag_cmd cfg e flag_name variant))]).
Proof.
  intros Hdry. unfold Driver.set_flag. rewrite Hdry. reflexivity.
Qed.

(** Otherwise it runs the Setter once; it returns whether the run
    succeeded, and logs at least one line when it did not. *)
Lemma set_flag_real (flag_name variant : string) (w : Driver.world) :
  Driver.dry_run cfg = false ->
  let cmd := Driver.set_flag_cmd cfg e flag_name variant in
  let r := Driver.run_process e (Driver.w_runs w) cmd in
  exists logs,
    Driver.set_flag cfg e flag_name variant w
    = Some (succeeds r,
            advance w (Driver.w_rng w) 0 1 (Driver.RunProcess cmd 30 :: logs))
    /\ forallb Driver.is_log logs = true
    /\ (forall c, ~ In (Driver.Log (Driver.LogWouldRun c)) logs)
    /\ (succeeds r = true -> logs = [])
    /\ (succeeds r = false -> logs <> []).
Proof.
  intros Hdry cmd r. unfold Driver.set_flag. rewrite Hdry.
  fold cmd. unfold Driver.bind at 1. unfold Driver.subprocess_run.
  fold r. destruct r as [rc stderr | | err] eqn:Hr; cbn [succeeds].
  - destruct (rc =? 0) eqn:Hrc.
    + exists []. repeat split; auto; try discriminate.
    + destruct (String.eqb_spec stderr "") as [-> | Hne].
      * exists [Driver.Log (Driver.LogFailed flag_name variant
                             (Driver.toggle_script cfg))].
        repeat split; try discriminate.
        -- unfold advance. cbn. rewrite <- app_assoc. reflexivity.
        -- intros c [H | []]. discriminate.
      * exists [Driver.Log (Driver.LogFailed flag_name variant
                             (Driver.toggle_script cfg));
                Driver.Log (Driver.LogStderr stderr)].
        repeat split; try discriminate.
        -- unfold advance, Driver.bind, Driver.log_message, Driver.emit,
             Driver.when, Driver.ret. cbn.
           rewrite <- !app_assoc. reflexivity.
        -- intros c [H | [H | []]]; discriminate.
  - exists [Driver.Log (Driver.LogTimeout flag_name variant)].
    repeat split; try discriminate.
    + unfold advance. cbn. rewrite <- app_assoc. reflexivity.
    + intros c [H | []]. discriminate.
  - exists [Driver.Log (Driver.LogError flag_name variant err)].
    repeat split; try discriminate.
    + unfold advance. cbn. rewrite <- app_assoc. reflexivity.
    + intros c [H | []]. discriminate.
Qed.

End SetFlagFacts.

Section ActivationFacts.

Context {R : RandomGen}.
Variable cfg : Driver.config.
Variable e : Driver.env.

Lemma advance_advance (w : Driver.world) (g g' : rng_state)
    (a a' b b' : nat) (evs evs' : list Driver.event) :
  advance (advance w g a b evs) g' a' b' evs'
  = advance w g' (a' + a) (b' + b) (evs ++ evs').
Proof.
  unfold advance. cbn. f_equal; [lia | lia | ].
  rewrite app_assoc. reflexivity.
Qed.

Lemma emit_advance (ev : Driver.event) (w : Driver.world) :
  Driver.emit ev w = Some (tt, advance w (Driver.w_rng w) 0 0 [ev]).
Proof. reflexivity. Qed.

(** The activation statement in dry-run mode. *)
Lemma activate_and_revert_dry_run (flag_name variant : string)
    (flag_duration : Z) (w : Driver.world) :
  Driver.dry_run cfg = true ->
  Driver.activate_and_revert cfg e flag_name variant flag_duration w
  = Some (tt,
          advance w (Driver.w_rng w) 0 0
            [Driver.Log (Driver.LogWouldRun
                           (Driver.set_flag_cmd cfg e flag_name variant));
             Driver.Sleep (inject_Z flag_duration);
             Driver.Log (Driver.LogRevert flag_name);
             Driver.Log (Driver.LogWouldRun
                           (Driver.set_flag_cmd cfg e flag_name "off"))]).
Proof.
  intros Hdry. unfold Driver.activate_and_revert.
  unfold Driver.bind at 1. rewrite (set_flag_dry_run cfg e _ _ _ Hdry).
  rewrite Hdry. cbn [negb Driver.when].
  unfold Driver.bind, Driver.ret, Driver.time_sleep, Driver.log_message.
  rewrite !emit_advance.
  rewrite (set_flag_dry_run cfg e _ _ _ Hdry).
  cbn [andb]. rewrite !advance_advance. reflexivity.
Qed.

(** The activation statement when the Setter is really run: after a failed
    activation nothing follows but the failure's log lines; after a
    successful one come the hold, the revert of the same flag to "off", and
    log lines. *)
Lemma activate_and_revert_real (flag_name variant : string)
    (flag_duration : Z) (w : Driver.world) :
  Driver.dry_run cfg = false ->
  let cmd := Driver.set_flag_cmd cfg e flag_name variant in
  let cmd_off := Driver.set_flag_cmd cfg e flag_name "off" in
  let r := Driver.run_process e (Driver.w_runs w) cmd in
  exists logs,
    forallb Driver.is_log logs = true
    /\ (forall c, ~ In (Driver.Log (Driver.LogWouldRun c)) logs)
    /\ if succeeds r then
         Driver.activate_and_revert cfg e flag_name variant flag_duration w
         = Some (tt,
                 advance w (Driver.w_rng w) 0 2
                   ([Driver.RunProcess cmd 30;
                     Driver.Log (Driver.LogActivated flag_name variant);
                     Driver.Sleep (inject_Z flag_duration);
                     Driver.Log (Driver.LogRevert flag_name);
                     Driver.RunProcess cmd_off 30] ++ logs))
       else
         logs <> []
         /\ Driver.activate_and_revert cfg e flag_name variant flag_duration w
            = Some (tt,
                    advance w (Driver.w_rng w) 0 1
                      (Driver.RunProcess cmd 30 :: logs)).
Proof.
  intros Hdry cmd cmd_off r.
  destruct (set_flag_real cfg e flag_name variant w Hdry)
    as (logs1 & Hset1 & Hlog1 & Hno1 & Hok1 & Hfail1).
  fold cmd in Hset1. fold r in Hset1, Hok1, Hfail1.
  unfold Driver.activate_and_revert.
  destruct (succeeds r) eqn:Hr.
  - unfold Driver.bind at 1. rewrite Hset1.
    rewrite (Hok1 Hr). rewrite Hdry. cbn [negb Driver.when].
    unfold Driver.bind at 1. unfold Driver.log_message at 1.
    rewrite emit_advance, advance_advance.
    unfold Driver.bind at 1. unfold Driver.time_sleep.
    rewrite emit_advance, advance_advance.
    unfold Driver.bind at 1. unfold Driver.log_message at 1.
    rewrite emit_advance, advance_advance.
    unfold Driver.bind at 1.
    match goal with
    | |- context [Driver.set_flag cfg e flag_name "off" ?w2] =>
        destruct (set_flag_real cfg e flag_name "off" w2 Hdry)
          as (logs2 & Hset2 & Hlog2 & Hno2 & Hok2 & Hfail2)
    end.
    rewrite Hset2. fold cmd_off. rewrite advance_advance.
    match goal with
    | |- context [succeeds ?r2 && true] => destruct (succeeds r2) eqn:Hr2
    end; cbn [andb Driver.when].
    + exists [Driver.Log (Driver.LogReverted flag_name)].
      split; [reflexivity | ].
      split; [intros c [H | []]; discriminate | ].
      rewrite (Hok2 Hr2).
      unfold Driver.log_message. rewrite emit_advance, advance_advance.
      reflexivity.
    + exists logs2. split; [exact Hlog2 | ]. split; [exact Hno2 | ].
      unfold Driver.ret. reflexivity.
  - exists logs1. split; [exact Hlog1 | ]. split; [exact Hno1 | ].
    split; [exact (Hfail1 Hr) | ].
    unfold Driver.bind at 1. rewrite Hset1. reflexivity.
Qed.

End ActivationFacts.

(** ** One interval *)

Section IntervalFacts.

Context {R : RandomGen}.
Variable cfg : Driver.config.
Variable e : Driver.env.

Lemma finish_interval_spec (interval_count : Z) (interval_end_time : Q)
    (w : Driver.world) :
  Driver.finish_interval e interval_count interval_end_time w
  = Some (tt,
          advance w (Driver.w_rng w) 1 0
            (events_finish interval_count interval_end_time
               (Driver.clock e (Driver.w_reads w)))).
Proof.
  unfold Driver.finish_interval, events_finish.
  unfold Driver.bind at 1. unfold Driver.time_time.
  set (t3 := Driver.clock e (Driver.w_reads w)).
  destruct (Driver.Qltb t3 interval_end_time); cbn [andb Driver.when];
    [destruct (0 <? Driver.py_int (interval_end_time - t3));
     cbn [Driver.when] | ];
    unfold Driver.bind, Driver.ret, Driver.log_message, Driver.time_sleep,
      Driver.emit, advance; cbn;
    rewrite <- ?app_assoc; reflexivity.
Qed.

(** The activation statement never raises and touches neither the
    generator nor the clock. *)
Lemma activate_and_revert_frame (flag_name variant : string)
    (flag_duration : Z) (w : Driver.world) :
  exists runs evs,
    Driver.activate_and_revert cfg e flag_name variant flag_duration w
    = Some (tt, advance w (Driver.w_rng w) 0 runs evs).
Proof.
  destruct (Driver.dry_run cfg) eqn:Hdry.
  - eexists _, _. apply activate_and_revert_dry_run. exact Hdry.
  - destruct (activate_and_revert_real cfg e flag_name variant
                flag_duration w Hdry) as (logs & _ & _ & H).
    destruct (succeeds _).
    + eexists _, _. exact H.
    + destruct H as [_ H]. eexists _, _. exact H.
Qed.

(** One turn of the loop, unfolded: the offset and the pair are drawn from
    the generator as it stands; the duration is drawn only when the whole
    seconds left on the wall clock are positive, and from a range that
    depends on them. *)
Lemma interval_body_unfold (interval_count : Z) (w : Driver.world) :
  let L := Driver.interval_seconds cfg in
  let t0 := Driver.clock e (Driver.w_reads w) in
  let t1 := Driver.clock e (1 + Driver.w_reads w) in
  let t2 := Driver.clock e (2 + Driver.w_reads w) in
  let interval_end_time := (t0 + inject_Z L)%Q in
  let remaining_time := Driver.py_int (interval_end_time - t2) in
  exists random_offset g1 flag_name variant g2,
    randint 0 (Z.max 0 (L - 1)) (Driver.w_rng w) = Some (random_offset, g1)
    /\ Driver.get_random_flag_variant g1
       = Some ((flag_name, variant), g2)
    /\ Driver.interval_body cfg e interval_count w
       = if remaining_time <=? 0 then
           Some (Driver.mk_draw random_offset flag_name variant None,
                 advance w g2 3 0
                   (events_before interval_count L random_offset t0 t1
                    ++ [Driver.Log Driver.LogIntervalEnded]))
         else
           match randint 1 (Z.max 1 remaining_time) g2 with
           | Some (flag_duration, g3) =>
               match Driver.activate_and_revert cfg e flag_name variant
                       flag_duration
                       (advance w g3 3 0
                          (events_before interval_count L random_offset
                             t0 t1
                           ++ [Driver.Log (Driver.LogTrigger flag_name
                                             variant flag_duration)]))
               with
               | Some (_, w2) =>
                   match Driver.finish_interval e interval_count
                           interval_end_time w2 with
                   | Some (_, w3) =>
                       Some (Driver.mk_draw random_offset flag_name variant
                               (Some flag_duration), w3)
                   | None => None
                   end
               | None => None
               end
           | None => None
           end.
Proof.
  intros L t0 t1 t2 interval_end_time remaining_time.
  destruct (randint_spec 0 (Z.max 0 (L - 1)) (Driver.w_rng w))
    as (o & g1 & Ho & _); [lia | ].
  destruct (get_random_flag_variant_spec g1)
    as (f & v & variants & g2 & Hfv & _).
  exists o, g1, f, v, g2. split; [exact Ho | ]. split; [exact Hfv | ].
  unfold Driver.interval_body.
  unfold Driver.bind at 1. unfold Driver.time_time at 1. fold t0.
  unfold Driver.bind at 1. unfold Driver.log_message at 1.
  unfold Driver.emit at 1.
  unfold Driver.bind at 1. unfold Driver.draw_with at 1.
  cbn [Driver.w_rng Driver.w_reads Driver.w_runs Driver.w_trace].
  fold L. rewrite Ho.
  unfold Driver.bind at 1. unfold Driver.log_message at 1.
  unfold Driver.emit at 1.
  cbn [Driver.w_rng Driver.w_reads Driver.w_runs Driver.w_trace].
  unfold Driver.bind at 1. unfold Driver.time_time at 1.
  cbn [Driver.w_rng Driver.w_reads Driver.w_runs Driver.w_trace].
  change (Driver.clock e (S (Driver.w_reads w))) with t1.
  unfold Driver.bind at 1.
  assert (Hwait :
    Driver.when (Driver.Qltb t1 (t0 + inject_Z o)%Q)
      (Driver.time_sleep ((t0 + inject_Z o) - t1)%Q)
      {| Driver.w_rng := g1;
         Driver.w_reads := S (S (Driver.w_reads w));
         Driver.w_runs := Driver.w_runs w;
         Driver.w_trace :=
           (Driver.w_trace w
            ++ [Driver.Log (Driver.LogBeginInterval interval_count L)])
           ++ [Driver.Log (Driver.LogNextTrigger o (t0 + inject_Z o)%Q)] |}
    = Some (tt,
            {| Driver.w_rng := g1;
               Driver.w_reads := S (S (Driver.w_reads w));
               Driver.w_runs := Driver.w_runs w;
               Driver.w_trace :=
                 Driver.w_trace w
                 ++ events_before interval_count L o t0 t1 |})).
  { unfold events_before.
    destruct (Driver.Qltb t1 (t0 + inject_Z o)%Q); cbn;
      unfold Driver.time_sleep, Driver.emit, Driver.ret; cbn;
      rewrite <- ?app_assoc; reflexivity. }
  rewrite Hwait.
  unfold Driver.bind at 1. unfold Driver.draw_with at 1.
  cbn [Driver.w_rng Driver.w_reads Driver.w_runs Driver.w_trace].
  rewrite Hfv. cbn [fst snd].
  unfold Driver.bind at 1. unfold Driver.time_time at 1.
  cbn [Driver.w_rng Driver.w_reads Driver.w_runs Driver.w_trace].
  change (Driver.clock e (S (S (Driver.w_reads w)))) with t2.
  fold interval_end_time. fold remaining_time.
  destruct (remaining_time <=? 0).
  - unfold Driver.bind, Driver.log_message, Driver.emit, Driver.ret, advance.
    cbn. rewrite <- app_assoc. reflexivity.
  - unfold Driver.bind at 1. unfold Driver.draw_with at 1.
    cbn [Driver.w_rng Driver.w_reads Driver.w_runs Driver.w_trace].
    destruct (randint 1 (Z.max 1 remaining_time) g2) as [[d g3] | ];
      [ | reflexivity].
    unfold Driver.bind at 1. unfold Driver.log_message at 1.
    unfold Driver.emit at 1.
    cbn [Driver.w_rng Driver.w_reads Driver.w_runs Driver.w_trace].
    unfold Driver.bind at 1.
    unfold advance. cbn [Nat.add]. rewrite <- app_assoc.
    destruct (Driver.activate_and_revert cfg e f v d _) as [[[] w2] | ];
      [ | reflexivity].
    unfold Driver.bind at 1.
    destruct (Driver.finish_interval e interval_count
                interval_end_time w2) as [[[] w3] | ]; reflexivity.
Qed.

End IntervalFacts.

Section DrawFacts.

Context {R : RandomGen}.
Variable cfg : Driver.config.
Variable e : Driver.env.

(** What one turn of the loop draws and where it leaves the generator and
    the clock, whatever the Setter does. *)
Lemma interval_body_draws (interval_count : Z) (w : Driver.world) :
  let L := Driver.interval_seconds cfg in
  let t0 := Driver.clock e (Driver.w_reads w) in
  let t2 := Driver.clock e (2 + Driver.w_reads w) in
  let remaining_time := Driver.py_int ((t0 + inject_Z L) - t2) in
  exists random_offset g1 flag_name variant g2,
    randint 0 (Z.max 0 (L - 1)) (Driver.w_rng w) = Some (random_offset, g1)
    /\ Driver.get_random_flag_variant g1
       = Some ((flag_name, variant), g2)
    /\ (remaining_time <= 0 ->
        exists evs,
          Driver.interval_body cfg e interval_count w
          = Some (Driver.mk_draw random_offset flag_name variant None,
                  advance w g2 3 0 evs))
    /\ (0 < remaining_time ->
        exists flag_duration g3 runs evs,
          randint 1 (Z.max 1 remaining_time) g2 = Some (flag_duration, g3)
          /\ Driver.interval_body cfg e interval_count w
             = Some (Driver.mk_draw random_offset flag_name variant
                       (Some flag_duration),
                     advance w g3 4 runs evs)).
Proof.
  intros L t0 t2 remaining_time.
  destruct (interval_body_unfold cfg e interval_count w)
    as (o & g1 & f & v & g2 & Ho & Hfv & Hbody).
  fold L t0 t2 in Hbody. fold remaining_time in Hbody.
  exists o, g1, f, v, g2. split; [exact Ho | ]. split; [exact Hfv | ].
  split.
  - intros Hrem. apply Z.leb_le in Hrem. rewrite Hrem in Hbody.
    eexists. exact Hbody.
  - intros Hrem.
    destruct (Z.leb_spec remaining_time 0) as [Hle | _]; [lia | ].
    destruct (randint_spec 1 (Z.max 1 remaining_time) g2)
      as (d & g3 & Hd & _); [lia | ].
    rewrite Hd in Hbody.
    match type of Hbody with
    | context [Driver.activate_and_revert cfg e f v d ?w1] =>
        destruct (activate_and_revert_frame cfg e f v d w1)
          as (runs & evs & Hact)
    end.
    rewrite Hact in Hbody. rewrite finish_interval_spec in Hbody.
    rewrite !advance_advance in Hbody. cbn [Driver.w_rng advance] in Hbody.
    exists d, g3. eexists _, _. split; [exact Hd | ]. exact Hbody.
Qed.

(** Every turn of the loop returns: no draw raises. *)
Lemma interval_body_total (interval_count : Z) (w : Driver.world) :
  exists d g reads runs evs,
    Driver.interval_body cfg e interval_count w
    = Some (d, advance w g reads runs evs).
Proof.
  destruct (interval_body_draws interval_count w)
    as (o & g1 & f & v & g2 & _ & _ & Hskip & Hdraw).
  cbv zeta in Hskip, Hdraw.
  match type of Hskip with
  | ?r <= 0 -> _ => destruct (Z.le_gt_cases r 0) as [Hle | Hgt]
  end.
  - destruct (Hskip Hle) as (evs & H). eexists _, _, _, _, _. exact H.
  - destruct (Hdraw Hgt) as (d & g3 & runs & evs & _ & H).
    eexists _, _, _, _, _. exact H.
Qed.

Lemma intervals_total (n : nat) :
  forall (interval_count : Z) (w : Driver.world),
  exists ds g reads runs evs,
    Driver.intervals cfg e n interval_count w
    = Some (ds, advance w g reads runs evs)
    /\ length ds = n.
Proof.
  induction n as [| n IH]; intros count w.
  - exists [], (Driver.w_rng w), 0%nat, 0%nat, [].
    split; [ | reflexivity].
    cbn. unfold Driver.ret, advance. cbn. rewrite app_nil_r.
    destruct w; reflexivity.
  - cbn [Driver.intervals]. unfold Driver.bind at 1.
    destruct (interval_body_total (count + 1) w)
      as (d & g & reads & runs & evs & Hbody).
    rewrite Hbody. unfold Driver.bind at 1.
    destruct (IH (count + 1) (advance w g reads runs evs))
      as (ds & g' & reads' & runs' & evs' & Hrest & Hlen).
    rewrite Hrest. unfold Driver.ret. rewrite advance_advance.
    eexists _, _, _, _, _. split; [reflexivity | ]. cbn. lia.
Qed.

End DrawFacts.

(** ** Bounds on the draws *)

Lemma py_int_floor (x : Q) :
  0 < Driver.py_int x -> Driver.py_int x = Qfloor x.
Proof.
  destruct x as [n d]. unfold Driver.py_int, Qfloor. cbn [Qnum Qden].
  intros Hpos. destruct (Z.le_gt_cases 0 n) as [Hn | Hn].
  - apply Z.quot_div_nonneg; lia.
  - exfalso.
    assert (H1 : 0 <= Z.quot (- n) (Z.pos d)) by (apply Z.quot_pos; lia).
    rewrite Z.quot_opp_l in H1 by lia. lia.
Qed.





(** Without any assumption on the clock, the duration is at most the whole
    seconds that the wall clock leaves until the end of the interval. *)
Lemma interval_duration_wall_clock :
  forall (R : RandomGen) (cfg : Driver.config) (e : Driver.env)
         (interval_count : Z) (w : Driver.world) d w' flag_duration,
    Driver.interval_body cfg e interval_count w = Some (d, w') ->
    Driver.d_duration d = Some flag_duration ->
    1 <= flag_duration
         <= Driver.py_int
              ((Driver.clock e (Driver.w_reads w)
                + inject_Z (Driver.interval_seconds cfg))
               - Driver.clock e (2 + Driver.w_reads w)).
Proof.
  intros R cfg e count w d w' dur Hbody Hdur.
  destruct (interval_body_draws cfg e count w)
    as (o & g1 & f & v & g2 & _ & _ & Hskip & Hdraw).
  cbv zeta in Hskip, Hdraw.
  set (rem := Driver.py_int _) in *.
  destruct (Z.le_gt_cases rem 0) as [Hle | Hgt].
  - destruct (Hskip Hle) as (evs & H). rewrite H in Hbody.
    injection Hbody as <- _. discriminate.
  - destruct (Hdraw Hgt) as (d0 & g3 & runs & evs & Hd & H).
    rewrite H in Hbody. injection Hbody as <- _.
    injection Hdur as <-.
    destruct (randint_spec 1 (Z.max 1 rem) g2) as (d2 & g3' & Hd2 & Hr2);
      [lia | ].
    rewrite Hd in Hd2. injection Hd2 as <- <-. lia.
Qed.

(** ** A failed activation *)

(** C2, as the code has it.  The activation statement always returns.  When
    the activation call fails, the failure is logged and nothing else
    happens in that statement: the Setter was invoked once, there is no hold
    and no revert (the interval goes on to wait for its end).  When the
    activation call succeeds, the Driver holds for the duration drawn
    before the call and then invokes the Setter for the same flag with
    "off", once, whatever that second call returns. *)
Theorem failed_activation_skips_hold_and_revert :
  forall (R : RandomGen) (cfg : Driver.config) (e : Driver.env)
         (flag_name variant : string) (flag_duration : Z)
         (w : Driver.world),
    let cmd := Driver.set_flag_cmd cfg e flag_name variant in
    let cmd_off := Driver.set_flag_cmd cfg e flag_name "off" in
    exists w',
      Driver.activate_and_revert cfg e flag_name variant flag_duration w
      = Some (tt, w')
      /\ (activation_ok cfg e flag_name variant w = false ->
          (exists logs,
              logs <> []
              /\ forallb Driver.is_log logs = true
              /\ Driver.w_trace w'
                 = Driver.w_trace w ++ Driver.RunProcess cmd 30 :: logs)
          /\ Driver.timing_view (Driver.w_trace w')
             = Driver.timing_view (Driver.w_trace w) ++ [Driver.TSet cmd]
          /\ Driver.w_runs w' = S (Driver.w_runs w))
      /\ (activation_ok cfg e flag_name variant w = true ->
          Driver.timing_view (Driver.w_trace w')
          = Driver.timing_view (Driver.w_trace w)
            ++ [Driver.TSet cmd;
                Driver.THold (inject_Z flag_duration);
                Driver.TSet cmd_off]).
Proof.
  intros R cfg e f v dur w cmd cmd_off. subst cmd cmd_off.
  unfold activation_ok.
  destruct (Driver.dry_run cfg) eqn:Hdry; cbn [orb].
  - eexists. split; [apply activate_and_revert_dry_run; exact Hdry | ].
    split; [intros Hf; discriminate Hf | ]. intros _.
    unfold advance. cbn [Driver.w_trace].
    rewrite timing_view_app. reflexivity.
  - destruct (activate_and_revert_real cfg e f v dur w Hdry)
      as (logs & Hlogs & Hno & H).
    cbv zeta in H.
    destruct (succeeds _).
    + eexists. split; [exact H | ]. split; [intros Hf; discriminate Hf | ]. intros _.
      unfold advance. cbn [Driver.w_trace].
      rewrite !timing_view_app, (timing_view_logs logs Hlogs Hno).
      reflexivity.
    + destruct H as [Hne H]. eexists. split; [exact H | ].
      split; [ | intros Hf; discriminate Hf]. intros _.
      unfold advance. cbn [Driver.w_trace Driver.w_runs].
      split; [exists logs; auto | ].
      split; [ | reflexivity].
      rewrite timing_view_app. cbn [Driver.timing_view].
      rewrite (timing_view_logs logs Hlogs Hno). reflexivity.
Qed.

(** C2, the specification's wording against the code: an interval whose
    activation fails.  The duration 6 was drawn, the Setter was run once and
    failed, and the run shows neither a hold of 6 seconds nor a second
    Setter call: after the failed call comes the wait for the end of the
    interval. *)
Lemma failed_activation_example :
  option_map
    (fun r => (fst r,
               Driver.timing_view (Driver.w_trace (snd r)),
               Driver.w_runs (snd r)))
    (@Driver.run lcg (example_config false)
       (example_env example_clock (Driver.Completed 1 "boom"))
       lcg_start 1)
  = Some ([Driver.mk_draw 1 "kafkaQueueProblems" "on" (Some 6)],
          [Driver.THold (999 # 1000);
           Driver.TSet ["/usr/bin/python"; "./toggle-flags.py";
                        "kafkaQueueProblems"; "on"];
           Driver.THold 7],
          1%nat).
Proof. vm_compute. reflexivity. Qed.

(** ** Dry-run mode *)

Lemma events_before_no_process (interval_count interval o : Z) (t0 t1 : Q) :
  filter Driver.is_run_process
    (events_before interval_count interval o t0 t1) = [].
Proof.
  unfold events_before. destruct (Driver.Qltb _ _); reflexivity.
Qed.

Lemma events_finish_no_process (interval_count : Z) (t_end t3 : Q) :
  filter Driver.is_run_process (events_finish interval_count t_end t3) = [].
Proof.
  unfold events_finish. destruct (_ && _); reflexivity.
Qed.

Section DryRunFacts.

Context {R : RandomGen}.
Variable cfg : Driver.config.
Variables e e' : Driver.env.

Hypothesis Hdry : Driver.dry_run cfg = true.
Hypothesis Hclock : forall k, Driver.clock e' k = Driver.clock e k.
Hypothesis Hexe : Driver.sys_executable e' = Driver.sys_executable e.
Hypothesis Hok : always_succeeds e'.

Lemma set_flag_cmd_real (flag_name variant : string) :
  Driver.set_flag_cmd (real_config cfg) e' flag_name variant
  = Driver.set_flag_cmd cfg e flag_name variant.
Proof.
  unfold Driver.set_flag_cmd, real_config.
  cbn [Driver.toggle_script Driver.base_url]. rewrite Hexe. reflexivity.
Qed.

(** One turn of the loop in dry-run mode runs no process, and draws and
    times exactly what the same turn does when the Setter is really run and
    succeeds. *)
Lemma interval_body_dry_run (interval_count : Z) (w w' : Driver.world) :
  same_timing w w' ->
  exists d g reads evs runs' evs',
    Driver.interval_body cfg e interval_count w
    = Some (d, advance w g reads 0 evs)
    /\ filter Driver.is_run_process evs = []
    /\ Driver.interval_body (real_config cfg) e' interval_count w'
       = Some (d, advance w' g reads runs' evs')
    /\ Driver.timing_view evs' = Driver.timing_view evs.
Proof.
  intros (Hrng & Hreads & _).
  destruct (interval_body_unfold cfg e interval_count w)
    as (o & g1 & f & v & g2 & Ho & Hfv & Hbody).
  destruct (interval_body_unfold (real_config cfg) e' interval_count w')
    as (o' & g1' & f' & v' & g2' & Ho' & Hfv' & Hbody').
  cbn [real_config Driver.interval_seconds] in Ho', Hbody'.
  rewrite Hrng, Ho in Ho'. injection Ho' as <- <-.
  rewrite Hfv in Hfv'. injection Hfv' as <- <- <-.
  rewrite !Hclock, Hreads in Hbody'.
  set (L := Driver.interval_seconds cfg) in *.
  set (t0 := Driver.clock e (Driver.w_reads w)) in *.
  set (t1 := Driver.clock e (1 + Driver.w_reads w)) in *.
  set (t2 := Driver.clock e (2 + Driver.w_reads w)) in *.
  set (rem := Driver.py_int ((t0 + inject_Z L) - t2)) in *.
  destruct (rem <=? 0).
  - eexists _, _, _, _, _, _. split; [exact Hbody | ].
    split; [ | split; [exact Hbody' | reflexivity]].
    rewrite filter_app, events_before_no_process. reflexivity.
  - destruct (randint 1 (Z.max 1 rem) g2) as [[d g3] | ] eqn:Hd.
    2:{ destruct (randint_spec 1 (Z.max 1 rem) g2) as (? & ? & H & _);
          [lia | congruence]. }
    rewrite (activate_and_revert_dry_run cfg e f v d _ Hdry) in Hbody.
    rewrite finish_interval_spec in Hbody.
    rewrite !advance_advance in Hbody.
    cbn [advance Driver.w_reads Driver.w_rng] in Hbody.
    match type of Hbody' with
    | context [Driver.activate_and_revert _ _ _ _ _ ?w1] =>
        destruct (activate_and_revert_real (real_config cfg) e' f v d w1
                    eq_refl) as (logs & Hlogs & Hno & Hact)
    end.
    cbv zeta in Hact. rewrite Hok in Hact.
    rewrite Hact in Hbody'.
    rewrite finish_interval_spec in Hbody'.
    rewrite !advance_advance in Hbody'.
    cbn [advance Driver.w_reads Driver.w_rng] in Hbody'.
    rewrite !Hclock, Hreads, !set_flag_cmd_real in Hbody'.
    eexists _, _, _, _, _, _. split; [exact Hbody | ].
    split; [ | split; [exact Hbody' | ]].
    + rewrite !filter_app, events_before_no_process,
        events_finish_no_process. reflexivity.
    + rewrite !timing_view_app. cbn [Driver.timing_view].
      rewrite (timing_view_logs logs Hlogs Hno). reflexivity.
Qed.

End DryRunFacts.

(** [chaos_loop] is its opening log lines, the seeding, and the turns of
    the loop. *)
Lemma chaos_loop_unfold {R : RandomGen} (cfg : Driver.config)
    (e : Driver.env) (n : nat) (w : Driver.world) :
  exists evs,
    Driver.chaos_loop cfg e n w
    = Driver.intervals cfg e n 0
        (advance w (loop_rng cfg (Driver.w_rng w)) 0 0 evs)
    /\ Driver.timing_view evs = []
    /\ filter Driver.is_run_process evs = [].
Proof.
  unfold Driver.chaos_loop, loop_rng.
  destruct (Driver.seed cfg) as [s | ].
  - destruct (Driver.dry_run cfg); eexists;
      (split; [ | split]);
      [ unfold Driver.bind, Driver.log_message, Driver.emit, Driver.when,
          Driver.ret, advance; cbn; rewrite <- ?app_assoc; reflexivity
      | reflexivity | reflexivity
      | unfold Driver.bind, Driver.log_message, Driver.emit, Driver.when,
          Driver.ret, advance; cbn; rewrite <- ?app_assoc; reflexivity
      | reflexivity | reflexivity ].
  - destruct (randint_spec 0 (2 ^ 31 - 1) (Driver.w_rng w))
      as (current_seed & g & Hs & _); [lia | ].
    unfold randint in Hs.
    replace (2 ^ 31 - 1 + 1) with (2 ^ 31) in Hs by lia.
    rewrite Hs.
    destruct (Driver.dry_run cfg); eexists;
      (split; [ | split]);
      [ unfold Driver.bind, Driver.log_message, Driver.emit, Driver.when,
          Driver.ret, Driver.draw_with, Driver.random_seed, advance;
        cbn [Driver.w_rng Driver.w_reads Driver.w_runs Driver.w_trace];
        rewrite Hs;
        cbn [Driver.w_rng Driver.w_reads Driver.w_runs Driver.w_trace
             Nat.add];
        rewrite <- ?app_assoc; reflexivity
      | reflexivity | reflexivity
      | unfold Driver.bind, Driver.log_message, Driver.emit, Driver.when,
          Driver.ret, Driver.draw_with, Driver.random_seed, advance;
        cbn [Driver.w_rng Driver.w_reads Driver.w_runs Driver.w_trace];
        rewrite Hs;
        cbn [Driver.w_rng Driver.w_reads Driver.w_runs Driver.w_trace
             Nat.add];
        rewrite <- ?app_assoc; reflexivity
      | reflexivity | reflexivity ].
Qed.

Section DryRunLoop.

Context {R : RandomGen}.
Variable cfg : Driver.config.
Variables e e' : Driver.env.

Hypothesis Hdry : Driver.dry_run cfg = true.
Hypothesis Hclock : forall k, Driver.clock e' k = Driver.clock e k.
Hypothesis Hexe : Driver.sys_executable e' = Driver.sys_executable e.
Hypothesis Hok : always_succeeds e'.

Lemma same_timing_advance (w w' : Driver.world) (g : rng_state)
    (reads runs runs' : nat) (evs evs' : list Driver.event) :
  same_timing w w' ->
  Driver.timing_view evs' = Driver.timing_view evs ->
  same_timing (advance w g reads runs evs) (advance w' g reads runs' evs').
Proof.
  intros (Hrng & Hreads & Hview) Hevs. unfold same_timing, advance.
  cbn [Driver.w_rng Driver.w_reads Driver.w_trace].
  rewrite !timing_view_app, Hreads, Hview, Hevs. auto.
Qed.

Lemma no_process_advance (w : Driver.world) (g : rng_state)
    (reads : nat) (evs : list Driver.event) :
  no_process w ->
  filter Driver.is_run_process evs = [] ->
  no_process (advance w g reads 0 evs).
Proof.
  intros (Hruns & Htrace) Hevs. unfold no_process, advance.
  cbn [Driver.w_runs Driver.w_trace].
  rewrite filter_app, Htrace, Hevs. auto.
Qed.

Lemma intervals_dry_run (n : nat) :
  forall (interval_count : Z) (w w' : Driver.world),
    same_timing w w' ->
    no_process w ->
    exists ds w1 w1',
      Driver.intervals cfg e n interval_count w = Some (ds, w1)
      /\ no_process w1
      /\ Driver.intervals (real_config cfg) e' n interval_count w'
         = Some (ds, w1')
      /\ same_timing w1 w1'.
Proof.
  induction n as [| n IH]; intros count w w' Hsame Hnone.
  - exists [], w, w'. cbn. unfold Driver.ret. auto.
  - destruct (interval_body_dry_run cfg e e' Hdry Hclock Hexe Hok
                (count + 1) w w' Hsame)
      as (d & g & reads & evs & runs' & evs' & Hb & Hevs & Hb' & Hview).
    destruct (IH (count + 1) (advance w g reads 0 evs)
                (advance w' g reads runs' evs'))
      as (ds & w1 & w1' & Hi & Hnone1 & Hi' & Hsame1).
    { apply same_timing_advance; assumption. }
    { apply no_process_advance; assumption. }
    exists (d :: ds), w1, w1'.
    cbn [Driver.intervals]. unfold Driver.bind, Driver.ret.
    rewrite Hb, Hb', Hi, Hi'. auto.
Qed.

Lemma run_dry_run (g0 : rng_state) (n : nat) :
  exists ds w w',
    Driver.run cfg e g0 n = Some (ds, w)
    /\ no_process w
    /\ Driver.run (real_config cfg) e' g0 n = Some (ds, w')
    /\ same_timing w w'.
Proof.
  unfold Driver.run.
  destruct (chaos_loop_unfold cfg e n (Driver.initial_world cfg g0))
    as (evs & -> & Hview & Hnone).
  destruct (chaos_loop_unfold (real_config cfg) e' n
              (Driver.initial_world (real_config cfg) g0))
    as (evs' & -> & Hview' & _).
  apply intervals_dry_run.
  - unfold same_timing, advance.
    cbn [Driver.w_rng Driver.w_reads Driver.w_trace].
    rewrite !timing_view_app, Hview, Hview'.
    repeat split.
  - unfold no_process, advance. cbn [Driver.w_runs Driver.w_trace].
    rewrite filter_app, Hnone. split; reflexivity.
Qed.

End DryRunLoop.

(** C8. In dry-run mode every call of [set_flag] only logs the command it
    would have run and returns [True], leaving the process count, the clock
    and the generator as they were.  Hence a run of any number of intervals
    runs no process at all, and it draws, sleeps and invokes the Setter
    (activation, hold, revert) exactly as the run does in which the Setter
    is really executed and always succeeds, on the same clock readings. *)
Theorem dry_run_makes_no_external_call :
  forall (R : RandomGen) (cfg : Driver.config) (e : Driver.env),
    Driver.dry_run cfg = true ->
    (forall flag_name variant w,
        Driver.set_flag cfg e flag_name variant w
        = Some (true,
                advance w (Driver.w_rng w) 0 0
                  [Driver.Log
                     (Driver.LogWouldRun
                        (Driver.set_flag_cmd cfg e flag_name variant))]))
    /\ forall (g0 : rng_state) (n : nat),
         exists ds w,
           Driver.run cfg e g0 n = Some (ds, w)
           /\ length ds = n
           /\ Driver.w_runs w = 0%nat
           /\ filter Driver.is_run_process (Driver.w_trace w) = []
           /\ forall e',
                (forall k, Driver.clock e' k = Driver.clock e k) ->
                Driver.sys_executable e' = Driver.sys_executable e ->
                always_succeeds e' ->
                exists w',
                  Driver.run (real_config cfg) e' g0 n = Some (ds, w')
                  /\ Driver.timing_view (Driver.w_trace w')
                     = Driver.timing_view (Driver.w_trace w).
Proof.
  intros R cfg e Hdry. split.
  - intros f v w. apply set_flag_dry_run. exact Hdry.
  - intros g0 n.
    set (e0 := Driver.mk_env (Driver.clock e)
                 (fun _ _ => Driver.Completed 0 "")
                 (Driver.sys_executable e)).
    destruct (run_dry_run cfg e e0 Hdry (fun k => eq_refl) eq_refl
                (fun _ _ => eq_refl) g0 n)
      as (ds & w & w0 & Hrun & (Hruns & Htrace) & _ & _).
    exists ds, w. split; [exact Hrun | ].
    split.
    { unfold Driver.run in Hrun.
      destruct (chaos_loop_unfold cfg e n (Driver.initial_world cfg g0))
        as (evs & Hloop & _). rewrite Hloop in Hrun.
      destruct (intervals_total cfg e n 0
                  (advance (Driver.initial_world cfg g0)
                     (loop_rng cfg
                        (Driver.w_rng (Driver.initial_world cfg g0)))
                     0 0 evs))
        as (ds' & g & reads & runs & evs' & Hi & Hlen).
      rewrite Hi in Hrun. injection Hrun as <- _. exact Hlen. }
    split; [exact Hruns | ]. split; [exact Htrace | ].
    intros e' Hclock Hexe Hok.
    destruct (run_dry_run cfg e e' Hdry Hclock Hexe Hok g0 n)
      as (ds' & w1 & w' & Hrun1 & _ & Hrun' & (_ & _ & Hview)).
    rewrite Hrun in Hrun1. injection Hrun1 as <- <-.
    exists w'. split; [exact Hrun' | exact Hview].
Qed.

Lemma dry_run_example :
  Driver.dry_run (example_config true) = true
  /\ (forall flag_name variant (w : @Driver.world lcg),
        Driver.set_flag (example_config true)
          (example_env example_clock Driver.TimeoutExpired)
          flag_name variant w
        = Some (true,
                advance w (Driver.w_rng w) 0 0
                  [Driver.Log
                     (Driver.LogWouldRun
                        (Driver.set_flag_cmd (example_config true)
                           (example_env example_clock Driver.TimeoutExpired)
                           flag_name variant))]))
  /\ exists ds w,
       @Driver.run lcg (example_config true)
         (example_env example_clock Driver.TimeoutExpired) lcg_start 3
       = Some (ds, w)
       /\ length ds = 3%nat
       /\ Driver.w_runs w = 0%nat
       /\ filter Driver.is_run_process (Driver.w_trace w) = [].
Proof.
  split; [reflexivity | ].
  destruct (dry_run_makes_no_external_call lcg (example_config true)
              (example_env example_clock Driver.TimeoutExpired) eq_refl)
    as [Hset Hrun].
  split; [exact Hset | ].
  destruct (Hrun lcg_start 3%nat) as (ds & w & H1 & H2 & H3 & H4 & _).
  exists ds, w. auto.
Defined.

(** ** Reproducibility *)

Section SameDraws.

Context {R : RandomGen}.
Variables cfg cfg' : Driver.config.
Variables e e' : Driver.env.

Hypothesis Hlen : Driver.interval_seconds cfg' = Driver.interval_seconds cfg.
Hypothesis Hclock : forall k, Driver.clock e' k = Driver.clock e k.

Lemma interval_body_same_draws (interval_count interval_count' : Z)
    (w w' : Driver.world) :
  Driver.w_rng w' = Driver.w_rng w ->
  Driver.w_reads w' = Driver.w_reads w ->
  exists d g reads runs evs runs' evs',
    Driver.interval_body cfg e interval_count w
    = Some (d, advance w g reads runs evs)
    /\ Driver.interval_body cfg' e' interval_count' w'
       = Some (d, advance w' g reads runs' evs').
Proof.
  intros Hrng Hreads.
  destruct (interval_body_draws cfg e interval_count w)
    as (o & g1 & f & v & g2 & Ho & Hfv & Hskip & Hdraw).
  destruct (interval_body_draws cfg' e' interval_count' w')
    as (o' & g1' & f' & v' & g2' & Ho' & Hfv' & Hskip' & Hdraw').
  cbv zeta in Hskip, Hdraw, Hskip', Hdraw'.
  rewrite Hlen, Hrng, Ho in Ho'. injection Ho' as <- <-.
  rewrite Hfv in Hfv'. injection Hfv' as <- <- <-.
  rewrite Hlen, !Hclock, Hreads in Hskip', Hdraw'.
  set (rem := Driver.py_int _) in *.
  destruct (Z.le_gt_cases rem 0) as [Hle | Hgt].
  - destruct (Hskip Hle) as (evs & H). destruct (Hskip' Hle) as (evs' & H').
    eexists _, _, _, 0%nat, _, 0%nat, _. split; [exact H | exact H'].
  - destruct (Hdraw Hgt) as (d & g3 & runs & evs & Hd & H).
    destruct (Hdraw' Hgt) as (d' & g3' & runs' & evs' & Hd' & H').
    rewrite Hd in Hd'. injection Hd' as <- <-.
    eexists _, _, _, _, _, _, _. split; [exact H | exact H'].
Qed.

Lemma intervals_same_draws (n : nat) :
  forall (interval_count interval_count' : Z) (w w' : Driver.world),
    Driver.w_rng w' = Driver.w_rng w ->
    Driver.w_reads w' = Driver.w_reads w ->
    option_map fst (Driver.intervals cfg e n interval_count w)
    = option_map fst (Driver.intervals cfg' e' n interval_count' w').
Proof.
  induction n as [| n IH]; intros count count' w w' Hrng Hreads.
  - reflexivity.
  - destruct (interval_body_same_draws (count + 1) (count' + 1) w w'
                Hrng Hreads)
      as (d & g & reads & runs & evs & runs' & evs' & Hb & Hb').
    cbn [Driver.intervals]. unfold Driver.bind at 1 3.
    rewrite Hb, Hb'. unfold Driver.bind, Driver.ret.
    specialize (IH (count + 1) (count' + 1)
                  (advance w g reads runs evs)
                  (advance w' g reads runs' evs')).
    assert (Hrec := IH eq_refl
                      ltac:(unfold advance; cbn; rewrite Hreads; reflexivity)).
    destruct (Driver.intervals cfg e n (count + 1) _) as [[ds w1] | ];
      destruct (Driver.intervals cfg' e' n (count' + 1) _) as [[ds' w1'] | ];
      cbn in *; congruence.
Qed.

(** What does hold of reproducibility: the draws of a run are determined by
    the seed, the interval length and the clock readings.  Dry-run mode,
    the Setter's address and every outcome of every Setter call are without
    influence on them. *)
Lemma draws_determined_by_seed_length_clock (g0 : rng_state) (n : nat) :
  Driver.seed cfg' = Driver.seed cfg ->
  option_map fst (Driver.run cfg e g0 n)
  = option_map fst (Driver.run cfg' e' g0 n).
Proof.
  intros Hseed. unfold Driver.run.
  destruct (chaos_loop_unfold cfg e n (Driver.initial_world cfg g0))
    as (evs & -> & _).
  destruct (chaos_loop_unfold cfg' e' n (Driver.initial_world cfg' g0))
    as (evs' & -> & _).
  apply intervals_same_draws.
  - unfold advance, loop_rng, Driver.initial_world.
    cbn [Driver.w_rng]. rewrite Hseed. reflexivity.
  - reflexivity.
Qed.

End SameDraws.

Lemma py_int_inject_Z (a b c : Z) :
  Driver.py_int ((inject_Z a + inject_Z b) - inject_Z c) = a + b - c.
Proof.
  unfold Driver.py_int, Qminus, Qplus, Qopp, inject_Z.
  cbn [Qnum Qden Pos.mul]. rewrite Z.quot_1_r. ring.
Qed.

(** C1. The code against the specification: for every generator, seed and
    interval length of at least ten seconds there are two runs with that
    seed and that length, differing in nothing but one reading of the wall
    clock, whose first intervals do not draw the same things.  On the first
    clock the wait for the trigger ends on time and a duration is drawn; on
    the second the process comes back from that wait only after the
    interval is over, and no duration is drawn at all. *)
Theorem draws_depend_on_wall_clock :
  forall (R : RandomGen) (cfg : Driver.config)
         (run_process : nat -> list string -> Driver.proc_result)
         (exe : string) (g0 : rng_state) (s : Z),
    Driver.seed cfg = Some s ->
    10 <= Driver.interval_seconds cfg ->
    exists (on_time late : Z) dA dB wA wB,
      0 <= on_time <= late
      /\ Driver.run cfg
           (Driver.mk_env (clock_after_wait on_time) run_process exe) g0 1
         = Some ([dA], wA)
      /\ Driver.run cfg
           (Driver.mk_env (clock_after_wait late) run_process exe) g0 1
         = Some ([dB], wB)
      /\ Driver.d_offset dA = on_time
      /\ Driver.d_offset dB = on_time
      /\ Driver.d_duration dA <> None
      /\ Driver.d_duration dB = None
      /\ dA <> dB.
Proof.
  intros R cfg run_process exe g0 s Hseed HL.
  set (L := Driver.interval_seconds cfg) in *.
  destruct (randint_spec 0 (Z.max 0 (L - 1)) (rng_seed s))
    as (o & g1 & Ho & Hrange); [lia | ].
  exists o, (o + L).
  assert (Hstart : forall e,
             exists evs,
               Driver.run cfg e g0 1
               = Driver.intervals cfg e 1 0
                   (advance (Driver.initial_world cfg g0) (rng_seed s)
                      0 0 evs)).
  { intros e. unfold Driver.run.
    destruct (chaos_loop_unfold cfg e 1 (Driver.initial_world cfg g0))
      as (evs & Hloop & _).
    exists evs. rewrite Hloop. unfold loop_rng, Driver.initial_world.
    cbn [Driver.w_rng]. rewrite Hseed. reflexivity. }
  assert (Hone : forall e w,
             Driver.intervals cfg e 1 0 w
             = match Driver.interval_body cfg e 1 w with
               | Some (d, w') => Some ([d], w')
               | None => None
               end).
  { intros e w. cbn [Driver.intervals]. unfold Driver.bind, Driver.ret.
    cbn [Z.add]. destruct (Driver.interval_body cfg e 1 w) as [[d w'] | ];
      reflexivity. }
  set (eA := Driver.mk_env (clock_after_wait o) run_process exe).
  set (eB := Driver.mk_env (clock_after_wait (o + L)) run_process exe).
  destruct (Hstart eA) as (evsA & HrunA).
  destruct (Hstart eB) as (evsB & HrunB).
  rewrite HrunA, HrunB, !Hone.
  destruct (interval_body_draws cfg eA 1
              (advance (Driver.initial_world cfg g0) (rng_seed s) 0 0 evsA))
    as (oA & g1A & fA & vA & g2A & HoA & _ & _ & HdrawA).
  destruct (interval_body_draws cfg eB 1
              (advance (Driver.initial_world cfg g0) (rng_seed s) 0 0 evsB))
    as (oB & g1B & fB & vB & g2B & HoB & _ & HskipB & _).
  cbv zeta in HdrawA, HskipB. fold L in HoA, HoB, HdrawA, HskipB.
  cbn [advance Driver.w_rng Driver.w_reads Driver.initial_world
       Driver.clock eA eB clock_after_wait Nat.add] in HoA, HoB, HdrawA, HskipB.
  rewrite Ho in HoA, HoB.
  injection HoA as <- <-. injection HoB as <- <-.
  rewrite py_int_inject_Z in HdrawA, HskipB.
  destruct HdrawA as (d & g3 & runs & evs & _ & HbodyA); [lia | ].
  destruct HskipB as (evs' & HbodyB); [lia | ].
  rewrite HbodyA, HbodyB.
  eexists _, _, _, _.
  split; [lia | ].
  split; [reflexivity | ]. split; [reflexivity | ].
  cbn [Driver.d_offset Driver.d_duration].
  repeat split; try discriminate.
Qed.

Lemma draws_depend_on_wall_clock_example :
  Driver.seed (example_config false) = Some 42
  /\ 10 <= Driver.interval_seconds (example_config false)
  /\ exists (on_time late : Z) dA dB wA wB,
       0 <= on_time <= late
       /\ @Driver.run lcg (example_config false)
            (Driver.mk_env (clock_after_wait on_time)
               (fun _ _ => Driver.Completed 0 "") "/usr/bin/python")
            lcg_start 1
          = Some ([dA], wA)
       /\ @Driver.run lcg (example_config false)
            (Driver.mk_env (clock_after_wait late)
               (fun _ _ => Driver.Completed 0 "") "/usr/bin/python")
            lcg_start 1
          = Some ([dB], wB)
       /\ Driver.d_offset dA = on_time
       /\ Driver.d_offset dB = on_time
       /\ Driver.d_duration dA <> None
       /\ Driver.d_duration dB = None
       /\ dA <> dB.
Proof.
  split; [reflexivity | ]. split; [cbn; lia | ].
  apply (draws_depend_on_wall_clock lcg (example_config false)
           (fun _ _ => Driver.Completed 0 "") "/usr/bin/python"
           lcg_start 42).
  - reflexivity.
  - cbn. lia.
Defined.

(** The dependence on the clock shown on the sample generator with an
    everyday cause: the wait for the trigger overruns by 1.2 seconds instead
    of 0.01.  The whole seconds left drop from 8 to 7, the duration is drawn
    from another range, and the two runs with seed 42 hold the fault for 6
    and for 3 seconds. *)
Lemma jitter_changes_duration_example :
  option_map fst
    (@Driver.run lcg (example_config true)
       (example_env example_clock (Driver.Completed 0 "")) lcg_start 1)
  = Some [Driver.mk_draw 1 "kafkaQueueProblems" "on" (Some 6)]
  /\ option_map fst
       (@Driver.run lcg (example_config true)
          (example_env example_clock_late (Driver.Completed 0 ""))
          lcg_start 1)
     = Some [Driver.mk_draw 1 "kafkaQueueProblems" "on" (Some 3)].
Proof. split; vm_compute; reflexivity. Qed.

(** The whole interval around a failed activation: after the trigger line
    come the Setter call, the failure's log lines, and then directly the
    statements that close the interval. *)
Lemma interval_with_failed_activation :
  forall (R : RandomGen) (cfg : Driver.config) (e : Driver.env)
         (interval_count : Z) (w : Driver.world) d w' flag_duration,
    Driver.dry_run cfg = false ->
    Driver.interval_body cfg e interval_count w = Some (d, w') ->
    Driver.d_duration d = Some flag_duration ->
    succeeds (Driver.run_process e (Driver.w_runs w)
                (Driver.set_flag_cmd cfg e (Driver.d_flag d)
                   (Driver.d_variant d))) = false ->
    let L := Driver.interval_seconds cfg in
    let t0 := Driver.clock e (Driver.w_reads w) in
    exists logs,
      logs <> []
      /\ forallb Driver.is_log logs = true
      /\ Driver.w_runs w' = S (Driver.w_runs w)
      /\ Driver.w_trace w'
         = Driver.w_trace w
           ++ events_before interval_count L (Driver.d_offset d) t0
                (Driver.clock e (1 + Driver.w_reads w))
           ++ [Driver.Log (Driver.LogTrigger (Driver.d_flag d)
                             (Driver.d_variant d) flag_duration);
               Driver.RunProcess
                 (Driver.set_flag_cmd cfg e (Driver.d_flag d)
                    (Driver.d_variant d)) 30]
           ++ logs
           ++ events_finish interval_count (t0 + inject_Z L)%Q
                (Driver.clock e (3 + Driver.w_reads w)).
Proof.
  intros R cfg e count w d w' dur Hdry Hbody Hdur Hfail L t0.
  destruct (interval_body_unfold cfg e count w)
    as (o & g1 & f & v & g2 & Ho & Hfv & Hunfold).
  rewrite Hunfold in Hbody. clear Hunfold. fold L t0 in Hbody.
  destruct (_ <=? 0).
  { injection Hbody as <- _. discriminate. }
  destruct (randint 1 _ g2) as [[d0 g3] | ]; [ | discriminate].
  match type of Hbody with
  | context [Driver.activate_and_revert cfg e f v d0 ?w1] =>
      destruct (activate_and_revert_real cfg e f v d0 w1 Hdry)
        as (logs & Hlogs & _ & Hact)
  end.
  cbv zeta in Hact.
  match type of Hact with
  | context [succeeds ?r] => destruct (succeeds r) eqn:Hs
  end.
  - rewrite Hact in Hbody. rewrite finish_interval_spec in Hbody.
    injection Hbody as <- _.
    cbn [Driver.d_flag Driver.d_variant] in Hfail.
    change (succeeds (Driver.run_process e (Driver.w_runs w)
                        (Driver.set_flag_cmd cfg e f v)) = true) in Hs.
    congruence.
  - destruct Hact as [Hne Hact].
    rewrite Hact in Hbody. rewrite finish_interval_spec in Hbody.
    rewrite !advance_advance in Hbody.
    cbn [advance Driver.w_reads Driver.w_rng Nat.add] in Hbody.
    injection Hbody as <- <-.
    cbn [Driver.d_duration] in Hdur. injection Hdur as <-.
    exists logs. cbn [Driver.d_offset Driver.d_flag Driver.d_variant
                       Driver.w_runs Driver.w_trace].
    repeat split; auto.
    rewrite <- !app_assoc. reflexivity.
Qed.

(** ** The statements above on the sample run *)

Lemma parse_interval_grammar_example :
  Driver.in_grammar (codepoints "15min") = true
  /\ exists multiplier,
       Driver.unit_get Driver.unit_multipliers
         (Driver.lower (snd (Driver.span ascii_digit (codepoints "15min"))))
       = Some multiplier
       /\ Driver.parse_interval (I := sample_interpreter) (codepoints "15min")
          = Some (Driver.ascii_int 0
                    (fst (Driver.span ascii_digit (codepoints "15min")))
                  * multiplier)
       /\ 0 < Driver.ascii_int 0
                (fst (Driver.span ascii_digit (codepoints "15min")))
              * multiplier.
Proof.
  split; [reflexivity | ].
  apply (parse_interval_grammar (I := sample_interpreter)
           (codepoints "15min")).
  - reflexivity.
  - right. cbn. lia.
Defined.

Lemma draws_determined_example :
  option_map fst
    (@Driver.run lcg (example_config true)
       (example_env example_clock Driver.TimeoutExpired) lcg_start 4)
  = option_map fst
      (@Driver.run lcg (example_config false)
         (example_env example_clock (Driver.Completed 0 "")) lcg_start 4).
Proof.
  apply (@draws_determined_by_seed_length_clock lcg
           (example_config true) (example_config false)
           (example_env example_clock Driver.TimeoutExpired)
           (example_env example_clock (Driver.Completed 0 ""))
           eq_refl (fun k => eq_refl) lcg_start 4%nat eq_refl).
Defined.

Lemma set_flag_valid_example :
  Setter.get_variant_value "paymentFailure" "50%" = Some (PyFloat (5 # 10))
  /\ forall requests_post,
       filter SetterIO.is_post
         (snd (SetterIO.set_flag Driver.DEFAULT_BASE_URL requests_post
                 "paymentFailure" "50%"))
       = [SetterIO.Post
            (String.append Driver.DEFAULT_BASE_URL "/write-to-file")
            (Setter.construct_json "paymentFailure" "50%") 10].
Proof.
  split; [reflexivity | ].
  intros post.
  apply (set_flag_valid_posts_once Driver.DEFAULT_BASE_URL post
           "paymentFailure" "50%" (PyFloat (5 # 10))).
  reflexivity.
Defined.

(** The scenario of the specification: the document written by
    [setFlag("paymentFailure", "50%")]. *)
Lemma construct_json_paymentFailure :
  exists entry,
    dict_get (Setter.doc_flags (Setter.construct_json "paymentFailure" "50%"))
      "paymentFailure" = Some entry
    /\ Setter.fe_defaultVariant entry = "50%"
    /\ dict_get (Setter.fe_variants entry) "50%" = Some (PyFloat (5 # 10)).
Proof. eexists. repeat split. Qed.

(** * Further properties of the code *)

(** ** The catalog and the Driver's table *)

Lemma get_variant_value_spec_resolve (flag_name variant : string) :
  Setter.get_variant_value flag_name variant
  = spec_resolve flag_name variant.
Proof.
  unfold Setter.get_variant_value, spec_resolve.
  case_fault flag_name; try reflexivity.
  cbn. eqb_false. reflexivity.
Qed.

Lemma get_all_variants_lookup (flag_name variant : string) :
  dict_get (Setter.get_all_variants flag_name) variant
  = Setter.get_variant_value flag_name variant.
Proof.
  unfold Setter.get_all_variants, Setter.get_variant_value.
  case_fault flag_name; try reflexivity.
  cbn. eqb_false. reflexivity.
Qed.

Lemma dict_get_Some_key {V : Type} (d : pydict V) (k : string) (v : V) :
  dict_get d k = Some v -> In k (dict_keys d).
Proof.
  intros H. apply dict_get_In in H.
  unfold dict_keys. apply (in_map fst) in H. exact H.
Qed.

(** The Driver's table against the Setter's catalog.  The faults the Driver
    draws from are the eleven of the catalog, in the same order, and the
    variants it lists for a fault are all the variants the Setter defines
    for it except "off", in the same order.  So every activation the Setter
    accepts can be drawn: a fault and variant other than "off" for which
    [get_variant_value] returns a value is an entry of [available_flags]. *)
Theorem available_flags_is_catalog_without_off :
  dict_keys Driver.available_flags = Setter.all_flags
  /\ (forall flag_name variants,
        In (flag_name, variants) Driver.available_flags ->
        variants = non_off (dict_keys (Setter.get_all_variants flag_name)))
  /\ (forall flag_name variant value,
        Setter.get_variant_value flag_name variant = Some value ->
        variant <> "off" ->
        exists variants,
          dict_get Driver.available_flags flag_name = Some variants
          /\ In variant variants).
Proof.
  split; [reflexivity | ]. split.
  - intros f variants Hin. cbn in Hin.
    repeat (destruct Hin as [Hin | Hin];
            [injection Hin as <- <-; reflexivity | ]).
    contradiction.
  - intros f v x Hx Hoff. rewrite get_variant_value_spec_resolve in Hx.
    unfold spec_resolve in Hx.
    destruct (dict_get spec_catalog f) as [row | ] eqn:Hrow;
      [ | discriminate].
    apply dict_get_In in Hrow. apply dict_get_In in Hx. cbn in Hrow.
    repeat (destruct Hrow as [Hrow | Hrow];
            [ injection Hrow as <- <-; cbn in Hx;
              repeat (destruct Hx as [Hx | Hx];
                      [ injection Hx as <- <-;
                        first [ exfalso; apply Hoff; reflexivity
                              | eexists; split;
                                [reflexivity | cbn; auto 10] ]
                      | ]);
              contradiction
            | ]).
    contradiction.
Qed.

(** ** Documents *)

Lemma construct_json_flags (target_flag target_variant : string) :
  Setter.doc_flags (Setter.construct_json target_flag target_variant)
  = map (fun flag_name =>
           (flag_name,
            Setter.construct_entry target_flag target_variant flag_name))
        Setter.all_flags.
Proof. reflexivity. Qed.

(** Every document [set_flag] sends is well formed: each of its faults has
    for default variant a key of that fault's own variant table.  (The
    validation in front of [construct_json] is what guarantees it for the
    target fault.) *)
Theorem set_flag_posts_well_formed :
  forall BASE_URL requests_post flag_name variant url doc timeout,
    In (SetterIO.Post url doc timeout)
       (snd (SetterIO.set_flag BASE_URL requests_post flag_name variant)) ->
    doc = Setter.construct_json flag_name variant
    /\ Setter.get_variant_value flag_name variant <> None
    /\ well_formed doc.
Proof.
  intros base post f v url doc t Hin.
  assert (Hposted : doc = Setter.construct_json f v
                    /\ Setter.get_variant_value f v <> None).
  { unfold SetterIO.set_flag in Hin.
    destruct (Setter.get_variant_value f v) as [x | ] eqn:Hx.
    - destruct (post _ _) as [code text | err | err];
        [destruct ((code =? 200) || (code =? 201)) | | ];
        cbn in Hin;
        repeat (destruct Hin as [Hin | Hin]; try discriminate Hin);
        try contradiction;
        injection Hin as _ <- _; split; congruence.
    - cbn in Hin. destruct Hin as [Hin | [Hin | []]]; discriminate. }
  destruct Hposted as [-> Hvalid]. split; [reflexivity | ].
  split; [exact Hvalid | ].
  intros g entry Hg. rewrite construct_json_flags in Hg.
  apply in_map_iff in Hg. destruct Hg as (g' & Heq & Hknown).
  injection Heq as <- <-.
  destruct (known_fault_catalogued g' Hknown) as [_ Hrow].
  destruct (construct_entry_default f v g') as (Ht & Hp & Ho).
  cbv zeta in Ht, Hp, Ho.
  unfold Setter.construct_entry at 2. cbn [Setter.fe_variants].
  destruct (string_dec g' f) as [-> | Hne].
  - rewrite (Ht eq_refl).
    destruct (Setter.get_variant_value f v) as [x | ] eqn:Hx;
      [ | contradiction].
    rewrite <- get_all_variants_lookup in Hx.
    eapply dict_get_Some_key. exact Hx.
  - destruct (string_dec g' "productCatalogFailure") as [-> | Hnp].
    + rewrite (Hp Hne eq_refl). cbn. auto.
    + rewrite (Ho Hne Hnp). cbn in Hknown.
      repeat (destruct Hknown as [<- | Hknown]; [cbn; auto 10 | ]).
      contradiction.
Qed.

Lemma construct_json_unfold (target_flag target_variant : string) :
  Setter.construct_json target_flag target_variant
  = Setter.mk_document "https://flagd.dev/schema/v0/flags.json"
      (map (fun flag_name =>
              (flag_name,
               Setter.construct_entry target_flag target_variant flag_name))
           Setter.all_flags).
Proof. reflexivity. Qed.

Lemma construct_entry_off (target_flag flag_name : string) :
  target_flag <> "productCatalogFailure" ->
  Setter.construct_entry target_flag "off" flag_name
  = Setter.mk_flag_entry (Setter.get_flag_description flag_name) "ENABLED"
      (Setter.get_all_variants flag_name)
      (if flag_name == "productCatalogFailure" then "on" else "off").
Proof.
  intros Hne. unfold Setter.construct_entry. f_equal.
  destruct (String.eqb_spec flag_name target_flag) as [-> | _];
    [ | reflexivity].
  rewrite (proj2 (String.eqb_neq _ _) Hne). reflexivity.
Qed.

(** What a revert writes.  Reverting any fault other than
    productCatalogFailure to "off" sends one and the same document, whatever
    the fault: every default "off" except productCatalogFailure, which is
    "on".  Reverting productCatalogFailure itself sends the document in
    which every default is "off", the baseline fault included. *)
Theorem revert_document :
  (forall flag_name other,
      flag_name <> "productCatalogFailure" ->
      other <> "productCatalogFailure" ->
      Setter.construct_json flag_name "off"
      = Setter.construct_json other "off")
  /\ (forall flag_name,
        flag_name <> "productCatalogFailure" ->
        defaults_of (Setter.construct_json flag_name "off")
        = map (fun g => (g, if g == "productCatalogFailure"
                            then "on" else "off"))
              Setter.all_flags)
  /\ defaults_of (Setter.construct_json "productCatalogFailure" "off")
     = map (fun g => (g, "off")) Setter.all_flags.
Proof.
  split; [ | split].
  - intros f g Hf Hg. rewrite !construct_json_unfold. f_equal.
    apply map_ext. intros g'.
    rewrite (construct_entry_off f g' Hf), (construct_entry_off g g' Hg).
    reflexivity.
  - intros f Hf. unfold defaults_of. rewrite construct_json_unfold.
    cbn [Setter.doc_flags]. rewrite map_map. apply map_ext. intros g'.
    cbn [fst snd]. rewrite (construct_entry_off f g' Hf). reflexivity.
  - reflexivity.
Qed.

Lemma revert_document_example :
  "adFailure" <> "productCatalogFailure"
  /\ "paymentFailure" <> "productCatalogFailure"
  /\ Setter.construct_json "adFailure" "off"
     = Setter.construct_json "paymentFailure" "off".
Proof.
  assert (H1 : "adFailure" <> "productCatalogFailure") by discriminate.
  assert (H2 : "paymentFailure" <> "productCatalogFailure") by discriminate.
  split; [exact H1 | ]. split; [exact H2 | ].
  exact (proj1 revert_document "adFailure" "paymentFailure" H1 H2).
Defined.

Lemma set_flag_posts_well_formed_example :
  In (SetterIO.Post
        (String.append Driver.DEFAULT_BASE_URL "/write-to-file")
        (Setter.construct_json "imageSlowLoad" "5sec") 10)
     (snd (SetterIO.set_flag Driver.DEFAULT_BASE_URL
             (fun _ _ => SetterIO.HttpResponse 500 "busy")
             "imageSlowLoad" "5sec"))
  /\ well_formed (Setter.construct_json "imageSlowLoad" "5sec").
Proof.
  assert (Hin : In (SetterIO.Post
                      (String.append Driver.DEFAULT_BASE_URL "/write-to-file")
                      (Setter.construct_json "imageSlowLoad" "5sec") 10)
                   (snd (SetterIO.set_flag Driver.DEFAULT_BASE_URL
                           (fun _ _ => SetterIO.HttpResponse 500 "busy")
                           "imageSlowLoad" "5sec"))).
  { cbn. auto. }
  split; [exact Hin | ].
  exact (proj2 (proj2 (set_flag_posts_well_formed _ _ _ _ _ _ _ Hin))).
Defined.

(** ** The active window of a fault *)

(** The hold never reaches past the end of the interval as the clock showed
    it when the duration was drawn: the reading taken after the wait for
    the trigger, plus the drawn duration, is at most the interval's end
    time.  This needs no assumption on the order of the readings; they are
    taken where the program's float arithmetic is exact, as the model's
    is (in binary64 the difference [end - now] is rounded before it is
    truncated, and the bound can be missed by the rounding error). *)
Theorem hold_ends_within_interval :
  forall (R : RandomGen) (cfg : Driver.config) (e : Driver.env)
         (interval_count : Z) (w : Driver.world) d w' flag_duration,
    exact_interval e (Driver.w_reads w) (Driver.interval_seconds cfg)
    = true ->
    Driver.interval_body cfg e interval_count w = Some (d, w') ->
    Driver.d_duration d = Some flag_duration ->
    (Driver.clock e (2 + Driver.w_reads w) + inject_Z flag_duration
     <= Driver.clock e (Driver.w_reads w)
        + inject_Z (Driver.interval_seconds cfg))%Q.
Proof.
  intros R cfg e count w d w' dur _ Hbody Hdur.
  pose proof (interval_duration_wall_clock R cfg e count w d w' dur
                Hbody Hdur) as [Hlo Hhi].
  set (x := ((Driver.clock e (Driver.w_reads w)
              + inject_Z (Driver.interval_seconds cfg))
             - Driver.clock e (2 + Driver.w_reads w))%Q) in *.
  assert (Hpos : 0 < Driver.py_int x) by lia.
  rewrite (py_int_floor x Hpos) in Hhi.
  assert (Hq : (inject_Z dur <= x)%Q).
  { apply Qle_trans with (inject_Z (Qfloor x)).
    - rewrite <- Zle_Qle. exact Hhi.
    - apply Qfloor_le. }
  unfold x in Hq.
  revert Hq.
  generalize (inject_Z dur), (inject_Z (Driver.interval_seconds cfg)),
    (Driver.clock e (Driver.w_reads w)),
    (Driver.clock e (2 + Driver.w_reads w)).
  intros qd qL q0 q2 Hq. lra.
Qed.

Lemma hold_ends_within_interval_example :
  exact_interval (example_env example_clock_exact (Driver.Completed 0 ""))
    0 10 = true
  /\ exists d w',
       @Driver.interval_body lcg (example_config false)
         (example_env example_clock_exact (Driver.Completed 0 ""))
         1 (example_world false)
       = Some (d, w')
       /\ Driver.d_duration d = Some 6
       /\ (example_clock_exact 2 + inject_Z 6
           <= example_clock_exact 0 + inject_Z 10)%Q.
Proof.
  split; [reflexivity | ].
  destruct (@Driver.interval_body lcg (example_config false)
              (example_env example_clock_exact (Driver.Completed 0 ""))
              1 (example_world false)) as [[d w'] | ] eqn:Hbody.
  - assert (Hd : Driver.d_duration d = Some 6).
    { assert (H : option_map (fun r => Driver.d_duration (fst r))
                    (@Driver.interval_body lcg (example_config false)
                       (example_env example_clock_exact
                          (Driver.Completed 0 ""))
                       1 (example_world false))
                  = Some (Some 6)) by (vm_compute; reflexivity).
      rewrite Hbody in H. cbn in H. congruence. }
    exists d, w'. split; [reflexivity | ]. split; [exact Hd | ].
    exact (hold_ends_within_interval lcg (example_config false)
             (example_env example_clock_exact (Driver.Completed 0 ""))
             1 (example_world false) d w' 6 eq_refl Hbody Hd).
  - exfalso.
    destruct (@interval_body_total lcg (example_config false)
                (example_env example_clock_exact (Driver.Completed 0 ""))
                1 (example_world false))
      as (d & g & reads & runs & evs & H).
    congruence.
Defined.

(** ** Which strings [parse_interval] accepts *)


(** On the sample interpreter: a number in Arabic-Indic digits is read like
    its ASCII spelling, and a number of 4301 digits makes [int] raise where
    one of 4300 digits is converted. *)
Lemma parse_interval_sample_interpreter :
  Driver.parse_interval (I := sample_interpreter)
    ([1633; 1637]%N ++ codepoints "min") = Some 900
  /\ Driver.parse_interval (I := sample_interpreter)
       (repeat 49%N 4301 ++ codepoints "sec") = None
  /\ Driver.parse_interval (I := sample_interpreter)
       (repeat 49%N 4301 ++ codepoints "weeks") = None
  /\ Driver.parse_interval (I := sample_interpreter)
       (repeat 49%N 4300 ++ codepoints "sec")
     = Some (Driver.ascii_int 0 (repeat 49%N 4300)).
Proof.
  split; [vm_compute; reflexivity | ].
  split; [vm_compute; reflexivity | ].
  split; vm_compute; reflexivity.
Qed.

(** ** What a run does to the outside world *)

Lemma Qltb_lt (a b : Q) : Driver.Qltb a b = true -> (a < b)%Q.
Proof.
  unfold Driver.Qltb. intros H. apply negb_true_iff in H.
  apply Qnot_le_lt. intros Hle. apply Qle_bool_iff in Hle. congruence.
Qed.

Lemma events_before_sleeps (interval_count interval o : Z) (t0 t1 : Q) :
  Forall positive_sleep (events_before interval_count interval o t0 t1).
Proof.
  unfold events_before.
  destruct (Driver.Qltb t1 (t0 + inject_Z o)%Q) eqn:Hlt;
    repeat constructor.
  apply Qltb_lt in Hlt. cbn. lra.
Qed.

Lemma events_finish_sleeps (interval_count : Z) (t_end t3 : Q) :
  Forall positive_sleep (events_finish interval_count t_end t3).
Proof.
  unfold events_finish.
  destruct (Driver.Qltb t3 t_end); cbn [andb]; [ | repeat constructor].
  destruct (0 <? Driver.py_int (t_end - t3)) eqn:Hpos;
    repeat constructor.
  apply Z.ltb_lt in Hpos. cbn. rewrite Zlt_Qlt in Hpos. exact Hpos.
Qed.

Lemma logs_are_harmless (logs : list Driver.event) :
  forallb Driver.is_log logs = true ->
  Forall positive_sleep logs /\ filter Driver.is_run_process logs = [].
Proof.
  induction logs as [| ev logs IH]; cbn [forallb]; intros H.
  - split; [constructor | reflexivity].
  - apply andb_true_iff in H. destruct H as [Hev H].
    destruct (IH H) as [IH1 IH2].
    destruct ev; try discriminate. cbn. split; [ | exact IH2].
    constructor; [exact I | exact IH1].
Qed.

(** Splits a goal [Forall positive_sleep evs] along the structure of [evs]
    and closes the parts with the facts at hand. *)
Ltac all_sleeps_positive :=
  rewrite ?Forall_app; repeat split;
  first
    [ assumption
    | apply events_finish_sleeps
    | repeat (apply Forall_cons; [first [exact I | assumption] | ]);
      first [apply Forall_nil | assumption] ].

Section RunFacts.

Context {R : RandomGen}.
Variable cfg : Driver.config.
Variable e : Driver.env.

(** The events of one turn of the loop: every sleep is positive, at most
    two processes are run (none in dry-run mode), and the clock is read
    three or four times. *)
Lemma interval_body_events (interval_count : Z) (w : Driver.world) :
  exists d g reads runs evs,
    Driver.interval_body cfg e interval_count w
    = Some (d, advance w g reads runs evs)
    /\ Forall positive_sleep evs
    /\ length (filter Driver.is_run_process evs) = runs
    /\ (runs <= 2)%nat
    /\ (Driver.dry_run cfg = true -> runs = 0%nat)
    /\ (3 <= reads <= 4)%nat.
Proof.
  destruct (interval_body_unfold cfg e interval_count w)
    as (o & g1 & f & v & g2 & Ho & Hfv & Hbody).
  cbv zeta in Hbody.
  set (L := Driver.interval_seconds cfg) in *.
  set (t0 := Driver.clock e (Driver.w_reads w)) in *.
  set (t1 := Driver.clock e (1 + Driver.w_reads w)) in *.
  set (rem := Driver.py_int _) in *.
  pose proof (events_before_sleeps interval_count L o t0 t1) as Hbefore.
  pose proof (events_before_no_process interval_count L o t0 t1) as Hnone.
  destruct (rem <=? 0).
  - eexists _, _, _, _, _. split; [exact Hbody | ].
    split; [all_sleeps_positive | ].
    split; [rewrite filter_app, Hnone; reflexivity | ].
    repeat split; lia.
  - destruct (randint_spec 1 (Z.max 1 rem) g2) as (d & g3 & Hd & Hrange);
      [lia | ].
    rewrite Hd in Hbody.
    assert (Hhold : positive_sleep (Driver.Sleep (inject_Z d))).
    { cbn. change (inject_Z 0 < inject_Z d)%Q. rewrite <- Zlt_Qlt. lia. }
    destruct (Driver.dry_run cfg) eqn:Hdry.
    + rewrite (activate_and_revert_dry_run cfg e f v d _ Hdry) in Hbody.
      rewrite finish_interval_spec in Hbody.
      rewrite !advance_advance in Hbody.
      cbn [advance Driver.w_reads Driver.w_rng] in Hbody.
      eexists _, _, _, _, _. split; [exact Hbody | ].
      split.
      { all_sleeps_positive. }
      split.
      { rewrite !filter_app, Hnone, events_finish_no_process. reflexivity. }
      repeat split; lia.
    + match type of Hbody with
      | context [Driver.activate_and_revert cfg e f v d ?w1] =>
          destruct (activate_and_revert_real cfg e f v d w1 Hdry)
            as (logs & Hlogs & _ & Hact)
      end.
      cbv zeta in Hact.
      destruct (logs_are_harmless logs Hlogs) as [Hl1 Hl2].
      destruct (succeeds _).
      * rewrite Hact in Hbody. rewrite finish_interval_spec in Hbody.
        rewrite !advance_advance in Hbody.
        cbn [advance Driver.w_reads Driver.w_rng] in Hbody.
        eexists _, _, _, _, _. split; [exact Hbody | ].
        split.
        { all_sleeps_positive. }
        split.
        { rewrite !filter_app, Hnone, Hl2, events_finish_no_process.
          reflexivity. }
        repeat split; try lia; intros Hf; discriminate Hf.
      * destruct Hact as [_ Hact].
        rewrite Hact in Hbody. rewrite finish_interval_spec in Hbody.
        rewrite !advance_advance in Hbody.
        cbn [advance Driver.w_reads Driver.w_rng] in Hbody.
        eexists _, _, _, _, _. split; [exact Hbody | ].
        split.
        { all_sleeps_positive. }
        split.
        { rewrite !filter_app, Hnone, events_finish_no_process.
          cbn [filter Driver.is_run_process]. rewrite Hl2. reflexivity. }
        repeat split; try lia; intros Hf; discriminate Hf.
Qed.

Lemma intervals_events (n : nat) :
  forall (interval_count : Z) (w : Driver.world),
  exists ds g reads runs evs,
    Driver.intervals cfg e n interval_count w
    = Some (ds, advance w g reads runs evs)
    /\ length ds = n
    /\ Forall positive_sleep evs
    /\ length (filter Driver.is_run_process evs) = runs
    /\ (runs <= 2 * n)%nat
    /\ (Driver.dry_run cfg = true -> runs = 0%nat)
    /\ (3 * n <= reads <= 4 * n)%nat.
Proof.
  induction n as [| n IH]; intros count w.
  - exists [], (Driver.w_rng w), 0%nat, 0%nat, [].
    split.
    { cbn. unfold Driver.ret, advance. cbn. rewrite app_nil_r.
      destruct w; reflexivity. }
    repeat split; auto; lia.
  - destruct (interval_body_events (count + 1) w)
      as (d & g & reads & runs & evs & Hb & Hs & Hf & Hr & Hd & Hk).
    destruct (IH (count + 1) (advance w g reads runs evs))
      as (ds & g' & reads' & runs' & evs' & Hi & Hlen & Hs' & Hf' & Hr'
          & Hd' & Hk').
    cbn [Driver.intervals]. unfold Driver.bind, Driver.ret.
    rewrite Hb, Hi, advance_advance.
    eexists _, _, _, _, _. split; [reflexivity | ].
    split; [cbn; lia | ].
    split; [apply Forall_app; split; assumption | ].
    split; [rewrite filter_app, length_app; lia | ].
    split; [lia | ]. split; [ | lia].
    intros Hdry. rewrite (Hd Hdry), (Hd' Hdry). reflexivity.
Qed.

Lemma run_events (g0 : rng_state) (n : nat) :
  exists ds w,
    Driver.run cfg e g0 n = Some (ds, w)
    /\ length ds = n
    /\ Forall positive_sleep (Driver.w_trace w)
    /\ length (filter Driver.is_run_process (Driver.w_trace w))
       = Driver.w_runs w
    /\ (Driver.w_runs w <= 2 * n)%nat
    /\ (3 * n <= Driver.w_reads w <= 4 * n)%nat.
Proof.
  unfold Driver.run.
  destruct (chaos_loop_unfold cfg e n (Driver.initial_world cfg g0))
    as (evs0 & -> & Hview & Hnone).
  destruct (intervals_events n 0
              (advance (Driver.initial_world cfg g0)
                 (loop_rng cfg (Driver.w_rng (Driver.initial_world cfg g0)))
                 0 0 evs0))
    as (ds & g & reads & runs & evs & Hi & Hlen & Hs & Hf & Hr & _ & Hk).
  rewrite Hi. eexists _, _. split; [reflexivity | ].
  split; [exact Hlen | ].
  unfold advance.
  cbn [Driver.w_trace Driver.w_runs Driver.w_reads Driver.initial_world].
  rewrite !Nat.add_0_r.
  split.
  { cbn [app]. apply Forall_app. split; [ | exact Hs].
    clear - Hview. induction evs0 as [| ev evs0 IH]; [constructor | ].
    destruct ev as [m | | secs | cmd t]; cbn in Hview;
      try discriminate; try (destruct m; discriminate);
      constructor; try exact I; apply IH;
      try exact Hview; destruct m; try discriminate; exact Hview. }
  split; [ | split; [exact Hr | exact Hk]].
  cbn [app]. rewrite filter_app, Hnone. cbn [app]. exact Hf.
Qed.

End RunFacts.

(** ** The whole run of the loop *)

(** No sleep that a run asks for is negative or zero: both waits are
    guarded by a comparison with the clock and a hold lasts at least one
    second, so [time.sleep] is never given a negative length. *)
Theorem run_sleeps_are_positive {R : RandomGen} :
  forall (cfg : Driver.config) (e : Driver.env) (g0 : rng_state) (n : nat),
  exists ds w,
    Driver.run cfg e g0 n = Some (ds, w)
    /\ Forall positive_sleep (Driver.w_trace w).
Proof.
  intros cfg e g0 n.
  destruct (run_events cfg e g0 n) as (ds & w & Hrun & _ & Hs & _).
  exists ds, w. auto.
Qed.

(** A run of [n] intervals starts at most [2 n] Setter processes (an
    activation and its revert per interval), every one of them recorded in
    the trace, and reads the clock between [3 n] and [4 n] times. *)
Theorem run_process_and_clock_bounds {R : RandomGen} :
  forall (cfg : Driver.config) (e : Driver.env) (g0 : rng_state) (n : nat),
  exists ds w,
    Driver.run cfg e g0 n = Some (ds, w)
    /\ length (filter Driver.is_run_process (Driver.w_trace w))
       = Driver.w_runs w
    /\ (Driver.w_runs w <= 2 * n)%nat
    /\ (3 * n <= Driver.w_reads w <= 4 * n)%nat.
Proof.
  intros cfg e g0 n.
  destruct (run_events cfg e g0 n)
    as (ds & w & Hrun & _ & _ & Hf & Hr & Hk).
  exists ds, w. auto.
Qed.

(** ** Rendering of durations *)

Lemma read_duration_format :
  forallb
    (fun seconds =>
       read_duration (DriverCLI.format_duration seconds) =? seconds)
    (seconds_below 3600) = true.
Proof. vm_compute. reflexivity. Qed.

Lemma seconds_below_In (n : nat) (z : Z) :
  0 <= z < Z.of_nat n -> In z (seconds_below n).
Proof.
  intros Hz. unfold seconds_below.
  rewrite <- (Z2Nat.id z) by lia.
  apply in_map, in_seq. lia.
Qed.

(** [format_duration] is exact below one hour: two different durations are
    rendered differently.  From one hour on it drops the seconds, and from
    one day on the minutes as well: a duration is rendered like the whole
    minute (whole hour) it lies in. *)
Theorem format_duration_resolution :
  (forall s t,
      0 <= s < 3600 -> 0 <= t < 3600 ->
      DriverCLI.format_duration s = DriverCLI.format_duration t -> s = t)
  /\ (forall s,
        3600 <= s < 86400 ->
        DriverCLI.format_duration s
        = DriverCLI.format_duration (s - s mod 60))
  /\ (forall s,
        86400 <= s ->
        DriverCLI.format_duration s
        = DriverCLI.format_duration (s - s mod 3600)).
Proof.
  split; [ | split].
  - intros s t Hs Ht Heq.
    pose proof read_duration_format as Hall.
    rewrite forallb_forall in Hall.
    pose proof (Hall s (seconds_below_In 3600 s ltac:(lia))) as Es.
    pose proof (Hall t (seconds_below_In 3600 t ltac:(lia))) as Et.
    apply Z.eqb_eq in Es, Et. rewrite Heq in Es. congruence.
  - intros s Hs. unfold DriverCLI.format_duration.
    assert (H60 : s - s mod 60 = 60 * (s / 60))
      by (pose proof (Z.div_mod s 60); lia).
    assert (Hr : 3600 <= s - s mod 60 < 86400)
      by (pose proof (Z.mod_pos_bound s 60); rewrite H60 in *;
          pose proof (Z.div_mod s 60); 
          assert (60 <= s / 60 < 1440)
            by (split; [apply Z.div_le_lower_bound | apply Z.div_lt_upper_bound];
                lia);
          lia).
    destruct (Z.ltb_spec s 60); [lia | ].
    destruct (Z.ltb_spec s 3600); [lia | ].
    destruct (Z.ltb_spec s 86400); [ | lia].
    destruct (Z.ltb_spec (s - s mod 60) 60); [lia | ].
    destruct (Z.ltb_spec (s - s mod 60) 3600); [lia | ].
    destruct (Z.ltb_spec (s - s mod 60) 86400); [ | lia].
    replace ((s - s mod 60) / 3600) with (s / 3600).
    2:{ Z.div_mod_to_equations. lia. }
    replace ((s - s mod 60) mod 3600 / 60) with (s mod 3600 / 60).
    2:{ Z.div_mod_to_equations. lia. }
    reflexivity.
  - intros s Hs. unfold DriverCLI.format_duration.
    assert (Hr : 86400 <= s - s mod 3600)
      by (Z.div_mod_to_equations; lia).
    destruct (Z.ltb_spec s 60); [lia | ].
    destruct (Z.ltb_spec s 3600); [lia | ].
    destruct (Z.ltb_spec s 86400); [lia | ].
    destruct (Z.ltb_spec (s - s mod 3600) 60); [lia | ].
    destruct (Z.ltb_spec (s - s mod 3600) 3600); [lia | ].
    destruct (Z.ltb_spec (s - s mod 3600) 86400); [lia | ].
    replace ((s - s mod 3600) / 86400) with (s / 86400).
    2:{ Z.div_mod_to_equations. lia. }
    replace ((s - s mod 3600) mod 86400 / 3600) with (s mod 86400 / 3600).
    2:{ Z.div_mod_to_equations. lia. }
    reflexivity.
Qed.

(** ** The program from the command line to the loop *)

Lemma no_timing_no_sleep (evs : list Driver.event) :
  Driver.timing_view evs = [] -> Forall positive_sleep evs.
Proof.
  induction evs as [| ev evs IH]; intros Hview; [constructor | ].
  destruct ev as [m | | secs | cmd t]; cbn in Hview;
    try discriminate; try (destruct m; discriminate);
    constructor; try exact I; apply IH;
    try exact Hview; destruct m; try discriminate; exact Hview.
Qed.

Section ProgramFacts.

Context {R : RandomGen}.
Variable cfg : Driver.config.
Variable e : Driver.env.

Lemma interval_body_draw_range (interval_count : Z) (w : Driver.world) :
  exists d w',
    Driver.interval_body cfg e interval_count w = Some (d, w')
    /\ draw_in_range cfg d.
Proof.
  destruct (interval_body_draws cfg e interval_count w)
    as (o & g1 & f & v & g2 & Ho & Hfv & Hskip & Hdraw).
  cbv zeta in Hskip, Hdraw.
  destruct (randint_spec 0 (Z.max 0 (Driver.interval_seconds cfg - 1))
              (Driver.w_rng w))
    as (o' & g1' & Ho' & Hrange); [lia | ].
  rewrite Ho in Ho'. injection Ho' as <- <-.
  destruct (get_random_flag_variant_spec g1)
    as (f' & v' & variants & g2' & Hfv' & Hin & Hinv).
  rewrite Hfv in Hfv'. injection Hfv' as <- <- <-.
  destruct (available_flags_accepted f v variants Hin Hinv) as [Hval Hoff].
  match type of Hskip with
  | ?r <= 0 -> _ => destruct (Z.le_gt_cases r 0) as [Hle | Hgt]
  end.
  - destruct (Hskip Hle) as (evs & H). eexists _, _. split; [exact H | ].
    unfold draw_in_range.
    cbn [Driver.d_offset Driver.d_flag Driver.d_variant Driver.d_duration].
    split; [exact Hrange | ]. split; [exact Hval | ].
    split; [exact Hoff | ]. intros d Hd. discriminate Hd.
  - destruct (Hdraw Hgt) as (d & g3 & runs & evs & Hd & H).
    match type of Hd with
    | randint 1 ?hi g2 = _ =>
        destruct (randint_spec 1 hi g2) as (d' & g3' & Hd' & Hdr); [lia | ]
    end.
    rewrite Hd in Hd'. injection Hd' as <- <-.
    eexists _, _. split; [exact H | ].
    unfold draw_in_range.
    cbn [Driver.d_offset Driver.d_flag Driver.d_variant Driver.d_duration].
    split; [exact Hrange | ]. split; [exact Hval | ].
    split; [exact Hoff | ]. intros d0 E. injection E as <-. lia.
Qed.

Lemma intervals_draw_range (n : nat) :
  forall (interval_count : Z) (w : Driver.world) ds w',
    Driver.intervals cfg e n interval_count w = Some (ds, w') ->
    Forall (draw_in_range cfg) ds.
Proof.
  induction n as [| n IH]; intros count w ds w' H.
  - cbn in H. unfold Driver.ret in H. injection H as <- _. constructor.
  - cbn [Driver.intervals] in H. unfold Driver.bind, Driver.ret in H.
    destruct (interval_body_draw_range (count + 1) w)
      as (d & w1 & Hb & Hd).
    rewrite Hb in H. cbv beta iota in H.
    destruct (Driver.intervals cfg e n (count + 1) w1)
      as [[ds1 w2] | ] eqn:Hi; [ | discriminate H].
    injection H as <- _. constructor; [exact Hd | ].
    eapply IH. exact Hi.
Qed.

End ProgramFacts.

Lemma parse_args_continue {I : Interpreter} (argv : list string)
    (parsed : option DriverCLI.namespace) (cfg : Driver.config)
    (out : list DriverCLI.line) :
  DriverCLI.parse_args argv parsed = DriverCLI.Continue cfg out
  <-> exists first rest args interval_seconds,
        argv = first :: rest
        /\ first <> "-h" /\ first <> "--help"
        /\ parsed = Some args
        /\ Driver.parse_interval (DriverCLI.ns_interval args)
           = Some interval_seconds
        /\ 10 <= interval_seconds
        /\ out = []
        /\ cfg = Driver.mk_config (DriverCLI.ns_dry_run args)
                   interval_seconds
                   (DriverCLI.ns_seed args) "./toggle-flags.py"
                   (DriverCLI.ns_base_url args).
Proof.
  unfold DriverCLI.parse_args. split.
  - destruct argv as [| first rest]; [intros H; discriminate H | ].
    unfold str_in. cbn [existsb].
    destruct (String.eqb_spec first "-h") as [-> | Hh];
      [intros H; discriminate H | ].
    destruct (String.eqb_spec first "--help") as [-> | Hhelp];
      [intros H; discriminate H | ].
    cbn [orb].
    destruct parsed as [args | ]; [ | intros H; discriminate H].
    destruct (Driver.parse_interval (DriverCLI.ns_interval args))
      as [L | ] eqn:HL; [ | intros H; discriminate H].
    destruct (Z.eqb_spec L 0) as [E0 | N0]; [intros H; discriminate H | ].
    destruct (Z.ltb_spec L 10) as [Hlt | Hge]; [intros H; discriminate H | ].
    intros H. injection H as <- <-.
    exists first, rest, args, L. repeat split; auto.
  - intros (first & rest & args & L & -> & Hh & Hhelp & -> & HL & Hge & ->
            & ->).
    unfold str_in. cbn [existsb].
    rewrite (proj2 (String.eqb_neq _ _) Hh),
      (proj2 (String.eqb_neq _ _) Hhelp).
    cbn [orb]. rewrite HL.
    destruct (Z.eqb_spec L 0) as [E0 | N0]; [lia | ].
    destruct (Z.ltb_spec L 10) as [Hlt | _]; [lia | ].
    reflexivity.
Qed.

Lemma validate_toggle_script_continue (cfg : Driver.config)
    (e : Driver.env) (script_exists b : bool) (out : list DriverCLI.line) :
  DriverCLI.validate_toggle_script cfg e script_exists
  = DriverCLI.Continue b out
  <-> script_exists = true
      /\ (exists stderr,
            Driver.run_process e 0 (DriverCLI.probe_cmd cfg e)
            = Driver.Completed 0 stderr)
      /\ b = true /\ out = [].
Proof.
  unfold DriverCLI.validate_toggle_script. split.
  - destruct script_exists; cbn [negb]; [ | intros H; discriminate H].
    destruct (Driver.run_process e 0 (DriverCLI.probe_cmd cfg e))
      as [rc stderr | | err]; try (intros H; discriminate H).
    destruct (Z.eqb_spec rc 0) as [-> | Hne]; cbn [negb];
      [ | intros H; discriminate H].
    intros H. injection H as <- <-.
    split; [reflexivity | ]. split; [ | split; reflexivity].
    exists stderr. reflexivity.
  - intros (-> & (stderr & ->) & -> & ->). reflexivity.
Qed.

Lemma validate_toggle_script_no_raise (cfg : Driver.config)
    (e : Driver.env) (script_exists : bool) (exn : DriverCLI.exception)
    (out : list DriverCLI.line) :
  DriverCLI.validate_toggle_script cfg e script_exists
  <> DriverCLI.Raise exn out.
Proof.
  unfold DriverCLI.validate_toggle_script.
  destruct script_exists; cbn [negb]; [ | discriminate].
  destruct (Driver.run_process e 0 (DriverCLI.probe_cmd cfg e))
    as [rc stderr | | err]; try discriminate.
  destruct (rc =? 0); discriminate.
Qed.

Section WholeProgram.

Context {R : RandomGen} {I : Interpreter}.

Lemma run_main_loops (argv : list string)
    (parsed : option DriverCLI.namespace) (script_exists : bool)
    (e : Driver.env) (g0 : rng_state) (n : nat) (cfg : Driver.config)
    (out out' : list DriverCLI.line) (b : bool) :
  DriverCLI.parse_args argv parsed = DriverCLI.Continue cfg out ->
  DriverCLI.validate_toggle_script cfg e script_exists
  = DriverCLI.Continue b out' ->
  exists ds w,
    DriverCLI.run_main argv parsed script_exists e g0 n
    = DriverCLI.Looped cfg ds w
    /\ length ds = n
    /\ Forall (draw_in_range cfg) ds
    /\ Forall positive_sleep (Driver.w_trace w)
    /\ length (filter Driver.is_run_process (Driver.w_trace w))
       = Driver.w_runs w
    /\ (1 <= Driver.w_runs w <= 1 + 2 * n)%nat
    /\ (Driver.dry_run cfg = true ->
        filter Driver.is_run_process (Driver.w_trace w)
        = [Driver.RunProcess (DriverCLI.probe_cmd cfg e) 5]).
Proof.
  intros Hp Hv. unfold DriverCLI.run_main. rewrite Hp, Hv. cbv zeta.
  match goal with
  | |- context [Driver.chaos_loop cfg e n ?w] => set (w0 := w)
  end.
  destruct (chaos_loop_unfold cfg e n w0) as (evs0 & -> & Hview & Hnone).
  destruct (intervals_events cfg e n 0
              (advance w0 (loop_rng cfg (Driver.w_rng w0)) 0 0 evs0))
    as (ds & g & reads & runs & evs & Hi & Hlen & Hs & Hf & Hr & Hd & Hk).
  rewrite Hi. eexists _, _. split; [reflexivity | ].
  split; [exact Hlen | ].
  split; [eapply intervals_draw_range; exact Hi | ].
  unfold advance, w0. cbn [Driver.w_trace Driver.w_runs].
  split.
  { rewrite !Forall_app. split; [split | exact Hs].
    - constructor; [exact Logic.I | constructor].
    - apply no_timing_no_sleep. exact Hview. }
  split.
  { rewrite !filter_app, Hnone, !length_app, Hf. cbn. lia. }
  split; [lia | ].
  intros Hdry. rewrite !filter_app, Hnone.
  assert (E : filter Driver.is_run_process evs = []).
  { apply length_zero_iff_nil. rewrite Hf. exact (Hd Hdry). }
  rewrite E. reflexivity.
Qed.

(** The loop is entered exactly when the command line is not a request for
    help, [argparse] accepts it, [parse_interval] returns (it raises on a
    number that [int] does not convert) at least ten seconds, the Setter
    script exists and its [--help] probe exits with status 0; the
    configuration then holds the parsed interval and the options as given.
    The loop is taken here at its entry, before its first turn. *)
Theorem program_reaches_loop_iff :
  forall (argv : list string) (parsed : option DriverCLI.namespace)
         (script_exists : bool) (e : Driver.env) (g0 : rng_state)
         (cfg : Driver.config),
    (exists ds w,
        DriverCLI.run_main argv parsed script_exists e g0 0
        = DriverCLI.Looped cfg ds w)
    <-> exists first rest args stderr interval_seconds,
          argv = first :: rest
          /\ first <> "-h" /\ first <> "--help"
          /\ parsed = Some args
          /\ Driver.parse_interval (DriverCLI.ns_interval args)
             = Some interval_seconds
          /\ 10 <= interval_seconds
          /\ cfg = Driver.mk_config (DriverCLI.ns_dry_run args)
                     interval_seconds
                     (DriverCLI.ns_seed args) "./toggle-flags.py"
                     (DriverCLI.ns_base_url args)
          /\ script_exists = true
          /\ Driver.run_process e 0 (DriverCLI.probe_cmd cfg e)
             = Driver.Completed 0 stderr.
Proof.
  intros argv parsed script_exists e g0 cfg. split.
  - intros (ds & w & H).
    destruct (DriverCLI.parse_args argv parsed)
      as [code out | c out | exn out] eqn:Hp.
    { unfold DriverCLI.run_main in H. rewrite Hp in H. discriminate H. }
    2:{ unfold DriverCLI.run_main in H. rewrite Hp in H. discriminate H. }
    destruct (DriverCLI.validate_toggle_script c e script_exists)
      as [code out' | b out' | exn out'] eqn:Hv.
    { unfold DriverCLI.run_main in H. rewrite Hp, Hv in H. discriminate H. }
    2:{ unfold DriverCLI.run_main in H. rewrite Hp, Hv in H.
        discriminate H. }
    destruct (run_main_loops argv parsed script_exists e g0 0 c
                out out' b Hp Hv) as (ds' & w' & H' & _).
    rewrite H' in H. injection H as -> _ _.
    apply parse_args_continue in Hp.
    destruct Hp as (first & rest & args & L & Ha & Hh & Hhelp & Hpa & HL
                    & Hge & _ & Hc).
    apply validate_toggle_script_continue in Hv.
    destruct Hv as (Hex & (stderr & Hprobe) & _).
    exists first, rest, args, stderr, L. repeat split; assumption.
  - intros (first & rest & args & stderr & L & Ha & Hh & Hhelp & Hpa & HL
            & Hge & Hc & Hex & Hprobe).
    assert (Hp : DriverCLI.parse_args argv parsed = DriverCLI.Continue cfg []).
    { apply parse_args_continue. exists first, rest, args, L.
      repeat split; assumption. }
    assert (Hv : DriverCLI.validate_toggle_script cfg e script_exists
                 = DriverCLI.Continue true []).
    { apply validate_toggle_script_continue.
      split; [exact Hex | ]. split; [ | split; reflexivity].
      exists stderr. exact Hprobe. }
    destruct (run_main_loops argv parsed script_exists e g0 0 cfg
                [] [] true Hp Hv) as (ds & w & H & _).
    exists ds, w. exact H.
Qed.

(** In dry-run mode the program still runs one process: the [--help] probe
    of the Setter script, made before the loop with a limit of 5 seconds.
    It is the only one, however many intervals follow. *)
Theorem program_dry_run_runs_only_probe :
  forall (argv : list string) (parsed : option DriverCLI.namespace)
         (script_exists : bool) (e : Driver.env) (g0 : rng_state) (n : nat)
         (cfg : Driver.config) (out out' : list DriverCLI.line) (b : bool),
    DriverCLI.parse_args argv parsed = DriverCLI.Continue cfg out ->
    DriverCLI.validate_toggle_script cfg e script_exists
    = DriverCLI.Continue b out' ->
    Driver.dry_run cfg = true ->
    exists ds w,
      DriverCLI.run_main argv parsed script_exists e g0 n
      = DriverCLI.Looped cfg ds w
      /\ filter Driver.is_run_process (Driver.w_trace w)
         = [Driver.RunProcess (DriverCLI.probe_cmd cfg e) 5]
      /\ Driver.w_runs w = 1%nat.
Proof.
  intros argv parsed script_exists e g0 n cfg out out' b Hp Hv Hdry.
  destruct (run_main_loops argv parsed script_exists e g0 n cfg
              out out' b Hp Hv)
    as (ds & w & H & _ & _ & _ & Hf & _ & Hd).
  exists ds, w. split; [exact H | ].
  split; [exact (Hd Hdry) | ].
  rewrite <- Hf, (Hd Hdry). reflexivity.
Qed.

(** Every draw of a started program is in range: the interval is at least
    ten seconds long, the offset of every trigger lies in
    [[0, interval - 1]], the pair is one the Setter accepts, never "off",
    and a hold lasts at least one second.  With the probe counted, [n]
    intervals run at most [1 + 2 n] processes. *)
Theorem program_draws_in_range :
  forall (argv : list string) (parsed : option DriverCLI.namespace)
         (script_exists : bool) (e : Driver.env) (g0 : rng_state) (n : nat)
         (cfg : Driver.config) (out out' : list DriverCLI.line) (b : bool),
    DriverCLI.parse_args argv parsed = DriverCLI.Continue cfg out ->
    DriverCLI.validate_toggle_script cfg e script_exists
    = DriverCLI.Continue b out' ->
    exists ds w,
      DriverCLI.run_main argv parsed script_exists e g0 n
      = DriverCLI.Looped cfg ds w
      /\ length ds = n
      /\ 10 <= Driver.interval_seconds cfg
      /\ Forall (fun d =>
                   draw_in_range cfg d
                   /\ Driver.d_offset d < Driver.interval_seconds cfg) ds
      /\ (Driver.w_runs w <= 1 + 2 * n)%nat.
Proof.
  intros argv parsed script_exists e g0 n cfg out out' b Hp Hv.
  destruct (run_main_loops argv parsed script_exists e g0 n cfg
              out out' b Hp Hv)
    as (ds & w & H & Hlen & Hds & _ & _ & Hr & _).
  apply parse_args_continue in Hp.
  destruct Hp as (first & rest & args & L & _ & _ & _ & _ & _ & Hge & _
                  & Hc).
  assert (HL : 10 <= Driver.interval_seconds cfg) by (rewrite Hc; exact Hge).
  exists ds, w. split; [exact H | ]. split; [exact Hlen | ].
  split; [exact HL | ]. split; [ | lia].
  eapply Forall_impl; [ | exact Hds].
  intros d Hd. split; [exact Hd | ].
  destruct Hd as [Ho _]. lia.
Qed.

(** When the program leaves before the loop, the status is 0 exactly for a
    request for help (no argument at all, or [-h] or [--help] first) and 1
    in every other case; a line is always printed; and the probe has been
    run only if the command line was accepted, and then it failed. *)
Theorem program_exit_status :
  forall (argv : list string) (parsed : option DriverCLI.namespace)
         (script_exists : bool) (e : Driver.env) (g0 : rng_state) (n : nat)
         (code : Z) (out : list DriverCLI.line) (probed : bool),
    DriverCLI.run_main argv parsed script_exists e g0 n
    = DriverCLI.Exited code out probed ->
    (code = 0 \/ code = 1)
    /\ (code = 0
        <-> argv = []
            \/ exists first rest,
                 argv = first :: rest
                 /\ (first = "-h" \/ first = "--help"))
    /\ out <> []
    /\ (probed = true ->
        code = 1
        /\ exists cfg,
             DriverCLI.parse_args argv parsed = DriverCLI.Continue cfg []
             /\ succeeds (Driver.run_process e 0 (DriverCLI.probe_cmd cfg e))
                = false).
Proof.
  intros argv parsed script_exists e g0 n code out probed H.
  unfold DriverCLI.run_main in H.
  destruct (DriverCLI.parse_args argv parsed)
    as [code1 out1 | c out1 | exn out1] eqn:Hp.
  3:{ injection H as <- <- <-.
      unfold DriverCLI.parse_args in Hp.
      destruct argv as [| first rest]; [discriminate Hp | ].
      unfold str_in in Hp. cbn [existsb] in Hp.
      destruct (String.eqb_spec first "-h") as [-> | Hh];
        [discriminate Hp | ].
      destruct (String.eqb_spec first "--help") as [-> | Hhelp];
        [discriminate Hp | ].
      split; [auto | ]. split.
      { split; [intros Hf; discriminate Hf | ].
        intros [E | (f' & r' & E & [-> | ->])];
          [discriminate E | injection E as E1 _; contradiction
          | injection E as E1 _; contradiction]. }
      split; [ | intros Hf; discriminate Hf].
      destruct out1; discriminate. }
  - injection H as <- <- <-.
    unfold DriverCLI.parse_args in Hp.
    destruct argv as [| first rest].
    { injection Hp as <- <-. split; [auto | ].
      split; [split; auto | ]. split; [discriminate | ].
      intros Hf; discriminate Hf. }
    unfold str_in in Hp. cbn [existsb] in Hp.
    destruct (String.eqb_spec first "-h") as [-> | Hh].
    { injection Hp as <- <-. split; [auto | ].
      split; [split; [intros _; right; eauto | reflexivity] | ].
      split; [discriminate | ]. intros Hf; discriminate Hf. }
    destruct (String.eqb_spec first "--help") as [-> | Hhelp].
    { injection Hp as <- <-. split; [auto | ].
      split; [split; [intros _; right; eauto | reflexivity] | ].
      split; [discriminate | ]. intros Hf; discriminate Hf. }
    cbn [orb] in Hp.
    assert (Hno : ~ (first :: rest = []
                     \/ exists first' rest',
                          first :: rest = first' :: rest'
                          /\ (first' = "-h" \/ first' = "--help"))).
    { intros [E | (f' & r' & E & [-> | ->])];
        [discriminate E | injection E as E1 _; contradiction
        | injection E as E1 _; contradiction]. }
    destruct parsed as [args | ].
    + destruct (Driver.parse_interval (DriverCLI.ns_interval args))
        as [L | ]; [ | discriminate Hp].
      destruct (L =? 0).
      { injection Hp as <- <-. split; [auto | ].
        split; [split; [intros Hf; discriminate Hf | intros C; contradiction]
               | ].
        split; [discriminate | ]. intros Hf; discriminate Hf. }
      destruct (L <? 10).
      { injection Hp as <- <-. split; [auto | ].
        split; [split; [intros Hf; discriminate Hf | intros C; contradiction]
               | ].
        split; [discriminate | ]. intros Hf; discriminate Hf. }
      discriminate Hp.
    + injection Hp as <- <-. split; [auto | ].
      split; [split; [intros Hf; discriminate Hf | intros C; contradiction]
             | ].
      split; [discriminate | ]. intros Hf; discriminate Hf.
  - pose proof Hp as Hp'.
    apply parse_args_continue in Hp'.
    destruct Hp' as (first & rest & args & L & -> & Hh & Hhelp & _ & _ & _
                     & -> & _).
    assert (Hno : ~ (first :: rest = []
                     \/ exists first' rest',
                          first :: rest = first' :: rest'
                          /\ (first' = "-h" \/ first' = "--help"))).
    { intros [E | (f' & r' & E & [-> | ->])];
        [discriminate E | injection E as E1 _; contradiction
        | injection E as E1 _; contradiction]. }
    destruct (DriverCLI.validate_toggle_script c e script_exists)
      as [code2 out2 | b out2 | exn out2] eqn:Hv.
    + injection H as <- <- <-.
      unfold DriverCLI.validate_toggle_script in Hv.
      destruct script_exists; cbn [negb] in Hv.
      * destruct (Driver.run_process e 0 (DriverCLI.probe_cmd c e))
          as [rc stderr | | err] eqn:Hprobe.
        -- destruct (Z.eqb_spec rc 0) as [-> | Hne]; cbn [negb] in Hv;
             [discriminate Hv | ].
           injection Hv as <- <-. split; [auto | ].
           split; [split; [intros Hf; discriminate Hf
                          | intros C; contradiction] | ].
           split; [discriminate | ]. intros _. split; [reflexivity | ].
           exists c. split; [reflexivity | ].
           rewrite Hprobe. cbn [succeeds]. apply Z.eqb_neq. exact Hne.
        -- injection Hv as <- <-. split; [auto | ].
           split; [split; [intros Hf; discriminate Hf
                          | intros C; contradiction] | ].
           split; [discriminate | ]. intros _. split; [reflexivity | ].
           exists c. split; [reflexivity | rewrite Hprobe; reflexivity].
        -- injection Hv as <- <-. split; [auto | ].
           split; [split; [intros Hf; discriminate Hf
                          | intros C; contradiction] | ].
           split; [discriminate | ]. intros _. split; [reflexivity | ].
           exists c. split; [reflexivity | rewrite Hprobe; reflexivity].
      * injection Hv as <- <-. split; [auto | ].
        split; [split; [intros Hf; discriminate Hf
                       | intros C; contradiction] | ].
        split; [discriminate | ]. intros Hf; discriminate Hf.
    + destruct (run_main_loops (first :: rest) parsed script_exists e g0 n c
                  [] out2 b Hp Hv) as (ds & w & H' & _).
      unfold DriverCLI.run_main in H'. rewrite Hp, Hv in H'.
      rewrite H' in H. discriminate H.
    + exfalso. exact (validate_toggle_script_no_raise _ _ _ _ _ Hv).
Qed.

End WholeProgram.

Lemma example_parse_args (dry : bool) :
  DriverCLI.parse_args (I := sample_interpreter) (example_argv dry)
    (Some (example_namespace dry))
  = DriverCLI.Continue (example_accepted dry) [].
Proof.
  apply parse_args_continue.
  exists "15min", (tl (example_argv dry)), (example_namespace dry), 900.
  repeat split; try discriminate; lia.
Qed.

Lemma program_dry_run_example :
  exists ds w,
    DriverCLI.run_main (R := lcg) (I := sample_interpreter)
      (example_argv true)
      (Some (example_namespace true)) true example_env_ok lcg_start 3
    = DriverCLI.Looped (example_accepted true) ds w
    /\ filter Driver.is_run_process (Driver.w_trace w)
       = [Driver.RunProcess ["python"; "./toggle-flags.py"; "--help"] 5]
    /\ Driver.w_runs w = 1%nat.
Proof.
  apply (program_dry_run_runs_only_probe (R := lcg)
           (I := sample_interpreter) (example_argv true)
           (Some (example_namespace true)) true example_env_ok lcg_start 3
           (example_accepted true) [] [] true);
    [exact (example_parse_args true) | reflexivity | reflexivity].
Defined.

Lemma program_draws_example :
  exists ds w,
    DriverCLI.run_main (R := lcg) (I := sample_interpreter)
      (example_argv false)
      (Some (example_namespace false)) true example_env_ok lcg_start 3
    = DriverCLI.Looped (example_accepted false) ds w
    /\ length ds = 3%nat
    /\ 10 <= 900
    /\ Forall (fun d =>
                 draw_in_range (example_accepted false) d
                 /\ Driver.d_offset d < 900) ds
    /\ (Driver.w_runs w <= 1 + 2 * 3)%nat.
Proof.
  apply (program_draws_in_range (R := lcg) (I := sample_interpreter)
           (example_argv false)
           (Some (example_namespace false)) true example_env_ok lcg_start 3
           (example_accepted false) [] [] true);
    [exact (example_parse_args false) | reflexivity].
Defined.

Lemma program_exit_example :
  DriverCLI.run_main (R := lcg) (I := sample_interpreter) ["5sec"]
    (Some (DriverCLI.mk_namespace (codepoints "5sec") false None
             Driver.DEFAULT_BASE_URL))
    true example_env_ok lcg_start 3
  = DriverCLI.Exited 1 [DriverCLI.LineTooShort] false
  /\ (1 = 0 \/ 1 = 1).
Proof.
  split; [reflexivity | ].
  apply (program_exit_status (R := lcg) (I := sample_interpreter) ["5sec"]
           (Some (DriverCLI.mk_namespace (codepoints "5sec") false None
                    Driver.DEFAULT_BASE_URL))
           true example_env_ok lcg_start 3 1 [DriverCLI.LineTooShort] false).
  reflexivity.
Defined.

(** An interval of 4301 digits: [parse_args] lets the [ValueError] of
    [int] through, and the program ends with status 1 and a traceback,
    before the probe. *)
Lemma program_value_error_example :
  DriverCLI.run_main (R := lcg) (I := sample_interpreter)
    [String.append (string_of_list_ascii (repeat "1"%char 4301)) "sec"]
    (Some (DriverCLI.mk_namespace (repeat 49%N 4301 ++ codepoints "sec")
             false None Driver.DEFAULT_BASE_URL))
    true example_env_ok lcg_start 3
  = DriverCLI.Exited 1 [DriverCLI.LineTraceback DriverCLI.ValueError] false.
Proof.
  unfold DriverCLI.run_main.
  replace (DriverCLI.parse_args (I := sample_interpreter)
             [String.append (string_of_list_ascii (repeat "1"%char 4301))
                "sec"]
             (Some (DriverCLI.mk_namespace
                      (repeat 49%N 4301 ++ codepoints "sec")
                      false None Driver.DEFAULT_BASE_URL)))
    with (@DriverCLI.Raise Driver.config DriverCLI.ValueError [])
    by (vm_compute; reflexivity).
  reflexivity.
Qed.

(** ** The Setter's command line *)

Lemma request_In (x : SetterCLI.event) (l : list SetterCLI.event) :
  SetterCLI.is_request x = true ->
  (In x l <-> In x (filter SetterCLI.is_request l)).
Proof. intros Hx. rewrite filter_In. tauto. Qed.

Lemma list_flags_no_request (items : list (string * SetterCLI.json)) :
  filter SetterCLI.is_request (SetterCLI.list_flags items) = [].
Proof.
  induction items as [| [flag_name flag_data] items IH]; [reflexivity | ].
  destruct flag_data; try reflexivity.
  cbn [SetterCLI.list_flags filter SetterCLI.is_request]. exact IH.
Qed.

Lemma get_variant_value_empty_variant (flag_name : string) :
  Setter.get_variant_value flag_name "" = None.
Proof.
  unfold Setter.get_variant_value.
  destruct (str_in flag_name Setter.boolean_flags); [reflexivity | ].
  destruct (str_in flag_name Setter.numeric_flags); [reflexivity | ].
  destruct (flag_name == "paymentFailure"); [reflexivity | ].
  destruct (flag_name == "imageSlowLoad"); reflexivity.
Qed.

Section SetterCommandLine.

Variable requests_get : string -> SetterCLI.get_result.
Variable requests_post : string -> Setter.document -> SetterIO.http_result.

Lemma list_current_status_requests (BASE_URL : string) :
  filter SetterCLI.is_request
    (SetterCLI.list_current_status requests_get BASE_URL)
  = [SetterCLI.Get (String.append BASE_URL "/read-file") 10].
Proof.
  unfold SetterCLI.list_current_status. cbv zeta.
  rewrite filter_app. cbn [filter SetterCLI.is_request app].
  f_equal.
  destruct (requests_get _) as [code body | err | err]; try reflexivity.
  destruct (code =? 200); [ | reflexivity].
  destruct body as [data | err | err]; try reflexivity.
  destruct (SetterCLI.contains_flags data) as [[|] | ]; try reflexivity.
  destruct data as [ | b | k | q | s | items | members]; try reflexivity.
  destruct (dict_get members "flags") as [v | ]; [ | reflexivity].
  destruct v; try reflexivity. apply list_flags_no_request.
Qed.

Lemma set_flag_requests (BASE_URL flag_name variant : string) :
  filter SetterCLI.is_request
    (map SetterCLI.FromSetFlag
       (snd (SetterIO.set_flag BASE_URL requests_post flag_name variant)))
  = match Setter.get_variant_value flag_name variant with
    | Some _ =>
        [SetterCLI.FromSetFlag
           (SetterIO.Post (String.append BASE_URL "/write-to-file")
              (Setter.construct_json flag_name variant) 10)]
    | None => []
    end.
Proof.
  unfold SetterIO.set_flag.
  destruct (Setter.get_variant_value flag_name variant); [ | reflexivity].
  cbv zeta.
  destruct (requests_post _ _) as [code text | err | err];
    [destruct ((code =? 200) || (code =? 201)) | | ]; reflexivity.
Qed.

Lemma set_flag_succeeds_iff (BASE_URL flag_name variant : string) :
  fst (SetterIO.set_flag BASE_URL requests_post flag_name variant) = true
  <-> (exists value,
         Setter.get_variant_value flag_name variant = Some value)
      /\ exists status_code text,
           requests_post (String.append BASE_URL "/write-to-file")
             (Setter.construct_json flag_name variant)
           = SetterIO.HttpResponse status_code text
           /\ (status_code = 200 \/ status_code = 201).
Proof.
  unfold SetterIO.set_flag.
  destruct (Setter.get_variant_value flag_name variant) as [value | ].
  - cbv zeta.
    destruct (requests_post _ _) as [code text | err | err].
    + destruct (Z.eqb_spec code 200) as [-> | N200]; cbn [orb fst].
      * split; [intros _ | reflexivity].
        split; [eauto | ]. exists 200, text. auto.
      * destruct (Z.eqb_spec code 201) as [-> | N201]; cbn [fst].
        -- split; [intros _ | reflexivity].
           split; [eauto | ]. exists 201, text. auto.
        -- split; [intros Hf; discriminate Hf | ].
           intros (_ & c & t & E & [-> | ->]); injection E as E1 _;
             contradiction.
    + cbn [fst]. split; [intros Hf; discriminate Hf | ].
      intros (_ & c & t & E & _). discriminate E.
    + cbn [fst]. split; [intros Hf; discriminate Hf | ].
      intros (_ & c & t & E & _). discriminate E.
  - cbn [fst]. split; [intros Hf; discriminate Hf | ].
    intros ((value & E) & _). discriminate E.
Qed.

(** The requests of one invocation, by the shape of the command line. *)
Lemma main_requests (parsed : option SetterCLI.namespace) :
  filter SetterCLI.is_request
    (snd (SetterCLI.main requests_get requests_post parsed))
  = match parsed with
    | None => []
    | Some args =>
        if SetterCLI.ns_help args then []
        else
          match SetterCLI.ns_flag_name args with
          | None => []
          | Some f =>
              if f == "" then []
              else if f == "list" then
                [SetterCLI.Get
                   (String.append (SetterCLI.ns_base_url args) "/read-file")
                   10]
              else
                match SetterCLI.ns_variant args with
                | None => []
                | Some v =>
                    if v == "" then []
                    else
                      match Setter.get_variant_value f v with
                      | Some _ =>
                          [SetterCLI.FromSetFlag
                             (SetterIO.Post
                                (String.append (SetterCLI.ns_base_url args)
                                   "/write-to-file")
                                (Setter.construct_json f v) 10)]
                      | None => []
                      end
                end
          end
    end.
Proof.
  destruct parsed as [args | ]; [ | reflexivity].
  unfold SetterCLI.main. cbv zeta.
  destruct (SetterCLI.ns_help args); cbn [orb]; [reflexivity | ].
  destruct (SetterCLI.ns_flag_name args) as [f | ];
    cbn [SetterCLI.absent]; [ | reflexivity].
  destruct (f == ""); [reflexivity | ].
  destruct (f == "list");
    [cbn [snd]; apply list_current_status_requests | ].
  destruct (SetterCLI.ns_variant args) as [v | ];
    cbn [SetterCLI.absent]; [ | reflexivity].
  destruct (v == ""); [reflexivity | ].
  pose proof (set_flag_requests (SetterCLI.ns_base_url args) f v) as Hs.
  destruct (SetterIO.set_flag (SetterCLI.ns_base_url args) requests_post f v)
    as [success evs].
  cbn [snd] in Hs |- *. exact Hs.
Qed.

(** One invocation of the Setter sends at most one request.  It reads
    ([GET {base}/read-file], limit 10 seconds) exactly when the flag name is
    "list" and help was not asked; it writes ([POST {base}/write-to-file],
    limit 10 seconds) exactly when help was not asked and the flag and
    variant given are a pair of the catalog, and the body is then the
    document of [construct_json] for that pair. *)
Theorem main_sends_at_most_one_request :
  forall (parsed : option SetterCLI.namespace),
    let evs := snd (SetterCLI.main requests_get requests_post parsed) in
    (length (filter SetterCLI.is_request evs) <= 1)%nat
    /\ (forall url timeout,
          In (SetterCLI.Get url timeout) evs
          <-> exists args,
                parsed = Some args
                /\ SetterCLI.ns_help args = false
                /\ SetterCLI.ns_flag_name args = Some "list"
                /\ url = String.append (SetterCLI.ns_base_url args)
                           "/read-file"
                /\ timeout = 10)
    /\ (forall url doc timeout,
          In (SetterCLI.FromSetFlag (SetterIO.Post url doc timeout)) evs
          <-> exists args f v,
                parsed = Some args
                /\ SetterCLI.ns_help args = false
                /\ SetterCLI.ns_flag_name args = Some f
                /\ SetterCLI.ns_variant args = Some v
                /\ (exists value,
                      Setter.get_variant_value f v = Some value)
                /\ url = String.append (SetterCLI.ns_base_url args)
                           "/write-to-file"
                /\ doc = Setter.construct_json f v
                /\ timeout = 10).
Proof.
  intros parsed evs. subst evs. split; [ | split].
  - rewrite main_requests.
    destruct parsed as [args | ]; [ | cbn; lia].
    destruct (SetterCLI.ns_help args); [cbn; lia | ].
    destruct (SetterCLI.ns_flag_name args) as [f | ]; [ | cbn; lia].
    destruct (f == ""); [cbn; lia | ].
    destruct (f == "list"); [cbn; lia | ].
    destruct (SetterCLI.ns_variant args) as [v | ]; [ | cbn; lia].
    destruct (v == ""); [cbn; lia | ].
    destruct (Setter.get_variant_value f v); cbn; lia.
  - intros url timeout.
    rewrite request_In by reflexivity. rewrite main_requests.
    destruct parsed as [args | ].
    2:{ split; [intros [] | intros (a & E & _); discriminate E]. }
    destruct (SetterCLI.ns_help args) eqn:Hhelp.
    { split; [intros [] | ].
      intros (a & E & Hh & _). injection E as <-. congruence. }
    destruct (SetterCLI.ns_flag_name args) as [f | ] eqn:Hf.
    2:{ split; [intros [] | ].
        intros (a & E & _ & Hl & _). injection E as <-. congruence. }
    destruct (String.eqb_spec f "") as [-> | Hne].
    { split; [intros [] | ].
      intros (a & E & _ & Hl & _). injection E as <-.
      rewrite Hf in Hl. discriminate Hl. }
    destruct (String.eqb_spec f "list") as [-> | Hnl].
    { split.
      - intros [E | []]. injection E as <- <-.
        exists args. auto.
      - intros (a & E & _ & _ & -> & ->). injection E as <-.
        left. reflexivity. }
    assert (Hno : ~ exists a,
               Some args = Some a
               /\ SetterCLI.ns_help a = false
               /\ SetterCLI.ns_flag_name a = Some "list"
               /\ url = String.append (SetterCLI.ns_base_url a) "/read-file"
               /\ timeout = 10).
    { intros (a & E & _ & Hl & _). injection E as <-.
      rewrite Hf in Hl. injection Hl as Hl. contradiction. }
    destruct (SetterCLI.ns_variant args) as [v | ].
    2:{ split; [intros [] | intros C; contradiction]. }
    destruct (v == ""); [split; [intros [] | intros C; contradiction] | ].
    destruct (Setter.get_variant_value f v).
    + split; [intros [E | []]; discriminate E | intros C; contradiction].
    + split; [intros [] | intros C; contradiction].
  - intros url doc timeout.
    rewrite request_In by reflexivity. rewrite main_requests.
    destruct parsed as [args | ].
    2:{ split; [intros [] | intros (a & f & v & E & _); discriminate E]. }
    destruct (SetterCLI.ns_help args) eqn:Hhelp.
    { split; [intros [] | ].
      intros (a & f & v & E & Hh & _). injection E as <-. congruence. }
    destruct (SetterCLI.ns_flag_name args) as [f | ] eqn:Hf.
    2:{ split; [intros [] | ].
        intros (a & f & v & E & _ & Hl & _). injection E as <-.
        congruence. }
    destruct (String.eqb_spec f "") as [-> | Hne].
    { split; [intros [] | ].
      intros (a & f & v & E & _ & Hl & _ & (value & Hval) & _).
      injection E as <-. rewrite Hf in Hl. injection Hl as <-.
      vm_compute in Hval. discriminate Hval. }
    destruct (String.eqb_spec f "list") as [-> | Hnl].
    { split; [intros [E | []]; discriminate E | ].
      intros (a & f & v & E & _ & Hl & _ & (value & Hval) & _).
      injection E as <-. rewrite Hf in Hl. injection Hl as <-.
      vm_compute in Hval. discriminate Hval. }
    destruct (SetterCLI.ns_variant args) as [v | ] eqn:Hv.
    2:{ split; [intros [] | ].
        intros (a & f' & v & E & _ & _ & Hl & _). injection E as <-.
        congruence. }
    destruct (String.eqb_spec v "") as [-> | Hnv].
    { split; [intros [] | ].
      intros (a & f' & v & E & _ & Hl & Hl' & (value & Hval) & _).
      injection E as <-. rewrite Hv in Hl'. injection Hl' as <-.
      rewrite get_variant_value_empty_variant in Hval. discriminate Hval. }
    destruct (Setter.get_variant_value f v) as [value | ] eqn:Hval.
    + split.
      * intros [E | []]. injection E as <- <- <-.
        exists args, f, v. repeat split; eauto.
      * intros (a & f' & v' & E & _ & Hl & Hl' & _ & -> & -> & ->).
        injection E as <-. rewrite Hf in Hl. injection Hl as <-.
        rewrite Hv in Hl'. injection Hl' as <-. left. reflexivity.
    + split; [intros [] | ].
      intros (a & f' & v' & E & _ & Hl & Hl' & (value & Hval') & _).
      injection E as <-. rewrite Hf in Hl. injection Hl as <-.
      rewrite Hv in Hl'. injection Hl' as <-. congruence.
Qed.

(** The exit status of the Setter is 0 or 1.  It is 0 exactly when
    [argparse] accepted the command line and help was asked, or no flag
    name was given, or the flag name is "list" (whatever the service
    answered, or did not), or the pair was valid and the service answered
    the write with status 200 or 201. *)
Theorem main_exit_status :
  forall (parsed : option SetterCLI.namespace),
    let code := fst (SetterCLI.main requests_get requests_post parsed) in
    (code = 0 \/ code = 1)
    /\ (code = 0
        <-> exists args,
              parsed = Some args
              /\ (SetterCLI.ns_help args = true
                  \/ SetterCLI.ns_flag_name args = None
                  \/ SetterCLI.ns_flag_name args = Some ""
                  \/ SetterCLI.ns_flag_name args = Some "list"
                  \/ exists f v status_code text,
                       SetterCLI.ns_flag_name args = Some f
                       /\ SetterCLI.ns_variant args = Some v
                       /\ (exists value,
                             Setter.get_variant_value f v = Some value)
                       /\ requests_post
                            (String.append (SetterCLI.ns_base_url args)
                               "/write-to-file")
                            (Setter.construct_json f v)
                          = SetterIO.HttpResponse status_code text
                       /\ (status_code = 200 \/ status_code = 201))).
Proof.
  intros parsed code. subst code.
  destruct parsed as [args | ].
  2:{ cbn. split; [auto | ].
      split; [intros Hf; discriminate Hf | ].
      intros (a & E & _). discriminate E. }
  unfold SetterCLI.main. cbv zeta.
  destruct (SetterCLI.ns_help args) eqn:Hhelp; cbn [orb].
  { cbn [fst]. split; [auto | ]. split; [intros _ | reflexivity].
    exists args. auto. }
  destruct (SetterCLI.ns_flag_name args) as [f | ] eqn:Hf;
    cbn [SetterCLI.absent].
  2:{ cbn [fst]. split; [auto | ]. split; [intros _ | reflexivity].
      exists args. auto. }
  destruct (String.eqb_spec f "") as [-> | Hne].
  { cbn [fst]. split; [auto | ]. split; [intros _ | reflexivity].
    exists args. auto. }
  destruct (String.eqb_spec f "list") as [-> | Hnl].
  { cbn [fst]. split; [auto | ]. split; [intros _ | reflexivity].
    exists args. auto 6. }
  destruct (SetterCLI.ns_variant args) as [v | ] eqn:Hv;
    cbn [SetterCLI.absent].
  2:{ cbn [fst]. split; [auto | ].
      split; [intros Hc; discriminate Hc | ].
      intros (a & E & [Hh | [Hn | [He | [Hl | Hset]]]]);
        injection E as <-; try congruence.
      destruct Hset as (f' & v' & c & t & _ & Hv' & _). congruence. }
  destruct (String.eqb_spec v "") as [-> | Hnv].
  { cbn [fst]. split; [auto | ].
    split; [intros Hc; discriminate Hc | ].
    intros (a & E & [Hh | [Hn | [He | [Hl | Hset]]]]);
      injection E as <-; try congruence.
    destruct Hset as (f' & v' & c & t & Hf' & Hv' & (value & Hval) & _).
    rewrite Hf in Hf'. injection Hf' as <-.
    rewrite Hv in Hv'. injection Hv' as <-.
    rewrite get_variant_value_empty_variant in Hval. discriminate Hval. }
  pose proof (set_flag_succeeds_iff (SetterCLI.ns_base_url args) f v) as Hs.
  destruct (SetterIO.set_flag (SetterCLI.ns_base_url args) requests_post f v)
    as [success evs].
  cbn [fst] in Hs |- *.
  destruct success.
  - split; [auto | ]. split; [intros _ | reflexivity].
    destruct (proj1 Hs eq_refl) as (Hval & c & t & Hpost & Hcode).
    exists args. split; [reflexivity | ].
    right. right. right. right. exists f, v, c, t. auto.
  - split; [auto | ]. split; [intros Hc; discriminate Hc | ].
    intros (a & E & [Hh | [Hn | [He | [Hl | Hset]]]]);
      injection E as <-; try congruence.
    destruct Hset as (f' & v' & c & t & Hf' & Hv' & Hval & Hpost & Hcode).
    rewrite Hf in Hf'. injection Hf' as <-.
    rewrite Hv in Hv'. injection Hv' as <-.
    assert (Hfalse : false = true); [ | discriminate Hfalse].
    apply Hs. split; [exact Hval | ]. exists c, t. auto.
Qed.

(** Listing after a write.  When the service answers [/read-file] with the
    ["data"] member of the document written for a pair, the listing prints
    one line for each of the eleven flags, in catalog order, with the flag's
    description and its default variant: the variant written for the target
    flag, "on" for productCatalogFailure when it is not the target, "off"
    for every other flag.  When the service answers with the payload as it
    was posted, wrapped in ["data"], the listing finds no flags. *)
Theorem list_after_set :
  forall (BASE_URL flag_name variant : string),
    let url := String.append BASE_URL "/read-file" in
    let doc := Setter.construct_json flag_name variant in
    (requests_get url
     = SetterCLI.GetResponse 200
         (SetterCLI.JsonValue (SetterCLI.document_json doc)) ->
     SetterCLI.list_current_status requests_get BASE_URL
     = [SetterCLI.Out SetterCLI.CliFetching; SetterCLI.Get url 10]
       ++ map (fun f =>
                 SetterCLI.Out
                   (SetterCLI.CliFlag f
                      (SetterCLI.JStr
                         (if f == flag_name then variant
                          else if f == "productCatalogFailure" then "on"
                          else "off"))
                      (SetterCLI.JStr (Setter.get_flag_description f))))
              Setter.all_flags)
    /\ (requests_get url
        = SetterCLI.GetResponse 200
            (SetterCLI.JsonValue (SetterCLI.payload_json doc)) ->
        SetterCLI.list_current_status requests_get BASE_URL
        = [SetterCLI.Out SetterCLI.CliFetching; SetterCLI.Get url 10;
           SetterCLI.Out SetterCLI.CliNoFlags]).
Proof.
  intros BASE_URL flag_name variant url doc. subst url doc. split.
  - intros Hget. unfold SetterCLI.list_current_status. cbv zeta.
    rewrite Hget. reflexivity.
  - intros Hget. unfold SetterCLI.list_current_status. cbv zeta.
    rewrite Hget. reflexivity.
Qed.

End SetterCommandLine.

Lemma list_after_set_example :
  SetterCLI.list_current_status
    (fun _ =>
       SetterCLI.GetResponse 200
         (SetterCLI.JsonValue
            (SetterCLI.document_json
               (Setter.construct_json "paymentFailure" "50%"))))
    "http://flagd-ui:4000/feature/api"
  = [SetterCLI.Out SetterCLI.CliFetching;
     SetterCLI.Get "http://flagd-ui:4000/feature/api/read-file" 10]
    ++ map (fun fv =>
              SetterCLI.Out
                (SetterCLI.CliFlag (fst fv) (SetterCLI.JStr (snd fv))
                   (SetterCLI.JStr (Setter.get_flag_description (fst fv)))))
         [ ("productCatalogFailure", "on");
           ("recommendationCacheFailure", "off");
           ("adManualGc", "off");
           ("adHighCpu", "off");
           ("adFailure", "off");
           ("kafkaQueueProblems", "off");
           ("cartFailure", "off");
           ("paymentFailure", "50%");
           ("paymentUnreachable", "off");
           ("loadGeneratorFloodHomepage", "off");
           ("imageSlowLoad", "off") ].
Proof.
  exact (proj1 (list_after_set _ "http://flagd-ui:4000/feature/api"
                  "paymentFailure" "50%") eq_refl).
Defined.
